(** * Enum support of the sip module (sip_enum.c, ABI 13)

    A shallow embedding of [sipbuild/module/source/13/sip_enum.c].

    The C code talks to the Python interpreter through the C API and to the
    rest of the sip module through a handful of helpers.  The embedding keeps
    the control flow of every function of the file: a C function becomes a
    computation in the monad [M], which threads the interpreter state
    ([World]) and has three ways to end: it returns (with the C return value,
    [None] standing for a NULL pointer), it aborts on a failed [assert], or
    its behaviour is undefined (a NULL or dangling pointer is dereferenced,
    an array is read out of bounds). *)

From stdpp Require Import base list strings.
From Stdlib Require Import ZArith Lia.

Local Open Scope Z_scope.

(** ** C integers *)

Definition INT_MIN : Z := -2147483648.
Definition INT_MAX : Z := 2147483647.
Definition UINT_MAX : Z := 4294967295.

(** [(unsigned)z] for a 32-bit [int] or wider integer [z]. *)
Definition cast_unsigned (z : Z) : Z := z mod 4294967296.

(** [(int)z] for a 32-bit [unsigned] or wider integer [z]. *)
Definition cast_int (z : Z) : Z := (z + 2147483648) mod 4294967296 - 2147483648.

(** ** Python objects *)

Inductive exc_kind :=
| ImportError | AttributeError | TypeError | ValueError
| MemoryError | OverflowError | SystemError.

Record PyErr := mkErr { exc_type : exc_kind; exc_msg : string }.

(** A [PyObject *].  Immutable values are modelled by their contents; type
    objects are mutable and live in the heap, [PyType a] is the pointer to
    the type object at address [a]; [PyInstance cls v] is an instance of the
    heap type at [cls] whose [value] attribute is [v] (an enum member). *)
Inductive PyObject :=
| PyLong (z : Z)
| PyUnicode (s : string)
| PyCapsule (pointer : nat)
| PyType (addr : nat)
| PyInstance (cls : nat) (value : PyObject).

Definition PyObject_eq_dec : forall x y : PyObject, {x = y} + {x <> y}.
Proof.
  decide equality;
    solve [apply Z.eq_dec | apply String.string_dec | apply Nat.eq_dec].
Defined.

#[global] Instance PyObject_eq_decision : EqDecision PyObject := PyObject_eq_dec.

(** A dict keeps its keys in insertion order; setting an existing key keeps
    its place. *)
Definition PyDict := list (PyObject * PyObject).

Fixpoint dict_set (d : PyDict) (k v : PyObject) : PyDict :=
  match d with
  | [] => [(k, v)]
  | (k', v') :: d' =>
      if decide (k' = k) then (k, v) :: d' else (k', v') :: dict_set d' k v
  end.

Fixpoint dict_get (d : PyDict) (k : PyObject) : option PyObject :=
  match d with
  | [] => None
  | (k', v') :: d' => if decide (k' = k) then Some v' else dict_get d' k
  end.

(** A heap type object: a class of the host, among them the four classes of
    the [enum] module and every enum type this file creates. *)
Record PyTypeObject := mkType {
  ob_type_name : string;        (* Py_TYPE(t)->tp_name, the metaclass *)
  tp_name : string;
  ht_qualname : string;
  tp_module : option PyObject;
  tp_bases : list nat;
  tp_members : PyDict;          (* the members of an enum type, name -> value *)
  tp_dict : PyDict;             (* attributes set on the type object *)
  tp_slots : option nat;        (* slots added by sip_add_type_slots *)
  ob_refcnt : Z                 (* the references held outside the host *)
}.

Definition with_refcnt (n : Z) (t : PyTypeObject) : PyTypeObject :=
  mkType (ob_type_name t) (tp_name t) (ht_qualname t) (tp_module t) (tp_bases t)
         (tp_members t) (tp_dict t) (tp_slots t) n.

Definition with_dict (d : PyDict) (t : PyTypeObject) : PyTypeObject :=
  mkType (ob_type_name t) (tp_name t) (ht_qualname t) (tp_module t) (tp_bases t)
         (tp_members t) d (tp_slots t) (ob_refcnt t).

Definition with_slots (s : option nat) (t : PyTypeObject) : PyTypeObject :=
  mkType (ob_type_name t) (tp_name t) (ht_qualname t) (tp_module t) (tp_bases t)
         (tp_members t) (tp_dict t) s (ob_refcnt t).

(** ** The generated structures of sip.h *)

(** Modelled from the spec: the tags of [etd_base_type], which sip.h
    declares.  The spec names the flavours plain, unsigned-plain, flag and
    unsigned-flag; the code tests one tag more, [SIP_ENUM_INT_ENUM], the
    signed integer enum.  Only that the five tags differ matters. *)
Inductive sipEnumBaseType :=
| SIP_ENUM_ENUM
| SIP_ENUM_FLAG
| SIP_ENUM_INT_ENUM
| SIP_ENUM_INT_FLAG
| SIP_ENUM_UINT_ENUM.

#[global] Instance sipEnumBaseType_eq_decision : EqDecision sipEnumBaseType.
Proof. solve_decision. Defined.

(** Modelled from the spec: the descriptor of an enum type, which sip.h
    declares, with the fields that the file reads: the slot of the Python
    object, the name, the flavour tag, the owning scope (an index in the
    types of the module, negative when there is none), the number of
    members and the optional extra behaviour. *)
Record sipEnumTypeDef := mkEnumTypeDef {
  td_py_type : option PyObject;      (* etd_base.td_py_type *)
  etd_name : string;                 (* sipPyNameOfEnum(etd) *)
  etd_base_type : sipEnumBaseType;
  etd_scope : Z;
  etd_nr_members : Z;
  etd_pyslots : option nat
}.

(** Modelled from the spec: a generated type structure is that of an enum or
    of another kind of type (a class, a namespace), of which only the Python
    type object matters here. *)
Inductive sipTypeDef :=
| EnumTypeDef (etd : sipEnumTypeDef)
| OtherTypeDef (py_type : option PyObject).

(** Modelled from the spec: the macros of sip.h that the file uses on a
    type structure. *)
Definition sipTypeIsEnum (td : sipTypeDef) : bool :=
  match td with EnumTypeDef _ => true | OtherTypeDef _ => false end.

Definition sipTypeAsPyTypeObject (td : sipTypeDef) : option PyObject :=
  match td with
  | EnumTypeDef etd => td_py_type etd
  | OtherTypeDef t => t
  end.

Definition sipPyNameOfEnum (etd : sipEnumTypeDef) : string := etd_name etd.

Definition set_py_type (o : option PyObject) (etd : sipEnumTypeDef)
  : sipEnumTypeDef :=
  mkEnumTypeDef o (etd_name etd) (etd_base_type etd) (etd_scope etd)
                (etd_nr_members etd) (etd_pyslots etd).

(** Modelled from the spec: an entry of the flat table of members, a name
    and an [int]; the table ends with an entry whose name is NULL, which is
    what the assert of the loop of [create_enum_object] looks at. *)
Record sipIntInstanceDef := mkInt { ii_name : option string; ii_val : Z }.

(** Modelled from the spec: the part of [sipExportedModuleDef] that the file
    reads, the name object of the module and its types: pointers are
    addresses in the store of type structures. *)
Record sipExportedModuleDef := mkModule {
  em_nameobj : option PyObject;
  em_types : list nat
}.

(** ** The static variables of the file *)

Record Statics := mkStatics {
  enum_type : option PyObject;
  int_enum_type : option PyObject;
  flag_type : option PyObject;
  int_flag_type : option PyObject;
  str_dunder_sip : option PyObject;
  str_module : option PyObject;
  str_qualname : option PyObject;
  str_value : option PyObject
}.

(** ** The state *)

Record World := mkWorld {
  heap : list PyTypeObject;                 (* type objects, by address *)
  typedefs : list sipTypeDef;               (* generated types, by address *)
  int_instances : list sipIntInstanceDef;   (* the generated table *)
  sys_modules : list (string * list (string * PyObject));
  statics : Statics;
  error : option PyErr;                     (* the error indicator *)
  faults : list bool                        (* which host calls will fail *)
}.

Definition set_heap (h : list PyTypeObject) (w : World) : World :=
  mkWorld h (typedefs w) (int_instances w) (sys_modules w) (statics w)
          (error w) (faults w).

Definition set_typedefs (t : list sipTypeDef) (w : World) : World :=
  mkWorld (heap w) t (int_instances w) (sys_modules w) (statics w)
          (error w) (faults w).

Definition set_statics (s : Statics) (w : World) : World :=
  mkWorld (heap w) (typedefs w) (int_instances w) (sys_modules w) s
          (error w) (faults w).

Definition set_error (e : option PyErr) (w : World) : World :=
  mkWorld (heap w) (typedefs w) (int_instances w) (sys_modules w) (statics w)
          e (faults w).

Definition set_faults (f : list bool) (w : World) : World :=
  mkWorld (heap w) (typedefs w) (int_instances w) (sys_modules w) (statics w)
          (error w) f.

(** ** The monad of C computations *)

Inductive outcome (A : Type) : Type :=
| Ret (a : A) (w : World)
| Abort
| Undefined.

Arguments Ret {A} a w.
Arguments Abort {A}.
Arguments Undefined {A}.

Definition M (A : Type) : Type := World -> outcome A.

Definition ret {A} (a : A) : M A := fun w => Ret a w.

Definition bind {A B} (m : M A) (k : A -> M B) : M B :=
  fun w =>
    match m w with
    | Ret a w' => k a w'
    | Abort => Abort
    | Undefined => Undefined
    end.

Definition undefined {A} : M A := fun _ => Undefined.
Definition abort {A} : M A := fun _ => Abort.
Definition get_world : M World := fun w => Ret w w.
Definition modify (f : World -> World) : M unit := fun w => Ret tt (f w).

Declare Scope c_scope.
Delimit Scope c_scope with C.
Notation "x <- m ;; k" := (bind m (fun x => k))
  (at level 100, m at next level, right associativity) : c_scope.
Notation "m ;; k" := (bind m (fun _ => k))
  (at level 100, right associativity) : c_scope.
Local Open Scope c_scope.

(** Reading through a pointer that may be NULL. *)
Definition deref {A} (p : option A) : M A :=
  match p with Some a => ret a | None => undefined end.

Definition load_type (a : nat) : M PyTypeObject :=
  w <- get_world ;; deref (heap w !! a).

Definition store_type (a : nat) (t : PyTypeObject) : M unit :=
  modify (fun w => set_heap (<[a := t]> (heap w)) w).

Definition load_typedef (p : nat) : M sipTypeDef :=
  w <- get_world ;; deref (typedefs w !! p).

(** ** The Python C API *)

Definition PyErr_SetString (k : exc_kind) (msg : string) : M unit :=
  modify (set_error (Some (mkErr k msg))).

Definition PyErr_Clear : M unit := modify (set_error None).

Definition PyErr_Occurred : M bool :=
  w <- get_world ;; ret (bool_decide (error w <> None)).

(** Whether the next fallible call of the host fails: the answers are part
    of the state, an exhausted list means that nothing fails any more. *)
Definition host_fault : M bool :=
  fun w =>
    match faults w with
    | [] => Ret false w
    | b :: fs => Ret b (set_faults fs w)
    end.

(** A call that allocates fails with [MemoryError] when the host says so. *)
Definition alloc {A} (k : M (option A)) : M (option A) :=
  b <- host_fault ;;
  if b : bool then (PyErr_SetString MemoryError "out of memory" ;; ret None) else k.

(** Reference counts are kept for type objects; the other objects are
    values.  The count of a type object is that of the references which the
    code of the module, the containers it fills and the attributes it sets
    hold: the references that the host keeps inside its own structures (the
    members of an enum class refer to the class, and so does its method
    resolution order) are not counted.  The count of the host is the one of
    the model plus those, so that a difference of two counts is the same in
    both, and a count of the model that has gone back to where it was says
    that every reference taken was given back. *)
Definition Py_INCREF (o : PyObject) : M unit :=
  match o with
  | PyType a => t <- load_type a ;; store_type a (with_refcnt (ob_refcnt t + 1) t)
  | _ => ret tt
  end.

Definition Py_DECREF (o : PyObject) : M unit :=
  match o with
  | PyType a => t <- load_type a ;; store_type a (with_refcnt (ob_refcnt t - 1) t)
  | _ => ret tt
  end.

Definition Py_XDECREF (o : option PyObject) : M unit :=
  match o with Some o => Py_DECREF o | None => ret tt end.

Definition PyDict_New : M (option PyDict) := alloc (ret (Some [])).

Definition PyLong_FromLong (z : Z) : M (option PyObject) :=
  alloc (ret (Some (PyLong z))).

Definition PyLong_FromUnsignedLong (z : Z) : M (option PyObject) :=
  alloc (ret (Some (PyLong z))).

Definition PyUnicode_FromString (s : string) : M (option PyObject) :=
  alloc (ret (Some (PyUnicode s))).

Definition PyCapsule_New (pointer : nat) : M (option PyObject) :=
  alloc (ret (Some (PyCapsule pointer))).

Definition PyTuple_Pack2 (a : PyObject) (b : PyDict)
  : M (option (PyObject * PyDict)) :=
  alloc (ret (Some (a, b))).

(** [PyDict_SetItem]: the dict is passed and returned, the C return value
    comes first. *)
Definition PyDict_SetItem (d : PyDict) (key value : option PyObject)
  : M (Z * PyDict) :=
  k <- deref key ;;
  v <- deref value ;;
  b <- host_fault ;;
  if b : bool then (PyErr_SetString MemoryError "out of memory" ;; ret (-1, d))
  else
    Py_INCREF v ;;
    Py_XDECREF (dict_get d k) ;;
    ret (0, dict_set d k v).

Definition PyDict_SetItemString (d : PyDict) (key : option string)
    (value : option PyObject) : M (Z * PyDict) :=
  k <- deref key ;;
  PyDict_SetItem d (Some (PyUnicode k)) value.

(** [PyType_IsSubtype]: [b] is [a] or one of its ancestors.  A base is
    created before the types that derive from it, so that the number of
    type objects bounds the length of a chain of bases. *)
Fixpoint subtype_fuel (h : list PyTypeObject) (fuel : nat) (a b : nat) : bool :=
  bool_decide (a = b) ||
  match fuel with
  | O => false
  | S f =>
      match h !! a with
      | Some t => existsb (fun p => subtype_fuel h f p b) (tp_bases t)
      | None => false
      end
  end.

Definition PyType_IsSubtype (h : list PyTypeObject) (a b : nat) : bool :=
  subtype_fuel h (length h) a b.

(** [PyObject_IsSubclass(derived, cls)]: 1, 0, or -1 with [TypeError] when
    one of the two is not a class. *)
Definition PyObject_IsSubclass (derived : PyObject) (cls : option PyObject)
  : M Z :=
  c <- deref cls ;;
  match c, derived with
  | PyType b, PyType a =>
      load_type b ;;
      load_type a ;;
      w <- get_world ;;
      ret (if PyType_IsSubtype (heap w) a b then 1 else 0)
  | PyType _, _ =>
      PyErr_SetString TypeError "issubclass() arg 1 must be a class" ;;
      ret (-1)
  | _, _ =>
      PyErr_SetString TypeError "issubclass() arg 2 must be a class" ;;
      ret (-1)
  end.

(** [PyObject_IsInstance(inst, cls)]: whether the type of [inst] is [cls] or
    derives from it. *)
Definition PyObject_IsInstance (inst : PyObject) (cls : option PyObject)
  : M Z :=
  c <- deref cls ;;
  match c with
  | PyType b =>
      load_type b ;;
      match inst with
      | PyInstance a _ =>
          load_type a ;;
          w <- get_world ;;
          ret (if PyType_IsSubtype (heap w) a b then 1 else 0)
      | _ => ret 0
      end
  | _ =>
      PyErr_SetString TypeError "isinstance() arg 2 must be a type" ;;
      ret (-1)
  end.

(** [Py_TYPE(obj)->tp_name]. *)
Definition Py_TYPE_tp_name (obj : PyObject) : M string :=
  match obj with
  | PyLong _ => ret "int"%string
  | PyUnicode _ => ret "str"%string
  | PyCapsule _ => ret "PyCapsule"%string
  | PyType a => t <- load_type a ;; ret (ob_type_name t)
  | PyInstance a _ => t <- load_type a ;; ret (tp_name t)
  end.

(** [PyObject_GetAttr]: an enum member has its [value], a type object the
    attributes set on it. *)
Definition PyObject_GetAttr (obj : PyObject) (name : option PyObject)
  : M (option PyObject) :=
  n <- deref name ;;
  match obj with
  | PyInstance a v =>
      load_type a ;;
      if decide (n = PyUnicode "value") then Py_INCREF v ;; ret (Some v)
      else PyErr_SetString AttributeError "no such attribute" ;; ret None
  | PyType a =>
      t <- load_type a ;;
      match dict_get (tp_dict t) n with
      | Some v => Py_INCREF v ;; ret (Some v)
      | None => PyErr_SetString AttributeError "no such attribute" ;; ret None
      end
  | _ => PyErr_SetString AttributeError "no such attribute" ;; ret None
  end.

(** [PyObject_SetAttr]: only type objects take new attributes. *)
Definition PyObject_SetAttr (obj : PyObject) (name : option PyObject)
    (value : PyObject) : M Z :=
  n <- deref name ;;
  match obj with
  | PyType a =>
      load_type a ;;
      b <- host_fault ;;
      if b : bool then PyErr_SetString MemoryError "out of memory" ;; ret (-1)
      else
        Py_INCREF value ;;
        t <- load_type a ;;
        Py_XDECREF (dict_get (tp_dict t) n) ;;
        t <- load_type a ;;
        store_type a (with_dict (dict_set (tp_dict t) n value) t) ;;
        ret 0
  | _ => PyErr_SetString AttributeError "no such attribute" ;; ret (-1)
  end.

(** *** The names of an enum class

    The functional API of the [enum] module does not make a member of every
    name of the dict it is given (enum.py of Python 3.11, [_EnumDict] and
    [EnumType.__new__], for values that are ints): a private name
    ([_Cls__x]) and a dunder name ([__x__]) stay plain attributes of the
    class, of the sunder names ([_x_]) the module accepts the few that it
    defines itself and refuses the others, [mro] and the empty name are
    refused, and a few names that steer the creation of the class make it
    fail.  Every other name becomes a member. *)

(** [_is_dunder(name)]. *)
Definition is_dunder (name : string) : bool :=
  let n := String.length name in
  (4 <? n)%nat
  && bool_decide (String.substring 0 2 name = "__"%string)
  && bool_decide (String.substring (n - 2) 2 name = "__"%string)
  && negb (bool_decide (String.substring 2 1 name = "_"%string))
  && negb (bool_decide (String.substring (n - 3) 1 name = "_"%string)).

(** [_is_sunder(name)]. *)
Definition is_sunder (name : string) : bool :=
  let n := String.length name in
  (2 <? n)%nat
  && bool_decide (String.substring 0 1 name = "_"%string)
  && bool_decide (String.substring (n - 1) 1 name = "_"%string)
  && negb (bool_decide (String.substring 1 1 name = "_"%string))
  && negb (bool_decide (String.substring (n - 2) 1 name = "_"%string)).

(** [_is_private(cls_name, name)]. *)
Definition is_private (cls_name name : string) : bool :=
  let pattern := ("_" +:+ cls_name +:+ "__")%string in
  let n := String.length name in
  (String.length pattern <? n)%nat
  && String.prefix pattern name
  && negb (bool_decide (String.substring (n - 1) 1 name = "_"%string)
           && bool_decide (String.substring (n - 2) 1 name = "_"%string)).

(** The sunder names that the module accepts, the dunder names with which
    the creation of the class fails, and the methods that the making of a
    member calls. *)
Definition accepted_sunder : list string :=
  [ "_generate_next_value_"; "_numeric_repr_"; "_missing_"; "_iter_member_";
    "_iter_member_by_value_"; "_iter_member_by_def_" ]%string.

Definition class_breaking : list string :=
  [ "__classcell__"; "__slots__" ]%string.

Definition member_methods : list string :=
  [ "__getattr__"; "__getattribute__"; "__init__"; "__setattr__" ]%string.

(** What becomes of an entry of the dict.  A refusal comes with the step
    that raises it: 1 when the name is entered into the namespace of the
    class, 2 when the names of the members are checked, 3 when the class is
    created, 5 when the order of the members is checked.  An int in the
    place of a method that the making of a member calls is an error of step
    4 when there is a member, and is otherwise kept as an attribute or, for
    [__new__], dropped. *)
Inductive name_kind :=
| MemberName
| AttributeName
| DroppedName
| RefusedName (step : nat) (e : PyErr)
| MethodName (kept : bool).

(** [_order_] and [__order__] are read as a list of names: 0 is no list,
    another int is not one. *)
Definition name_order (v : PyObject) : name_kind :=
  if decide (v = PyLong 0) then DroppedName
  else RefusedName 5 (mkErr TypeError "'int' object is not iterable").

(** [qualified] says that the call gives a qualified name, which replaces
    an entry [__qualname__]; the module of the call replaces an entry
    [__module__]. *)
Definition classify (cls_name : string) (qualified : bool)
    (kv : PyObject * PyObject) : name_kind :=
  match kv.1 with
  | PyUnicode key =>
      if is_private cls_name key then AttributeName
      else if is_sunder key then
        if decide (key = "_ignore_"%string)
        then RefusedName 1 (mkErr TypeError "'int' object is not iterable")
        else if decide (key = "_order_"%string) then name_order kv.2
        else if bool_decide (key ∈ accepted_sunder) then AttributeName
        else RefusedName 1
               (mkErr ValueError
                  "_sunder_ names are reserved for future Enum use")
      else if is_dunder key then
        if decide (key = "__order__"%string) then name_order kv.2
        else if decide (key = "__module__"%string) then DroppedName
        else if decide (key = "__qualname__"%string) then
          if qualified then DroppedName
          else RefusedName 3
                 (mkErr TypeError "type __qualname__ must be a str, not int")
        else if bool_decide (key ∈ class_breaking)
        then RefusedName 3 (mkErr TypeError "invalid class attribute")
        else if decide (key = "__new__"%string) then MethodName false
        else if bool_decide (key ∈ member_methods) then MethodName true
        else AttributeName
      else if bool_decide (key = "mro"%string)
              || bool_decide (key = EmptyString)
      then RefusedName 2 (mkErr ValueError "invalid enum member name(s)")
      else MemberName
  | _ => RefusedName 1 (mkErr TypeError "cannot unpack non-iterable object")
  end.

Definition is_member (cls_name : string) (qualified : bool)
    (kv : PyObject * PyObject) : bool :=
  match classify cls_name qualified kv with MemberName => true | _ => false end.

Definition is_attribute (cls_name : string) (qualified : bool)
    (kv : PyObject * PyObject) : bool :=
  match classify cls_name qualified kv with
  | AttributeName | MethodName true => true
  | _ => false
  end.

(** The members of the class made from a dict, and the entries that stay
    plain attributes of it (the class has attributes of its own besides,
    which the host gives it). *)
Definition enum_members (cls_name : string) (qualified : bool) (d : PyDict)
  : PyDict :=
  List.filter (is_member cls_name qualified) d.

Definition enum_attributes (cls_name : string) (qualified : bool)
    (d : PyDict) : PyDict :=
  List.filter (is_attribute cls_name qualified) d.

Definition refused (step : nat) (cls_name : string) (qualified : bool)
    (kv : PyObject * PyObject) : option PyErr :=
  match classify cls_name qualified kv with
  | RefusedName s e => if decide (s = step) then Some e else None
  | _ => None
  end.

Definition not_a_method (cls_name : string) (qualified : bool)
    (kv : PyObject * PyObject) : option PyErr :=
  match classify cls_name qualified kv with
  | MethodName _ => Some (mkErr TypeError "'int' object is not callable")
  | _ => None
  end.

(** The error with which the creation of the class fails, if it does: the
    first one of the first step that has one. *)
Definition enum_refusal (cls_name : string) (qualified : bool) (d : PyDict)
  : option PyErr :=
  head (omap (refused 1 cls_name qualified) d
          ++ omap (refused 2 cls_name qualified) d
          ++ omap (refused 3 cls_name qualified) d
          ++ match enum_members cls_name qualified d with
             | [] => []
             | _ :: _ => omap (not_a_method cls_name qualified) d
             end
          ++ omap (refused 5 cls_name qualified) d).

(** [PyObject_Call(callable, args, kw_args)] with [args] a pair of a name
    and a dict of members: the functional API of the enum classes.  The host
    may reject the call, for the names above or for a reason of its own;
    otherwise a new type object derives from the class called and has the
    members that the names allow.  The caller gets one reference to it. *)
Definition PyObject_Call (callable : option PyObject)
    (args : PyObject * PyDict) (kw_args : PyDict) : M (option PyObject) :=
  c <- deref callable ;;
  match c with
  | PyType a =>
      base <- load_type a ;;
      b <- host_fault ;;
      if b : bool then PyErr_SetString ValueError "invalid enum" ;; ret None
      else
        match args.1 with
        | PyUnicode name =>
            let qualified :=
              bool_decide (dict_get kw_args (PyUnicode "qualname") <> None) in
            match enum_refusal name qualified args.2 with
            | Some e => PyErr_SetString (exc_type e) (exc_msg e) ;; ret None
            | None =>
                w <- get_world ;;
                let qualname :=
                  match dict_get kw_args (PyUnicode "qualname") with
                  | Some (PyUnicode q) => q
                  | _ => name
                  end in
                let t := mkType (ob_type_name base) name qualname
                           (dict_get kw_args (PyUnicode "module")) [a]
                           (enum_members name qualified args.2)
                           (enum_attributes name qualified args.2) None 1 in
                modify (fun w => set_heap (heap w ++ [t]) w) ;;
                ret (Some (PyType (length (heap w))))
            end
        | _ => PyErr_SetString TypeError "the name must be a string" ;; ret None
        end
  | _ => PyErr_SetString TypeError "object is not callable" ;; ret None
  end.

(** The member of an enum type with a given value: the first one in the
    order of definition, later ones with the same value are aliases. *)
Definition find_member (members : PyDict) (v : PyObject) : option PyObject :=
  snd <$> List.find (fun kv => bool_decide (kv.2 = v)) members.

(** [PyObject_CallFunction(callable, "(i)", arg)]: the lookup of a member
    by value when [callable] is an enum type; which [int] or [unsigned]
    reaches the host is the caller's matter.  What the host does with a
    value that no member has is its own business; here it is [ValueError]. *)
Definition PyObject_CallFunction (callable : option PyObject) (arg : Z)
  : M (option PyObject) :=
  match callable with
  | None =>
      e <- PyErr_Occurred ;;
      (if e : bool then ret tt
       else PyErr_SetString SystemError "null argument to internal routine") ;;
      ret None
  | Some c =>
      b <- host_fault ;;
      if b : bool then PyErr_SetString MemoryError "out of memory" ;; ret None
      else
        match c with
        | PyType a =>
            t <- load_type a ;;
            match find_member (tp_members t) (PyLong arg) with
            | Some v => ret (Some (PyInstance a v))
            | None => PyErr_SetString ValueError "not a valid member" ;; ret None
            end
        | _ => PyErr_SetString TypeError "object is not callable" ;; ret None
        end
  end.

Fixpoint assoc {A} (l : list (string * A)) (k : string) : option A :=
  match l with
  | [] => None
  | (k', a) :: l' => if decide (k' = k) then Some a else assoc l' k
  end.

Definition PyImport_ImportModule (name : string)
  : M (option (list (string * PyObject))) :=
  w <- get_world ;;
  match assoc (sys_modules w) name with
  | Some m => ret (Some m)
  | None => PyErr_SetString ImportError name ;; ret None
  end.

Definition PyObject_GetAttrString (m : list (string * PyObject))
    (name : string) : M (option PyObject) :=
  match assoc m name with
  | Some o => Py_INCREF o ;; ret (Some o)
  | None => PyErr_SetString AttributeError name ;; ret None
  end.

(** ** Helpers of the sip module defined in other files *)

(** Modelled from the spec: [sip_dict_set_and_discard] is defined in another
    file of the module.  It sets [dict[name] = obj] and gives up the
    reference to [obj]; a NULL [obj] is an error that was raised by the
    caller's conversion. *)
Definition sip_dict_set_and_discard (d : PyDict) (name : option string)
    (obj : option PyObject) : M (Z * PyDict) :=
  match obj with
  | None => ret (-1, d)
  | Some o =>
      r <- PyDict_SetItemString d name (Some o) ;;
      Py_DECREF o ;;
      ret r
  end.

(** Modelled from the spec: [sip_get_qualname] is defined in another file of
    the module.  The qualified name of an enum in a scope is
    [<scope's qualified name>.<name>]. *)
Definition sip_get_qualname (scope : nat) (name : PyObject)
  : M (option PyObject) :=
  td <- load_typedef scope ;;
  py_type <- deref (sipTypeAsPyTypeObject td) ;;
  match py_type, name with
  | PyType a, PyUnicode n =>
      t <- load_type a ;;
      alloc (ret (Some (PyUnicode (ht_qualname t +:+ "." +:+ n))))
  | _, _ => undefined
  end.

(** Modelled from the spec: [sip_add_type_slots] is defined in another file
    of the module.  It attaches the extra behaviour of the generated type to
    the type object and cannot fail. *)
Definition sip_add_type_slots (enum_obj : PyObject) (slots : nat) : M unit :=
  match enum_obj with
  | PyType a => t <- load_type a ;; store_type a (with_slots (Some slots) t)
  | _ => undefined
  end.

(** Modelled from the spec: [sip_objectify] is defined in another file of
    the module.  It interns the name once: a static that is already set is
    kept. *)
Definition sip_objectify (s : string) (objp : option PyObject)
  : M (Z * option PyObject) :=
  match objp with
  | Some _ => ret (0, objp)
  | None =>
      o <- PyUnicode_FromString s ;;
      match o with
      | None => ret (-1, None)
      | Some _ => ret (0, o)
      end
  end.

(** Modelled from the spec: [sip_api_long_as_unsigned_int] is defined in
    another file of the module.  It reads a Python int as an [unsigned]; a
    value that does not fit is an [OverflowError]. *)
Definition sip_api_long_as_unsigned_int (o : PyObject) : M Z :=
  match o with
  | PyLong z =>
      if (0 <=? z) && (z <=? UINT_MAX) then ret z
      else PyErr_SetString OverflowError "value out of range" ;; ret UINT_MAX
  | _ => PyErr_SetString TypeError "an integer is required" ;; ret UINT_MAX
  end.

(** Modelled from the spec: [sip_api_long_as_int] is defined in another file
    of the module.  It reads a Python int as an [int]; a value that does not
    fit is an [OverflowError]. *)
Definition sip_api_long_as_int (o : PyObject) : M Z :=
  match o with
  | PyLong z =>
      if (INT_MIN <=? z) && (z <=? INT_MAX) then ret z
      else PyErr_SetString OverflowError "value out of range" ;; ret (-1)
  | _ => PyErr_SetString TypeError "an integer is required" ;; ret (-1)
  end.

(** ** sip_enum.c *)

Definition set_enum_type (o : option PyObject) (s : Statics) : Statics :=
  mkStatics o (int_enum_type s) (flag_type s) (int_flag_type s)
            (str_dunder_sip s) (str_module s) (str_qualname s) (str_value s).

Definition set_int_enum_type (o : option PyObject) (s : Statics) : Statics :=
  mkStatics (enum_type s) o (flag_type s) (int_flag_type s)
            (str_dunder_sip s) (str_module s) (str_qualname s) (str_value s).

Definition set_flag_type (o : option PyObject) (s : Statics) : Statics :=
  mkStatics (enum_type s) (int_enum_type s) o (int_flag_type s)
            (str_dunder_sip s) (str_module s) (str_qualname s) (str_value s).

Definition set_int_flag_type (o : option PyObject) (s : Statics) : Statics :=
  mkStatics (enum_type s) (int_enum_type s) (flag_type s) o
            (str_dunder_sip s) (str_module s) (str_qualname s) (str_value s).

Definition set_str_dunder_sip (o : option PyObject) (s : Statics) : Statics :=
  mkStatics (enum_type s) (int_enum_type s) (flag_type s) (int_flag_type s)
            o (str_module s) (str_qualname s) (str_value s).

Definition set_str_module (o : option PyObject) (s : Statics) : Statics :=
  mkStatics (enum_type s) (int_enum_type s) (flag_type s) (int_flag_type s)
            (str_dunder_sip s) o (str_qualname s) (str_value s).

Definition set_str_qualname (o : option PyObject) (s : Statics) : Statics :=
  mkStatics (enum_type s) (int_enum_type s) (flag_type s) (int_flag_type s)
            (str_dunder_sip s) (str_module s) o (str_value s).

Definition set_str_value (o : option PyObject) (s : Statics) : Statics :=
  mkStatics (enum_type s) (int_enum_type s) (flag_type s) (int_flag_type s)
            (str_dunder_sip s) (str_module s) (str_qualname s) o.

(** Reading and writing a static variable. *)
Definition static {A} (f : Statics -> A) : M A :=
  w <- get_world ;; ret (f (statics w)).

Definition assign (f : Statics -> Statics) : M unit :=
  modify (fun w => set_statics (f (statics w)) w).

(** The cast of a [sipTypeDef *] to a [sipEnumTypeDef *]: reading the enum
    fields of another kind of type is undefined. *)
Definition as_enum (td : sipTypeDef) : M sipEnumTypeDef :=
  match td with
  | EnumTypeDef etd => ret etd
  | OtherTypeDef _ => undefined
  end.

Definition IS_UNSIGNED_ENUM (etd : sipEnumTypeDef) : bool :=
  bool_decide (etd_base_type etd = SIP_ENUM_UINT_ENUM)
  || bool_decide (etd_base_type etd = SIP_ENUM_INT_FLAG)
  || bool_decide (etd_base_type etd = SIP_ENUM_FLAG).

(** The class that [create_enum_object] calls (the chain of tests on
    [etd_base_type]). *)
Definition enum_factory (s : Statics) (etd : sipEnumTypeDef)
  : option PyObject :=
  if bool_decide (etd_base_type etd = SIP_ENUM_INT_FLAG) then int_flag_type s
  else if bool_decide (etd_base_type etd = SIP_ENUM_FLAG) then flag_type s
  else if bool_decide (etd_base_type etd = SIP_ENUM_INT_ENUM)
          || bool_decide (etd_base_type etd = SIP_ENUM_UINT_ENUM)
       then int_enum_type s
  else enum_type s.

Section sip_enum.

(** Whether the file is compiled with NDEBUG, which removes the asserts. *)
Variable NDEBUG : bool.

(** The two functions of the type system that [get_enum_type] calls: the
    scope of a type, and the creation of all the lazy attributes of a
    scope. *)
Variable sip_api_type_scope : nat -> M (option nat).
Variable sip_add_all_lazy_attrs : option nat -> M Z.

Definition assert (b : bool) : M unit :=
  if NDEBUG then ret tt else if b then ret tt else abort.

(** Raise an exception when failing to convert an enum because of its
    type. *)
Definition enum_expected (obj : PyObject) (td : sipTypeDef) : M unit :=
  etd <- as_enum td ;;
  tp <- Py_TYPE_tp_name obj ;;
  PyErr_SetString TypeError
    ("a member of enum '" +:+ sipPyNameOfEnum etd +:+ "' is expected not '"
       +:+ tp +:+ "'").

(** Get the Python object for an enum type. *)
Definition get_enum_type (td : nat) : M (option PyObject) :=
  t <- load_typedef td ;;
  (* Make sure the enum object has been created. *)
  let type_obj := sipTypeAsPyTypeObject t in
  match type_obj with
  | None =>
      scope <- sip_api_type_scope td ;;
      rc <- sip_add_all_lazy_attrs scope ;;
      if rc <? 0 then ret None
      else
        t <- load_typedef td ;;
        ret (sipTypeAsPyTypeObject t)
  | Some _ => ret type_obj
  end.

(** Create a Python object for a member of a named enum. *)
Definition sip_api_convert_from_enum (member : Z) (td : nat)
  : M (option PyObject) :=
  t <- load_typedef td ;;
  assert (sipTypeIsEnum t) ;;
  et <- get_enum_type td ;;
  etd <- as_enum t ;;
  PyObject_CallFunction et
    (if IS_UNSIGNED_ENUM etd then cast_unsigned member else member).

(** Convert a Python object implementing an enum to an integer value.  An
    exception is raised if there was an error. *)
Definition sip_api_convert_to_enum (obj : PyObject) (td : nat) : M Z :=
  t <- load_typedef td ;;
  assert (sipTypeIsEnum t) ;;
  (* Make sure the enum object has been created. *)
  type_obj <- get_enum_type td ;;
  (* Check the type of the Python object. *)
  isinst <- PyObject_IsInstance obj type_obj ;;
  if isinst <=? 0 then
    enum_expected obj t ;;
    ret (-1)
  else
    (* Get the value from the object. *)
    name <- static str_value ;;
    val_obj <- PyObject_GetAttr obj name ;;
    match val_obj with
    | None => ret (-1)
    | Some val_obj =>
        etd <- as_enum t ;;
        (* Flags are implicitly unsigned. *)
        val <- (if IS_UNSIGNED_ENUM etd then
                  u <- sip_api_long_as_unsigned_int val_obj ;;
                  ret (cast_int u)
                else sip_api_long_as_int val_obj) ;;
        Py_DECREF val_obj ;;
        ret val
    end.

(** Return a non-zero value if an object is a sub-class of enum.Flag. *)
Definition sip_api_is_enum_flag (obj : PyObject) : M Z :=
  cls <- static flag_type ;;
  rc <- PyObject_IsSubclass obj cls ;;
  ret (if rc =? 1 then 1 else 0).

(** Return a non-zero value if an object is a sub-class of enum.Enum. *)
Definition sip_enum_is_enum (obj : PyObject) : M Z :=
  cls <- static enum_type ;;
  rc <- PyObject_IsSubclass obj cls ;;
  ret (if rc =? 1 then 1 else 0).

(** The loop of [create_enum_object] over the members: [n] iterations are
    left, [next_int] is the cursor.  [None] is the jump to [rel_members]. *)
Fixpoint add_members (etd : sipEnumTypeDef) (n : nat) (members : PyDict)
    (next_int : option nat) : M (option (PyDict * option nat)) :=
  match n with
  | O => ret (Some (members, next_int))
  | S n' =>
      i <- deref next_int ;;
      w <- get_world ;;
      ii <- deref (int_instances w !! i) ;;
      assert (bool_decide (ii_name ii <> None)) ;;
      (* Flags are implicitly unsigned. *)
      value_obj <- (if IS_UNSIGNED_ENUM etd
                    then PyLong_FromUnsignedLong (cast_unsigned (ii_val ii))
                    else PyLong_FromLong (ii_val ii)) ;;
      r <- sip_dict_set_and_discard members (ii_name ii) value_obj ;;
      if r.1 <? 0 then ret None
      else add_members etd n' r.2 (Some (S i))
  end.

(** The optional qualified name: [None] is the jump to [rel_kw_args]. *)
Definition add_qualname (client : sipExportedModuleDef)
    (etd : sipEnumTypeDef) (name : PyObject) (kw_args : PyDict)
  : M (option PyDict) :=
  (* If the enum has a scope then the default __qualname__ will be
     incorrect. *)
  if 0 <=? etd_scope etd then
    scope <- deref (em_types client !! Z.to_nat (etd_scope etd)) ;;
    qualname <- sip_get_qualname scope name ;;
    match qualname with
    | None => ret None
    | Some qualname =>
        key <- static str_qualname ;;
        r <- PyDict_SetItem kw_args key (Some qualname) ;;
        Py_DECREF qualname ;;
        if r.1 <? 0 then ret None else ret (Some r.2)
    end
  else ret (Some kw_args).

(** Create an enum object.  The result comes with the value of
    [*next_int_p] when the function returns.  The members, the arguments and
    the keyword arguments are values of the model: releasing them on the way
    out ([rel_kw_args], [rel_args], [rel_members]) leaves no trace. *)
Definition create_enum_object (client : sipExportedModuleDef) (etd_p : nat)
    (next_int_p : option nat) (name : PyObject)
  : M (option PyObject * option nat) :=
  td <- load_typedef etd_p ;;
  etd <- as_enum td ;;
  (* Create a dict of the members. *)
  members <- PyDict_New ;;
  match members with
  | None => ret (None, next_int_p)
  | Some members =>
  let next_int := next_int_p in
  assert (bool_decide (next_int <> None)) ;;
  r <- add_members etd (Z.to_nat (etd_nr_members etd)) members next_int ;;
  match r with
  | None => ret (None, next_int_p)
  | Some (members, next_int) =>
  let next_int_p := next_int in
  args <- PyTuple_Pack2 name members ;;
  match args with
  | None => ret (None, next_int_p)
  | Some args =>
  kw_args <- PyDict_New ;;
  match kw_args with
  | None => ret (None, next_int_p)
  | Some kw_args =>
  key <- static str_module ;;
  r <- PyDict_SetItem kw_args key (em_nameobj client) ;;
  if r.1 <? 0 then ret (None, next_int_p)
  else
  kw_args <- add_qualname client etd name r.2 ;;
  match kw_args with
  | None => ret (None, next_int_p)
  | Some kw_args =>
  (* Wrap the type definition in a capsule. *)
  etd_cap <- PyCapsule_New etd_p ;;
  match etd_cap with
  | None => ret (None, next_int_p)
  | Some etd_cap =>
  factory <- static (fun s => enum_factory s etd) ;;
  enum_obj <- PyObject_Call factory args kw_args ;;
  match enum_obj with
  | None => ret (None, next_int_p)
  | Some enum_obj =>
  (* Note that it isn't actually a PyTypeObject. *)
  modify (fun w =>
    set_typedefs
      (<[etd_p := EnumTypeDef (set_py_type (Some enum_obj) etd)]> (typedefs w))
      w) ;;
  key <- static str_dunder_sip ;;
  rc <- PyObject_SetAttr enum_obj key etd_cap ;;
  if rc <? 0 then
    Py_DECREF etd_cap ;;
    Py_DECREF enum_obj ;;
    ret (None, next_int_p)
  else
    Py_DECREF etd_cap ;;
    match etd_pyslots etd with
    | Some slots => sip_add_type_slots enum_obj slots
    | None => ret tt
    end ;;
    ret (Some enum_obj, next_int_p)
  end end end end end end end.

(** Create an enum object and add it to a dictionary.  A negative value is
    returned (and an exception set) if there was an error.  The result comes
    with the cursor and the dictionary as the function leaves them. *)
Definition sip_enum_create (client : sipExportedModuleDef) (etd_p : nat)
    (next_int_p : option nat) (dict : PyDict)
  : M (Z * option nat * PyDict) :=
  td <- load_typedef etd_p ;;
  etd <- as_enum td ;;
  (* Create an object corresponding to the type name. *)
  name <- PyUnicode_FromString (sipPyNameOfEnum etd) ;;
  match name with
  | None => ret (-1, next_int_p, dict)
  | Some name =>
      (* Create the enum object. *)
      r <- create_enum_object client etd_p next_int_p name ;;
      match r.1 with
      | None =>
          Py_DECREF name ;;
          ret (-1, r.2, dict)
      | Some enum_obj =>
          (* Add the enum to the "parent" dictionary. *)
          rd <- PyDict_SetItem dict (Some name) (Some enum_obj) ;;
          (* We can now release our remaining references. *)
          Py_DECREF name ;;
          Py_DECREF enum_obj ;;
          ret (rd.1, r.2, rd.2)
      end
  end.

(** Initialise the enum support.  A negative value is returned (and an
    exception set) if there was an error. *)
Definition sip_enum_init : M Z :=
  (* Get the enum types. *)
  obj <- PyImport_ImportModule "enum" ;;
  match obj with
  | None => ret (-1)
  | Some obj =>
      o <- PyObject_GetAttrString obj "Enum" ;;
      assign (set_enum_type o) ;;
      o <- PyObject_GetAttrString obj "IntEnum" ;;
      assign (set_int_enum_type o) ;;
      o <- PyObject_GetAttrString obj "Flag" ;;
      assign (set_flag_type o) ;;
      o <- PyObject_GetAttrString obj "IntFlag" ;;
      assign (set_int_flag_type o) ;;
      s <- static id ;;
      if bool_decide (enum_type s = None)
         || bool_decide (int_enum_type s = None)
         || bool_decide (flag_type s = None)
         || bool_decide (int_flag_type s = None)
      then
        Py_XDECREF (enum_type s) ;;
        Py_XDECREF (int_enum_type s) ;;
        Py_XDECREF (flag_type s) ;;
        Py_XDECREF (int_flag_type s) ;;
        ret (-1)
      else
        (* Objectify the strings. *)
        r <- sip_objectify "__sip__" (str_dunder_sip s) ;;
        assign (set_str_dunder_sip r.2) ;;
        if r.1 <? 0 then ret (-1)
        else
          r <- sip_objectify "module" (str_module s) ;;
          assign (set_str_module r.2) ;;
          if r.1 <? 0 then ret (-1)
          else
            r <- sip_objectify "qualname" (str_qualname s) ;;
            assign (set_str_qualname r.2) ;;
            if r.1 <? 0 then ret (-1)
            else
              r <- sip_objectify "value" (str_value s) ;;
              assign (set_str_value r.2) ;;
              if r.1 <? 0 then ret (-1) else ret 0
  end.

End sip_enum.

(** [PyCapsule_GetPointer(capsule, NULL)]: the pointer of a capsule, NULL
    with [ValueError] for anything else. *)
Definition PyCapsule_GetPointer (capsule : PyObject) : M (option nat) :=
  match capsule with
  | PyCapsule p => ret (Some p)
  | _ =>
      PyErr_SetString ValueError
        "PyCapsule_GetPointer called with invalid PyCapsule object" ;;
      ret None
  end.

(** Return the generated type structure for a Python enum object that wraps
    a C/C++ enum or NULL (and no exception set) if the object is something
    else. *)
Definition sip_enum_get_generated_type (obj : PyObject) : M (option nat) :=
  is_enum <- sip_enum_is_enum obj ;;
  if negb (is_enum =? 0) then
    key <- static str_dunder_sip ;;
    etd_cap <- PyObject_GetAttr obj key ;;
    match etd_cap with
    | Some etd_cap =>
        td <- PyCapsule_GetPointer etd_cap ;;
        Py_DECREF etd_cap ;;
        ret td
    | None =>
        PyErr_Clear ;;
        ret None
    end
  else ret None.

(** ** The caller of [sip_enum_create] *)

(** Modelled from the spec: the loop that registers the enums of a module is
    in another file of the module.  It calls [sip_enum_create] once per enum,
    in the order of declaration, with the one cursor and the one dictionary,
    and stops at the first error. *)
Fixpoint register_enums (NDEBUG : bool) (client : sipExportedModuleDef)
    (etds : list nat) (next_int_p : option nat) (dict : PyDict)
  : M (Z * option nat * PyDict) :=
  match etds with
  | [] => ret (0, next_int_p, dict)
  | etd_p :: etds' =>
      r <- sip_enum_create NDEBUG client etd_p next_int_p dict ;;
      if r.1.1 <? 0 then ret r
      else register_enums NDEBUG client etds' r.1.2 r.2
  end.

(** ** Notions used by the statements *)

(** The value that the host member gets for the entry [v] of the table (the
    two branches of the loop of [create_enum_object]). *)
Definition host_value (etd : sipEnumTypeDef) (v : Z) : Z :=
  if IS_UNSIGNED_ENUM etd then cast_unsigned v else v.

(** The dict of members that the loop builds from a run of entries. *)
Definition members_of (etd : sipEnumTypeDef) (entries : list sipIntInstanceDef)
    (members : PyDict) : PyDict :=
  foldl (fun d ii =>
           dict_set d (PyUnicode (default EmptyString (ii_name ii)))
                    (PyLong (host_value etd (ii_val ii))))
        members entries.

(** The number of entries before the one that ends the table. *)
Fixpoint remaining (t : list sipIntInstanceDef) : nat :=
  match t with
  | [] => O
  | ii :: t' =>
      match ii_name ii with
      | Some _ => S (remaining t')
      | None => O
      end
  end.

(** Whether the table has its closing entry. *)
Definition terminated (t : list sipIntInstanceDef) : bool :=
  existsb (fun ii => bool_decide (ii_name ii = None)) t.

(** [b] is [a] or an ancestor of [a]. *)
Inductive subclass (h : list PyTypeObject) : nat -> nat -> Prop :=
| subclass_refl a : subclass h a a
| subclass_base a t p b :
    h !! a = Some t -> In p (tp_bases t) -> subclass h p b -> subclass h a b.

(** [obj] is an instance of the class [cls]. *)
Definition instance_of (h : list PyTypeObject) (obj cls : PyObject) : Prop :=
  exists a v b, obj = PyInstance a v /\ cls = PyType b /\ subclass h a b.

(** The bases of a type object were created before it. *)
Definition bases_below (h : list PyTypeObject) : bool :=
  forallb (fun at_ => forallb (fun p => p <? at_.1)%nat (tp_bases at_.2))
          (imap (fun a t => (a, t)) h).

(** The pointers of an object lead to type objects of the heap. *)
Definition live (h : list PyTypeObject) (o : PyObject) : bool :=
  match o with
  | PyType a | PyInstance a _ => (a <? length h)%nat
  | _ => true
  end.

(** The result of a computation that returns normally. *)
Definition world_of {A} (o : outcome A) (otherwise : World) : World :=
  match o with Ret _ w => w | _ => otherwise end.

Definition value_of {A} (o : outcome A) : option A :=
  match o with Ret a _ => Some a | _ => None end.

(** The error is raised to the caller: the function returns, NULL, with the
    error indicator set. *)
Definition surfaces_error {A B} (o : outcome (option A * B)) : Prop :=
  exists c w, o = Ret (None, c) w /\ error w <> None.

(** ** A host and a generated module to run the code on *)

Definition enum_class (name : string) (bases : list nat) : PyTypeObject :=
  mkType "EnumType" name name (Some (PyUnicode "enum")) bases [] [] None 1.

(** The classes of the [enum] module of Python: [IntEnum] and [Flag] derive
    from [Enum], [IntFlag] from [Flag]. *)
Definition enum_module_heap : list PyTypeObject :=
  [ enum_class "Enum" []; enum_class "IntEnum" [0%nat];
    enum_class "Flag" [0%nat]; enum_class "IntFlag" [2%nat] ].

Definition enum_module : list (string * PyObject) :=
  [ ("Enum", PyType 0); ("IntEnum", PyType 1);
    ("Flag", PyType 2); ("IntFlag", PyType 3) ]%string.

Definition no_statics : Statics :=
  mkStatics None None None None None None None None.

(** A module with two enums at module level: [Level], a plain enum with the
    members LOW = -1, MID = 0 and HIGH = 1, and [Perm], an unsigned flag with
    the members READ = 1, WRITE = 2 and ALL = -1 (all the bits). *)
Definition Level_td : sipEnumTypeDef :=
  mkEnumTypeDef None "Level" SIP_ENUM_ENUM (-1) 3 None.

Definition Perm_td : sipEnumTypeDef :=
  mkEnumTypeDef None "Perm" SIP_ENUM_INT_FLAG (-1) 3 None.

Definition demo_typedefs : list sipTypeDef :=
  [EnumTypeDef Level_td; EnumTypeDef Perm_td].

Definition demo_table : list sipIntInstanceDef :=
  [ mkInt (Some "LOW") (-1); mkInt (Some "MID") 0; mkInt (Some "HIGH") 1;
    mkInt (Some "READ") 1; mkInt (Some "WRITE") 2; mkInt (Some "ALL") (-1);
    mkInt None 0 ]%string.

Definition demo_client : sipExportedModuleDef :=
  mkModule (Some (PyUnicode "demo")) [0%nat; 1%nat].

(** The interpreter before the module is initialised. *)
Definition fresh_world : World :=
  mkWorld enum_module_heap demo_typedefs demo_table
          [("enum"%string, enum_module)] no_statics None [].

(** The collaborators of [get_enum_type] for a module whose enums are all at
    module level: there is no scope and nothing lazy to create. *)
Definition no_scope : nat -> M (option nat) := fun _ => ret None.
Definition no_lazy_attrs : option nat -> M Z := fun _ => ret 0.

(** The interpreter after [sip_enum_init]. *)
Definition ready_world : World :=
  Eval vm_compute in world_of (sip_enum_init fresh_world) fresh_world.

(** The interpreter after the two enums were registered. *)
Definition demo_world : World :=
  Eval vm_compute in
    world_of (register_enums false demo_client [0%nat; 1%nat] (Some 0%nat) []
                ready_world) ready_world.

(** ** What the calls of the host leave unchanged *)

(** The part of a type object that is fixed when it is created. *)
Definition fixed_part (t : PyTypeObject) :=
  (ob_type_name t, tp_name t, ht_qualname t, tp_module t, tp_bases t,
   tp_members t).

(** The heap only grows, and the fixed part of a type object stays. *)
Definition heap_ext (h h' : list PyTypeObject) : Prop :=
  (length h <= length h')%nat /\
  forall a t, h !! a = Some t ->
    exists t', h' !! a = Some t' /\ fixed_part t' = fixed_part t.

(** The calls of the host and of the helpers change the error indicator, the
    reference counts and the attributes of type objects, and create type
    objects: the generated structures and the statics stay. *)
Definition frame (w w' : World) : Prop :=
  heap_ext (heap w) (heap w') /\
  typedefs w' = typedefs w /\
  int_instances w' = int_instances w /\
  sys_modules w' = sys_modules w /\
  statics w' = statics w.

Definition framed {A} (m : M A) : Prop :=
  forall w a w', m w = Ret a w' -> frame w w'.

(** The entries that a loop of [n] rounds reads from the cursor on. *)
Definition consumed (w : World) (cur : option nat) (n : nat)
  : list sipIntInstanceDef :=
  match cur with
  | Some i => take n (drop i (int_instances w))
  | None => []
  end.

(** The cursor moved over [n] entries. *)
Definition advance (cur : option nat) (n : nat) : option nat :=
  (fun i => (i + n)%nat) <$> cur.

(** The declared number of members of the enum at [p], and of a list of
    enums. *)
Definition member_count (w : World) (p : nat) : nat :=
  match typedefs w !! p with
  | Some (EnumTypeDef etd) => Z.to_nat (etd_nr_members etd)
  | _ => O
  end.

Definition total_members (w : World) (etds : list nat) : nat :=
  sum_list (map (member_count w) etds).

(** Objects without a reference count in the model, and dicts of them. *)
Definition plain (o : PyObject) : bool :=
  match o with PyType _ => false | _ => true end.

Definition plain_dict (d : PyDict) : bool := forallb (fun kv => plain kv.2) d.

(** The interpreter when the host fails to set the [__sip__] attribute of
    the enum object of [Level]: the thirteenth fallible call of
    [create_enum_object]. *)
Definition setattr_fails_world : World :=
  set_faults (replicate 12 false ++ [true]) ready_world.

(** An interpreter whose [enum] module has no [IntFlag]. *)
Definition no_IntFlag_world : World :=
  mkWorld enum_module_heap demo_typedefs demo_table
          [("enum"%string,
            [ ("Enum", PyType 0); ("IntEnum", PyType 1);
              ("Flag", PyType 2) ]%string)]
          no_statics None [].

(** An interpreter in which the second of the four names cannot be
    interned. *)
Definition intern_fails_world : World :=
  set_faults [false; true] fresh_world.

(** The statics hold the four classes of the [enum] module of Python, and
    of the three others only [IntFlag] derives from [Flag]. *)
Definition python_enum_classes (w : World) : bool :=
  match enum_type (statics w), int_enum_type (statics w),
        flag_type (statics w), int_flag_type (statics w) with
  | Some (PyType e), Some (PyType ie), Some (PyType f), Some (PyType iff) =>
      bases_below (heap w)
      && (e <? length (heap w))%nat && (ie <? length (heap w))%nat
      && (f <? length (heap w))%nat && (iff <? length (heap w))%nat
      && negb (PyType_IsSubtype (heap w) e f)
      && negb (PyType_IsSubtype (heap w) ie f)
      && PyType_IsSubtype (heap w) iff f
  | _, _, _, _ => false
  end.

(** The flavours that are flags. *)
Definition is_flag_flavour (etd : sipEnumTypeDef) : bool :=
  bool_decide (etd_base_type etd = SIP_ENUM_FLAG)
  || bool_decide (etd_base_type etd = SIP_ENUM_INT_FLAG).

(** ** Notions used by the further properties *)

(** One more reference to a type object. *)
Definition incref (t : PyTypeObject) : PyTypeObject :=
  with_refcnt (ob_refcnt t + 1) t.

(** The statics hold the four classes of the [enum] module of Python, and
    the three others derive from [Enum]. *)
Definition python_enum_family (w : World) : bool :=
  match enum_type (statics w), int_enum_type (statics w),
        flag_type (statics w), int_flag_type (statics w) with
  | Some (PyType e), Some (PyType ie), Some (PyType f), Some (PyType iff) =>
      bases_below (heap w)
      && (e <? length (heap w))%nat && (ie <? length (heap w))%nat
      && (f <? length (heap w))%nat && (iff <? length (heap w))%nat
      && PyType_IsSubtype (heap w) ie e
      && PyType_IsSubtype (heap w) f e
      && PyType_IsSubtype (heap w) iff e
  | _, _, _, _ => false
  end.

(** The qualified name that [create_enum_object] gives to the enum called
    [name]: that of the scope, a dot and the name when there is a scope whose
    type object exists, the name alone when there is no scope. *)
Definition enum_qualname (w : World) (client : sipExportedModuleDef)
    (etd : sipEnumTypeDef) (name : string) : option string :=
  if 0 <=? etd_scope etd then
    match em_types client !! Z.to_nat (etd_scope etd) with
    | Some scope =>
        match typedefs w !! scope with
        | Some td =>
            match sipTypeAsPyTypeObject td with
            | Some (PyType a) =>
                match heap w !! a with
                | Some t => Some (ht_qualname t +:+ "." +:+ name)
                | None => None
                end
            | _ => None
            end
        | None => None
        end
    | None => None
    end
  else Some name.

(** The members of an enum type for a run of entries with distinct names:
    the entries in their order, each with its host value. *)
Definition member_list (etd : sipEnumTypeDef)
    (entries : list sipIntInstanceDef) : PyDict :=
  map (fun ii => (PyUnicode (default EmptyString (ii_name ii)),
                  PyLong (host_value etd (ii_val ii)))) entries.

(** A name of which the host makes a member of the class [cls_name]: it is
    not private to the class, neither a sunder nor a dunder name, not [mro]
    and not empty. *)
Definition member_name (cls_name key : string) : bool :=
  negb (is_private cls_name key) && negb (is_sunder key)
  && negb (is_dunder key) && negb (bool_decide (key = "mro"%string))
  && negb (bool_decide (key = EmptyString)).

(** The entries of a run are named, with names of members of the class that
    is called [cls]. *)
Definition member_names (cls : PyObject) (entries : list sipIntInstanceDef)
  : bool :=
  match cls with
  | PyUnicode cls_name =>
      forallb (fun ii => match ii_name ii with
                         | Some key => member_name cls_name key
                         | None => false
                         end) entries
  | _ => false
  end.

(** The state but for the error indicator, the answers of the host, the
    reference counts and attributes of type objects and the Python object of
    the type structure at [p]. *)
Definition frame_except (p : nat) (w w' : World) : Prop :=
  heap_ext (heap w) (heap w') /\
  length (typedefs w') = length (typedefs w) /\
  (forall q, q <> p -> typedefs w' !! q = typedefs w !! q) /\
  int_instances w' = int_instances w /\
  sys_modules w' = sys_modules w /\
  statics w' = statics w.

(** A way to create the lazy attributes: register the two enums of the
    module. *)
Definition demo_lazy_attrs : option nat -> M Z :=
  fun _ =>
    r <- register_enums false demo_client [0%nat; 1%nat] (Some 0%nat) [] ;;
    ret r.1.1.

(** A module with a class [Outer] and an enum [Color] (RED = 0, BLUE = 1)
    inside it that has extra behaviour: the type object of the class
    exists, the one of the enum does not yet. *)
Definition Color_td : sipEnumTypeDef :=
  mkEnumTypeDef None "Color" SIP_ENUM_UINT_ENUM 0 2 (Some 7%nat).

Definition scoped_client : sipExportedModuleDef :=
  mkModule (Some (PyUnicode "shapes")) [0%nat; 1%nat].

Definition scoped_world : World :=
  mkWorld (heap ready_world
             ++ [mkType "sip.wrappertype" "Outer" "Outer"
                   (Some (PyUnicode "shapes")) [] [] [] None 1])
          [OtherTypeDef (Some (PyType 4)); EnumTypeDef Color_td]
          [mkInt (Some "RED") 0; mkInt (Some "BLUE") 1; mkInt None 0]%string
          (sys_modules ready_world) (statics ready_world) None [].

(** * Properties *)

(** ** The monad *)

Lemma bind_Ret {A B} (m : M A) (k : A -> M B) w a w1 :
  m w = Ret a w1 -> bind m k w = k a w1.
Proof. intros H. unfold bind. now rewrite H. Qed.

Lemma bind_inv {A B} (m : M A) (k : A -> M B) w b w' :
  bind m k w = Ret b w' ->
  exists a w1, m w = Ret a w1 /\ k a w1 = Ret b w'.
Proof.
  unfold bind. destruct (m w) as [a w1| |]; try discriminate.
  intros H. now exists a, w1.
Qed.

Lemma bind_ret_l {A B} (a : A) (k : A -> M B) w : bind (ret a) k w = k a w.
Proof. reflexivity. Qed.

Lemma bind_get_world {B} (k : World -> M B) w : bind get_world k w = k w w.
Proof. reflexivity. Qed.

Lemma bind_modify {B} (f : World -> World) (k : unit -> M B) w :
  bind (modify f) k w = k tt (f w).
Proof. reflexivity. Qed.

Lemma bind_assoc {A B C} (m : M A) (k : A -> M B) (k' : B -> M C) w :
  bind (bind m k) k' w = bind m (fun a => bind (k a) k') w.
Proof. unfold bind. now destruct (m w). Qed.

Lemma heap_ext_refl h : heap_ext h h.
Proof. split; [lia|]. intros a t H. now exists t. Qed.

Lemma heap_ext_trans h1 h2 h3 :
  heap_ext h1 h2 -> heap_ext h2 h3 -> heap_ext h1 h3.
Proof.
  intros [L1 E1] [L2 E2]. split; [lia|].
  intros a t H. destruct (E1 a t H) as (t' & H' & F').
  destruct (E2 a t' H') as (t'' & H'' & F''). exists t''.
  split; [done|]. now rewrite F''.
Qed.

Lemma heap_ext_insert h a t t' :
  h !! a = Some t -> fixed_part t' = fixed_part t ->
  heap_ext h (<[a := t']> h).
Proof.
  intros H F. split; [now rewrite length_insert|].
  intros b u Hb. destruct (decide (a = b)) as [->|Hne].
  - exists t'. rewrite list_lookup_insert_eq by (eapply lookup_lt_Some; eauto).
    split; [done|]. congruence.
  - exists u. now rewrite list_lookup_insert_ne.
Qed.

Lemma heap_ext_app h t : heap_ext h (h ++ [t]).
Proof.
  split; [rewrite length_app; lia|].
  intros a u H. exists u. split; [|done]. now apply lookup_app_l_Some.
Qed.

Lemma frame_refl w : frame w w.
Proof. repeat split; auto using heap_ext_refl. apply heap_ext_refl. Qed.

Lemma frame_trans w1 w2 w3 : frame w1 w2 -> frame w2 w3 -> frame w1 w3.
Proof.
  intros (H1 & T1 & I1 & S1 & G1) (H2 & T2 & I2 & S2 & G2).
  repeat split; try congruence; eapply heap_ext_trans; eauto.
Qed.

Lemma frame_set_error e w : frame w (set_error e w).
Proof. repeat split; simpl; auto; apply heap_ext_refl. Qed.

Lemma frame_set_faults f w : frame w (set_faults f w).
Proof. repeat split; simpl; auto; apply heap_ext_refl. Qed.

Lemma frame_set_heap h w : heap_ext (heap w) h -> frame w (set_heap h w).
Proof. intros H. repeat split; simpl; auto; apply H. Qed.

Lemma framed_ret {A} (a : A) : framed (ret a).
Proof. intros w b w' H. inversion H. apply frame_refl. Qed.

Lemma framed_bind {A B} (m : M A) (k : A -> M B) :
  framed m -> (forall a, framed (k a)) -> framed (bind m k).
Proof.
  intros Hm Hk w b w' H. apply bind_inv in H as (a & w1 & H1 & H2).
  eapply frame_trans; [eapply Hm | eapply Hk]; eauto.
Qed.

Lemma framed_undefined {A} : framed (@undefined A).
Proof. intros w a w' H. discriminate. Qed.

Lemma framed_abort {A} : framed (@abort A).
Proof. intros w a w' H. discriminate. Qed.

Lemma framed_get_world : framed get_world.
Proof. intros w a w' H. inversion H. apply frame_refl. Qed.

Lemma framed_deref {A} (p : option A) : framed (deref p).
Proof. destruct p; [apply framed_ret | apply framed_undefined]. Qed.

Lemma framed_if {A} (b : bool) (m1 m2 : M A) :
  framed m1 -> framed m2 -> framed (if b then m1 else m2).
Proof. now destruct b. Qed.

Lemma framed_PyErr_SetString k msg : framed (PyErr_SetString k msg).
Proof. intros w a w' H. inversion H. apply frame_set_error. Qed.

Lemma framed_host_fault : framed host_fault.
Proof.
  intros w a w' H. unfold host_fault in H.
  destruct (faults w); inversion H; [apply frame_refl | apply frame_set_faults].
Qed.

Lemma framed_load_type a : framed (load_type a).
Proof. apply framed_bind; [apply framed_get_world | intros; apply framed_deref]. Qed.

Lemma framed_load_typedef p : framed (load_typedef p).
Proof. apply framed_bind; [apply framed_get_world | intros; apply framed_deref]. Qed.

Create HintDb framed.

#[local] Hint Resolve framed_ret framed_undefined framed_abort framed_get_world
  framed_deref framed_PyErr_SetString framed_host_fault framed_load_type
  framed_load_typedef : framed.

(** Splits a computation along its binds and its tests. *)
Ltac framed_steps :=
  repeat first
    [ solve [auto with framed]
    | apply framed_bind; [|intros]
    | apply framed_if
    | match goal with
      | |- framed (match ?x with _ => _ end) => destruct x
      end ].

Lemma load_type_inv a w t w' :
  load_type a w = Ret t w' -> w' = w /\ heap w !! a = Some t.
Proof.
  unfold load_type, bind, get_world, deref.
  destruct (heap w !! a); [|discriminate]. unfold ret. now inversion 1.
Qed.

Lemma load_type_ok a w t : heap w !! a = Some t -> load_type a w = Ret t w.
Proof. intros H. unfold load_type, bind, get_world, deref. now rewrite H. Qed.

Lemma load_typedef_inv p w t w' :
  load_typedef p w = Ret t w' -> w' = w /\ typedefs w !! p = Some t.
Proof.
  unfold load_typedef, bind, get_world, deref.
  destruct (typedefs w !! p); [|discriminate]. unfold ret. now inversion 1.
Qed.

Lemma load_typedef_ok p w t :
  typedefs w !! p = Some t -> load_typedef p w = Ret t w.
Proof. intros H. unfold load_typedef, bind, get_world, deref. now rewrite H. Qed.

(** Replacing a type object by one with the same fixed part. *)
Lemma framed_update a (f : PyTypeObject -> PyTypeObject) :
  (forall t, fixed_part (f t) = fixed_part t) ->
  framed (t <- load_type a ;; store_type a (f t)).
Proof.
  intros Hf w u w' H. apply bind_inv in H as (t & w1 & H1 & H2).
  apply load_type_inv in H1 as [-> H1]. inversion H2.
  apply frame_set_heap. now apply heap_ext_insert with t.
Qed.

Lemma framed_Py_INCREF o : framed (Py_INCREF o).
Proof. destruct o; simpl; auto with framed. now apply framed_update. Qed.

Lemma framed_Py_DECREF o : framed (Py_DECREF o).
Proof. destruct o; simpl; auto with framed. now apply framed_update. Qed.

Lemma framed_Py_XDECREF o : framed (Py_XDECREF o).
Proof. destruct o; simpl; auto using framed_Py_DECREF with framed. Qed.

#[local] Hint Resolve framed_Py_INCREF framed_Py_DECREF framed_Py_XDECREF
  : framed.

Lemma framed_alloc {A} (k : M (option A)) : framed k -> framed (alloc k).
Proof. intros Hk. unfold alloc. framed_steps. Qed.

Lemma framed_PyDict_New : framed PyDict_New.
Proof. apply framed_alloc. auto with framed. Qed.

Lemma framed_PyLong_FromLong z : framed (PyLong_FromLong z).
Proof. apply framed_alloc. auto with framed. Qed.

Lemma framed_PyLong_FromUnsignedLong z : framed (PyLong_FromUnsignedLong z).
Proof. apply framed_alloc. auto with framed. Qed.

Lemma framed_PyUnicode_FromString s : framed (PyUnicode_FromString s).
Proof. apply framed_alloc. auto with framed. Qed.

Lemma framed_PyCapsule_New p : framed (PyCapsule_New p).
Proof. apply framed_alloc. auto with framed. Qed.

Lemma framed_PyTuple_Pack2 a b : framed (PyTuple_Pack2 a b).
Proof. apply framed_alloc. auto with framed. Qed.

Lemma framed_PyDict_SetItem d k v : framed (PyDict_SetItem d k v).
Proof. unfold PyDict_SetItem. framed_steps. Qed.

#[local] Hint Resolve framed_PyDict_New framed_PyLong_FromLong
  framed_PyLong_FromUnsignedLong framed_PyUnicode_FromString
  framed_PyCapsule_New framed_PyTuple_Pack2 framed_PyDict_SetItem : framed.

Lemma framed_PyDict_SetItemString d k v : framed (PyDict_SetItemString d k v).
Proof. unfold PyDict_SetItemString. framed_steps. Qed.

#[local] Hint Resolve framed_PyDict_SetItemString : framed.

Lemma framed_sip_dict_set_and_discard d k v :
  framed (sip_dict_set_and_discard d k v).
Proof. unfold sip_dict_set_and_discard. framed_steps. Qed.

Lemma framed_static {A} (f : Statics -> A) : framed (static f).
Proof. unfold static. framed_steps. Qed.

Lemma framed_sip_get_qualname scope name : framed (sip_get_qualname scope name).
Proof.
  unfold sip_get_qualname. framed_steps; apply framed_alloc; auto with framed.
Qed.

Lemma framed_sip_add_type_slots o s : framed (sip_add_type_slots o s).
Proof. destruct o; simpl; auto with framed. now apply framed_update. Qed.

Lemma framed_update_then {A} a (f : PyTypeObject -> PyTypeObject) (k : M A) :
  (forall t, fixed_part (f t) = fixed_part t) -> framed k ->
  framed (t <- load_type a ;; store_type a (f t) ;; k).
Proof.
  intros Hf Hk w u w' H. apply bind_inv in H as (t & w1 & H1 & H2).
  apply bind_inv in H2 as ([] & w2 & H2 & H3).
  eapply frame_trans; [|eapply Hk; eauto].
  eapply (framed_update a f Hf). erewrite bind_Ret; eauto.
Qed.

Lemma framed_PyObject_SetAttr o n v : framed (PyObject_SetAttr o n v).
Proof.
  unfold PyObject_SetAttr.
  repeat first
    [ apply framed_update_then; [done|]
    | apply framed_bind; [|intros]
    | apply framed_if
    | match goal with
      | |- framed (match ?x with _ => _ end) => destruct x
      end
    | solve [auto with framed] ].
Qed.

Lemma framed_PyObject_Call c args kw : framed (PyObject_Call c args kw).
Proof.
  unfold PyObject_Call. framed_steps.
  intros w u w' H. inversion H. apply frame_set_heap, heap_ext_app.
Qed.

#[local] Hint Resolve framed_sip_dict_set_and_discard framed_static
  framed_sip_get_qualname framed_sip_add_type_slots framed_PyObject_SetAttr
  framed_PyObject_Call : framed.

Lemma framed_assert NDEBUG b : framed (assert NDEBUG b).
Proof. unfold assert. framed_steps. Qed.

#[local] Hint Resolve framed_assert : framed.

Lemma framed_add_members NDEBUG etd n : forall members next_int,
  framed (add_members NDEBUG etd n members next_int).
Proof.
  induction n as [|n IH]; intros members next_int; simpl; framed_steps.
Qed.

Lemma framed_add_qualname client etd name kw :
  framed (add_qualname client etd name kw).
Proof. unfold add_qualname. framed_steps. Qed.

#[local] Hint Resolve framed_add_members framed_add_qualname : framed.

(** ** Subtypes *)

Lemma bases_below_lt h a t p :
  bases_below h = true -> h !! a = Some t -> In p (tp_bases t) -> (p < a)%nat.
Proof.
  intros Hb Ha Hp. unfold bases_below in Hb.
  rewrite forallb_forall in Hb. specialize (Hb (a, t)).
  assert (Hin : In (a, t) (imap (fun a t => (a, t)) h)).
  { apply list_elem_of_In, elem_of_lookup_imap. now exists a, t. }
  apply Hb in Hin. rewrite forallb_forall in Hin.
  apply Hin in Hp. simpl in Hp. now apply Nat.ltb_lt in Hp.
Qed.

Lemma subtype_fuel_sound h fuel : forall a b,
  subtype_fuel h fuel a b = true -> subclass h a b.
Proof.
  induction fuel as [|fuel IH]; intros a b H; simpl in H;
    apply orb_true_iff in H as [H|H];
    try (apply bool_decide_eq_true in H as ->; constructor);
    try discriminate.
  destruct (h !! a) as [t|] eqn:Ha; [|discriminate].
  apply existsb_exists in H as (p & Hp & H).
  eapply subclass_base; eauto.
Qed.

Lemma subtype_fuel_complete h a b :
  bases_below h = true -> subclass h a b ->
  forall fuel, (a <= fuel)%nat -> subtype_fuel h fuel a b = true.
Proof.
  intros Hb H. induction H as [a|a t p b Ha Hp H IH]; intros fuel Hf.
  - destruct fuel; simpl; now rewrite bool_decide_eq_true_2.
  - pose proof (bases_below_lt _ _ _ _ Hb Ha Hp) as Hlt.
    destruct fuel as [|fuel]; [lia|]. simpl. rewrite Ha.
    apply orb_true_iff. right. apply existsb_exists. exists p.
    split; [done|]. apply IH. lia.
Qed.

Lemma PyType_IsSubtype_subclass h a b :
  bases_below h = true -> (a < length h)%nat ->
  PyType_IsSubtype h a b = true <-> subclass h a b.
Proof.
  intros Hb Ha. unfold PyType_IsSubtype. split.
  - apply subtype_fuel_sound.
  - intros H. apply subtype_fuel_complete; [done|done|lia].
Qed.

(** ** C5: the classification of the flavours *)

(** C5.  The four flavours give the stated pairs of signedness and host
    class: plain is signed and built from [enum.Enum], unsigned-plain is
    unsigned and built from [enum.IntEnum], flag is unsigned and built from
    [enum.Flag], unsigned-flag is unsigned and built from [enum.IntFlag]; and
    a descriptor is unsigned exactly when its tag is one of unsigned-plain,
    flag and unsigned-flag. *)
Theorem flavor_classifier (s : Statics) (py : option PyObject) (name : string)
    (scope n : Z) (slots : option nat) :
  let etd bt := mkEnumTypeDef py name bt scope n slots in
  (IS_UNSIGNED_ENUM (etd SIP_ENUM_ENUM), enum_factory s (etd SIP_ENUM_ENUM))
    = (false, enum_type s) /\
  (IS_UNSIGNED_ENUM (etd SIP_ENUM_UINT_ENUM),
   enum_factory s (etd SIP_ENUM_UINT_ENUM)) = (true, int_enum_type s) /\
  (IS_UNSIGNED_ENUM (etd SIP_ENUM_FLAG), enum_factory s (etd SIP_ENUM_FLAG))
    = (true, flag_type s) /\
  (IS_UNSIGNED_ENUM (etd SIP_ENUM_INT_FLAG),
   enum_factory s (etd SIP_ENUM_INT_FLAG)) = (true, int_flag_type s) /\
  forall bt,
    IS_UNSIGNED_ENUM (etd bt) = true <->
    bt = SIP_ENUM_UINT_ENUM \/ bt = SIP_ENUM_FLAG \/ bt = SIP_ENUM_INT_FLAG.
Proof.
  intros etd. repeat split; try reflexivity.
  - destruct bt; simpl; intros H; try discriminate; auto.
  - intros [->|[->| ->]]; reflexivity.
Qed.

(** ** C9: flags *)

Lemma live_type h a : live h (PyType a) = true -> exists t, h !! a = Some t.
Proof.
  simpl. intros H. apply Nat.ltb_lt in H.
  destruct (lookup_lt_is_Some_2 h a H) as [t Ht]. now exists t.
Qed.

Lemma PyObject_IsSubclass_types w a b :
  live (heap w) (PyType a) = true -> live (heap w) (PyType b) = true ->
  PyObject_IsSubclass (PyType a) (Some (PyType b)) w
  = Ret (if PyType_IsSubtype (heap w) a b then 1 else 0) w.
Proof.
  intros Ha Hb. apply live_type in Ha as [ta Ha], Hb as [tb Hb].
  unfold PyObject_IsSubclass, deref. rewrite bind_ret_l.
  rewrite (bind_Ret _ _ _ _ _ (load_type_ok _ _ _ Hb)).
  now rewrite (bind_Ret _ _ _ _ _ (load_type_ok _ _ _ Ha)).
Qed.

(** C9.  With [enum.Flag] in its static, [sip_api_is_enum_flag] returns 1
    or 0, and 1 exactly when its argument is a class that is [enum.Flag]
    or derives from it; for anything that is not a class (a number, a
    string, a capsule, a member of an enum) it returns 0. *)
Theorem sip_api_is_enum_flag_subclass (w : World) (f : nat) (obj : PyObject) :
  bases_below (heap w) = true ->
  flag_type (statics w) = Some (PyType f) ->
  live (heap w) (PyType f) = true ->
  live (heap w) obj = true ->
  exists r w',
    sip_api_is_enum_flag obj w = Ret r w' /\
    (r = 1 \/ r = 0) /\
    (r = 1 <-> exists a, obj = PyType a /\ subclass (heap w) a f).
Proof.
  intros Hb Hf Hlf Hlo. unfold sip_api_is_enum_flag, static.
  unfold bind at 1. unfold bind at 1. simpl. rewrite Hf.
  destruct obj as [z|s|p|a|c v];
    try (eexists _, _; split; [reflexivity|]; split; [now right|];
         split; [discriminate | intros (a & Ha & _); discriminate]).
  rewrite (bind_Ret _ _ _ _ _ (PyObject_IsSubclass_types w a f Hlo Hlf)).
  assert (Ha : (a < length (heap w))%nat) by now apply Nat.ltb_lt in Hlo.
  pose proof (PyType_IsSubtype_subclass (heap w) a f Hb Ha) as Hiff.
  destruct (PyType_IsSubtype (heap w) a f); simpl;
    eexists _, _; (split; [reflexivity|]).
  - split; [now left|]. split; [|done]. intros _. exists a. split; [done|].
    now apply Hiff.
  - split; [now right|]. split; [discriminate|].
    intros (a' & Ha' & Hs). inversion Ha'; subst a'.
    apply Hiff in Hs. discriminate.
Qed.

Lemma sip_api_is_enum_flag_subclass_witness :
  exists r w',
    sip_api_is_enum_flag (PyType 5) demo_world = Ret r w' /\
    (r = 1 \/ r = 0) /\
    (r = 1 <-> exists a, PyType 5 = PyType a /\ subclass (heap demo_world) a 2).
Proof.
  apply (sip_api_is_enum_flag_subclass demo_world 2 (PyType 5)); reflexivity.
Defined.

(** ** What the calls of the host return *)

Lemma alloc_inv {A} (k : M (option A)) w r w' :
  alloc k w = Ret r w' -> r = None \/ exists w1, k w1 = Ret r w'.
Proof.
  unfold alloc, host_fault, bind. destruct (faults w) as [|[] fs]; simpl.
  - intros H. right. now exists w.
  - unfold ret. inversion 1. now left.
  - intros H. right. eauto.
Qed.

Lemma PyLong_FromLong_inv z w o w' :
  PyLong_FromLong z w = Ret o w' -> o = None \/ o = Some (PyLong z).
Proof.
  intros H. apply alloc_inv in H as [->|[w1 H]]; [now left|].
  inversion H. now right.
Qed.

Lemma PyLong_FromUnsignedLong_inv z w o w' :
  PyLong_FromUnsignedLong z w = Ret o w' -> o = None \/ o = Some (PyLong z).
Proof.
  intros H. apply alloc_inv in H as [->|[w1 H]]; [now left|].
  inversion H. now right.
Qed.

Lemma PyDict_SetItem_inv d k v w r w' :
  PyDict_SetItem d k v w = Ret r w' ->
  r = (-1, d) \/
  exists k' v', k = Some k' /\ v = Some v' /\ r = (0, dict_set d k' v').
Proof.
  unfold PyDict_SetItem. intros H.
  destruct k as [k'|]; [|discriminate]. destruct v as [v'|]; [|discriminate].
  unfold deref in H. rewrite !bind_ret_l in H.
  apply bind_inv in H as (b & w1 & _ & H). destruct b.
  - apply bind_inv in H as (? & w2 & _ & H). inversion H. now left.
  - apply bind_inv in H as (? & w2 & _ & H).
    apply bind_inv in H as (? & w3 & _ & H). inversion H. right. eauto.
Qed.

Lemma sip_dict_set_and_discard_inv d name obj w r w' :
  sip_dict_set_and_discard d name obj w = Ret r w' ->
  r = (-1, d) \/
  exists k o, name = Some k /\ obj = Some o /\
              r = (0, dict_set d (PyUnicode k) o).
Proof.
  unfold sip_dict_set_and_discard. destruct obj as [o|].
  - intros H. apply bind_inv in H as (r' & w1 & H & H').
    apply bind_inv in H' as (? & w2 & _ & H'). inversion H'; subst r' w2.
    unfold PyDict_SetItemString in H. destruct name as [k|]; [|discriminate].
    unfold deref in H. rewrite bind_ret_l in H.
    apply PyDict_SetItem_inv in H as [->|(k' & v' & Hk & Hv & ->)];
      [now left|]. inversion Hk; inversion Hv; subst. right. eauto.
  - inversion 1. now left.
Qed.

Lemma assert_inv NDEBUG b w u w' :
  assert NDEBUG b w = Ret u w' -> w' = w /\ (NDEBUG = true \/ b = true).
Proof.
  unfold assert. destruct NDEBUG; [inversion 1; auto|].
  destruct b; [inversion 1; auto | discriminate].
Qed.

Lemma member_value_inv etd v w o w' :
  (if IS_UNSIGNED_ENUM etd then PyLong_FromUnsignedLong (cast_unsigned v)
   else PyLong_FromLong v) w = Ret o w' ->
  frame w w' /\ (o = None \/ o = Some (PyLong (host_value etd v))).
Proof.
  unfold host_value. destruct (IS_UNSIGNED_ENUM etd); intros H; split;
    eauto using framed_PyLong_FromUnsignedLong, framed_PyLong_FromLong,
      PyLong_FromUnsignedLong_inv, PyLong_FromLong_inv.
  - eapply framed_PyLong_FromUnsignedLong; eauto.
  - eapply framed_PyLong_FromLong; eauto.
Qed.

(** ** The loop over the members *)

(** When the loop ends normally, the cursor has moved over the [n] entries
    it has read, all of them named, and the dict holds them. *)
Lemma add_members_spec NDEBUG etd n : forall members i w m' cur' w',
  add_members NDEBUG etd n members (Some i) w = Ret (Some (m', cur')) w' ->
  cur' = Some (i + n)%nat /\
  frame w w' /\
  exists entries,
    take n (drop i (int_instances w)) = entries /\ length entries = n /\
    Forall (fun ii => ii_name ii <> None) entries /\
    m' = members_of etd entries members.
Proof.
  induction n as [|n IH]; intros members i w m' cur' w' H.
  - inversion H; subst. rewrite Nat.add_0_r. split; [done|].
    split; [apply frame_refl|]. exists []. now rewrite take_0.
  - simpl in H. unfold deref at 1 in H.
    rewrite bind_ret_l, bind_get_world in H.
    destruct (int_instances w !! i) as [ii|] eqn:Hii; [|discriminate].
    unfold deref in H. rewrite bind_ret_l in H.
    apply bind_inv in H as (? & w0 & Ha & H).
    apply assert_inv in Ha as [-> _].
    apply bind_inv in H as (vo & w1 & Hv & H).
    apply member_value_inv in Hv as [F1 Hv].
    apply bind_inv in H as (r & w2 & Hr & H).
    pose proof (framed_sip_dict_set_and_discard _ _ _ _ _ _ Hr) as F2.
    apply sip_dict_set_and_discard_inv in Hr
      as [->|(k & o & Hk & Ho & ->)]; [discriminate|].
    simpl in H. apply IH in H as (-> & F3 & es & Hes & Hlen & Hall & ->).
    assert (F : frame w w2) by (eapply frame_trans; eauto).
    split; [f_equal; lia|]. split; [eapply frame_trans; eauto|].
    destruct F as (_ & _ & Ht & _). rewrite Ht in Hes.
    exists (ii :: es). rewrite (drop_S _ _ _ Hii). simpl. rewrite Hes.
    split; [done|]. split; [now rewrite Hlen|]. split.
    + constructor; [congruence|done].
    + unfold members_of. simpl. rewrite Hk. simpl.
      destruct Hv as [Hv|Hv]; congruence.
Qed.

Lemma add_members_cursor NDEBUG etd n members cur w m' cur' w' :
  add_members NDEBUG etd n members cur w = Ret (Some (m', cur')) w' ->
  cur' = advance cur n /\
  frame w w' /\
  length (consumed w cur n) = n /\
  Forall (fun ii => ii_name ii <> None) (consumed w cur n) /\
  m' = members_of etd (consumed w cur n) members.
Proof.
  destruct cur as [i|].
  - intros H.
    apply add_members_spec in H as (-> & F & es & <- & Hl & Ha & ->).
    split; [done|]. split; [exact F|]. now repeat split.
  - destruct n; [|discriminate]. inversion 1; subst.
    split; [done|]. split; [apply frame_refl|]. now repeat split.
Qed.

(** ** The creation of an enum object *)

Lemma PyDict_New_inv w o w' :
  PyDict_New w = Ret o w' -> o = None \/ o = Some [].
Proof.
  intros H. apply alloc_inv in H as [->|[w1 H]]; [now left|].
  inversion H. now right.
Qed.

Lemma PyTuple_Pack2_inv a b w o w' :
  PyTuple_Pack2 a b w = Ret o w' -> o = None \/ o = Some (a, b).
Proof.
  intros H. apply alloc_inv in H as [->|[w1 H]]; [now left|].
  inversion H. now right.
Qed.

Lemma PyCapsule_New_inv p w o w' :
  PyCapsule_New p w = Ret o w' -> o = None \/ o = Some (PyCapsule p).
Proof.
  intros H. apply alloc_inv in H as [->|[w1 H]]; [now left|].
  inversion H. now right.
Qed.

Lemma static_inv {A} (f : Statics -> A) w a w' :
  static f w = Ret a w' -> w' = w /\ a = f (statics w).
Proof. inversion 1. auto. Qed.

Lemma host_fault_inv w b w' :
  host_fault w = Ret b w' ->
  heap w' = heap w /\ frame w w' /\ (faults w = [] -> b = false /\ w' = w).
Proof.
  unfold host_fault. destruct (faults w) as [|b' fs] eqn:Hf; inversion 1; subst.
  - split; [done|]. split; [apply frame_refl|done].
  - split; [done|]. split; [apply frame_set_faults|discriminate].
Qed.

Lemma PyObject_Call_inv callable args kw w o w' :
  PyObject_Call callable args kw w = Ret (Some o) w' ->
  exists f base t name,
    callable = Some (PyType f) /\ heap w !! f = Some base /\
    o = PyType (length (heap w)) /\ heap w' = heap w ++ [t] /\
    tp_bases t = [f] /\ args.1 = PyUnicode name /\
    tp_members t
    = enum_members name
        (bool_decide (dict_get kw (PyUnicode "qualname") <> None)) args.2.
Proof.
  unfold PyObject_Call. destruct callable as [c|]; [|discriminate].
  unfold deref. rewrite bind_ret_l.
  destruct c as [| | |f|];
    try (intros H; apply bind_inv in H as (? & ? & _ & H); discriminate).
  intros H. apply bind_inv in H as (base & w0 & Hb & H).
  apply load_type_inv in Hb as [-> Hb].
  apply bind_inv in H as (b & w1 & Hf & H).
  apply host_fault_inv in Hf as (Hh & _ & _).
  destruct b; [apply bind_inv in H as (? & ? & _ & H); discriminate|].
  destruct args.1 as [| name | | |] eqn:Hname;
    try (apply bind_inv in H as (? & ? & _ & H); discriminate).
  destruct (enum_refusal name _ args.2);
    [apply bind_inv in H as (? & ? & _ & H); discriminate|].
  rewrite bind_get_world, bind_modify in H. inversion H; subst.
  simpl. rewrite Hh. eexists f, base, _, name. repeat split; eauto.
Qed.

Ltac bind_step H a w Hm := apply bind_inv in H as (a & w & Hm & H).

Ltac frame_of Hm F :=
  lazymatch type of Hm with
  | ?m ?w0 = Ret ?a0 ?w1 =>
      assert (F : frame w0 w1)
        by (apply (fun Hf : framed m => Hf w0 a0 w1 Hm); framed_steps)
  end.

(** What a successful call of [create_enum_object] has done: it has read
    the run of entries at the cursor, moved the cursor past them, created a
    type object that derives from the class of the flavour and holds the
    members, and recorded it in the generated type. *)
Lemma create_enum_object_spec NDEBUG client etd_p cur name w obj cur' w' :
  create_enum_object NDEBUG client etd_p cur name w = Ret (Some obj, cur') w' ->
  exists etd a f t cls qualified,
    typedefs w !! etd_p = Some (EnumTypeDef etd) /\
    cur' = advance cur (Z.to_nat (etd_nr_members etd)) /\
    length (consumed w cur (Z.to_nat (etd_nr_members etd)))
      = Z.to_nat (etd_nr_members etd) /\
    Forall (fun ii => ii_name ii <> None)
           (consumed w cur (Z.to_nat (etd_nr_members etd))) /\
    obj = PyType a /\ (length (heap w) <= a)%nat /\
    enum_factory (statics w) etd = Some (PyType f) /\ (f < a)%nat /\
    heap w' !! a = Some t /\
    tp_bases t = [f] /\
    name = PyUnicode cls /\
    tp_members t
      = enum_members cls qualified
          (members_of etd (consumed w cur (Z.to_nat (etd_nr_members etd)))
             []) /\
    typedefs w'
      = <[etd_p := EnumTypeDef (set_py_type (Some obj) etd)]> (typedefs w) /\
    int_instances w' = int_instances w /\
    statics w' = statics w /\
    heap_ext (heap w) (heap w').
Proof.
  unfold create_enum_object. intros H.
  bind_step H td w0 Htd. apply load_typedef_inv in Htd as [-> Htd].
  destruct td as [etd|]; [|discriminate]. simpl in H. rewrite bind_ret_l in H.
  bind_step H members w1 Hm. frame_of Hm F1.
  apply PyDict_New_inv in Hm as [->| ->]; [discriminate|].
  bind_step H u w2 Ha. apply assert_inv in Ha as [-> _].
  bind_step H r w2 Hr.
  destruct r as [[members next_int]|]; [|discriminate].
  apply add_members_cursor in Hr as (-> & F2 & Hlen & Hnamed & ->).
  bind_step H args w3 Hargs. frame_of Hargs F3.
  apply PyTuple_Pack2_inv in Hargs as [->| ->]; [discriminate|].
  bind_step H kw0 w4 Hkw. frame_of Hkw F4.
  destruct kw0 as [kw0|]; [|discriminate].
  bind_step H key w5 Hkey. apply static_inv in Hkey as [-> ->].
  bind_step H r w5 Hset. frame_of Hset F5.
  destruct (r.1 <? 0); [discriminate|].
  bind_step H kw w6 Hq. frame_of Hq F6.
  destruct kw as [kw|]; [|discriminate].
  bind_step H cap w7 Hcap. frame_of Hcap F7.
  destruct cap as [cap|]; [|discriminate].
  bind_step H factory w8 Hfac. apply static_inv in Hfac as [-> ->].
  bind_step H enum_obj w8 Hcall. frame_of Hcall F8.
  destruct enum_obj as [enum_obj|]; [|discriminate].
  apply PyObject_Call_inv in Hcall
    as (f & base & t & cls & Hf & Hbase & -> & Hheap & Hbases & Hcls & Hmem).
  rewrite bind_modify in H.
  bind_step H key w9 Hkey. apply static_inv in Hkey as [-> ->].
  bind_step H rc w9 Hattr. frame_of Hattr F9.
  destruct (rc <? 0).
  { bind_step H u1 w10 H1. bind_step H u2 w11 H2. discriminate. }
  bind_step H u1 w10 H1. frame_of H1 F10.
  bind_step H u2 w11 H2.
  assert (F11 : frame w10 w11).
  { destruct (etd_pyslots etd); [|inversion H2; apply frame_refl].
    eapply framed_sip_add_type_slots; eauto. }
  inversion H; subst obj cur' w11. clear H.
  assert (Fa : frame w w7) by eauto 10 using frame_trans.
  assert (Fb : frame (set_typedefs
                        (<[etd_p:=EnumTypeDef
                                    (set_py_type
                                       (Some (PyType (length (heap w7)))) etd)]>
                           (typedefs w8)) w8) w')
    by eauto using frame_trans.
  pose proof Fa as ((Hl7 & _) & Ht7 & Hi7 & _ & Hs7).
  pose proof F8 as (_ & Ht8 & _).
  pose proof Fb as ((_ & Hx) & Htb & Hib & _ & Hsb).
  pose proof F8 as (E8 & _ & Hi8 & _ & Hs8).
  pose proof Fa as (Ea & _).
  pose proof Fb as (Eb & _). simpl in Eb, Htb, Hib, Hsb.
  assert (Eh : heap_ext (heap w) (heap w'))
    by (eapply heap_ext_trans; [|eapply heap_ext_trans]; eauto).
  destruct (Hx (length (heap w7)) t) as (t' & Ht' & Hfix).
  { simpl. rewrite Hheap. now apply list_lookup_middle. }
  inversion Hfix.
  eexists etd, (length (heap w7)), f, t', cls, _.
  rewrite Hs7 in Hf.
  destruct F2 as (_ & _ & Hi2 & _). destruct F1 as (_ & _ & Hi1 & _).
  assert (Hc : forall n, consumed w1 cur n = consumed w cur n)
    by (intros n; destruct cur; simpl; congruence).
  rewrite Hc in *.
  simpl in Hmem, Hcls.
  repeat split; try done; try apply Eh; try congruence.
  - apply lookup_lt_Some in Hbase. lia.
  - etransitivity; [eassumption|exact Hmem].
Qed.

(** ** C7: the cursor *)

Lemma remaining_take n : forall l,
  length (take n l) = n ->
  Forall (fun ii => ii_name ii <> None) (take n l) ->
  remaining l = (n + remaining (drop n l))%nat.
Proof.
  induction n as [|n IH]; intros l Hl Hn; [done|].
  destruct l as [|ii l]; [discriminate|]. simpl in *.
  inversion Hn as [|? ? Hii Hn']; subst.
  destruct (ii_name ii); [|done]. rewrite (IH l); [done|lia|done].
Qed.

(** What a call of [sip_enum_create] that does not fail has done. *)
Lemma sip_enum_create_spec NDEBUG client etd_p cur dict w rc cur' dict' w' :
  sip_enum_create NDEBUG client etd_p cur dict w = Ret (rc, cur', dict') w' ->
  (rc <? 0) = false ->
  exists etd obj,
    typedefs w !! etd_p = Some (EnumTypeDef etd) /\
    cur' = advance cur (Z.to_nat (etd_nr_members etd)) /\
    length (consumed w cur (Z.to_nat (etd_nr_members etd)))
      = Z.to_nat (etd_nr_members etd) /\
    Forall (fun ii => ii_name ii <> None)
           (consumed w cur (Z.to_nat (etd_nr_members etd))) /\
    typedefs w'
      = <[etd_p := EnumTypeDef (set_py_type (Some obj) etd)]> (typedefs w) /\
    int_instances w' = int_instances w /\
    statics w' = statics w /\
    heap_ext (heap w) (heap w').
Proof.
  unfold sip_enum_create. intros H Hrc.
  bind_step H td w0 Htd. apply load_typedef_inv in Htd as [-> Htd].
  destruct td as [etd|]; [|discriminate]. simpl in H. rewrite bind_ret_l in H.
  bind_step H name w1 Hname. frame_of Hname F1.
  destruct name as [name|]; [|inversion H; subst; discriminate].
  bind_step H r w2 Hr. destruct r as [[obj|] c]; simpl in H.
  - bind_step H rd w3 Hd. frame_of Hd F3.
    bind_step H u1 w4 H1. frame_of H1 F4.
    bind_step H u2 w5 H2. frame_of H2 F5.
    inversion H; subst. clear H.
    apply create_enum_object_spec in Hr
      as (etd' & a & f & t & cls & qf & Htd' & -> & Hl & Hn & -> & _ & _ & _
          & _ & _ & _ & _ & Ht & Hi & Hs & Hh).
    destruct F1 as (E1 & T1 & I1 & _ & S1).
    assert (F : frame w2 w') by eauto using frame_trans.
    destruct F as (E & T & I & _ & S).
    rewrite T1, Htd in Htd'. inversion Htd'; subst etd'.
    assert (Hc : forall n, consumed w1 cur n = consumed w cur n)
      by (intros n; destruct cur; simpl; congruence).
    rewrite Hc in *.
    exists etd, (PyType a). repeat split; try done; try congruence.
    + eapply heap_ext_trans; [|eapply heap_ext_trans]; eauto.
    + eapply heap_ext_trans; [|eapply heap_ext_trans]; eauto.
  - bind_step H u1 w3 H1. inversion H; subst. discriminate.
Qed.

Lemma member_count_insert w w' p obj etd q :
  typedefs w !! p = Some (EnumTypeDef etd) ->
  typedefs w' = <[p := EnumTypeDef (set_py_type obj etd)]> (typedefs w) ->
  member_count w' q = member_count w q.
Proof.
  intros Hp Ht. unfold member_count. rewrite Ht.
  destruct (decide (p = q)) as [->|Hne].
  - rewrite list_lookup_insert_eq by (eapply lookup_lt_Some; eauto).
    now rewrite Hp.
  - now rewrite list_lookup_insert_ne.
Qed.

(** C7.  When the enums of a module have been registered one after the
    other with the one cursor, the cursor has moved by exactly the sum of the
    declared member counts (each creation moves it by the count of its
    enum), every entry it has passed is an entry of the table before the
    closing one, and so, when the counts add up to the length of the table,
    the cursor ends exactly at the end of the table. *)
Theorem cursor_exactness (NDEBUG : bool) (client : sipExportedModuleDef)
    (etds : list nat) : forall (start : nat) (dict : PyDict) (w : World)
    (cur' : option nat) (dict' : PyDict) (w' : World),
  register_enums NDEBUG client etds (Some start) dict w
    = Ret (0, cur', dict') w' ->
  cur' = Some (start + total_members w etds)%nat /\
  (total_members w etds <= remaining (drop start (int_instances w)))%nat /\
  (total_members w etds = remaining (drop start (int_instances w)) ->
   cur' = Some (start + remaining (drop start (int_instances w)))%nat).
Proof.
  induction etds as [|p etds IH]; intros start dict w cur' dict' w' H.
  - inversion H; subst. unfold total_members. simpl.
    rewrite Nat.add_0_r. repeat split; [lia|]. intros <-. f_equal. lia.
  - simpl in H. bind_step H r w1 Hr. destruct r as [[rc c] d]. simpl in H.
    destruct (rc <? 0) eqn:Hrc.
    { inversion H; subst. discriminate. }
    apply sip_enum_create_spec in Hr
      as (etd & obj & Htd & -> & Hl & Hn & Ht & Hi & _); [|done].
    simpl in H. apply IH in H as (-> & Hle & _).
    assert (Hcount : member_count w p = Z.to_nat (etd_nr_members etd))
      by (unfold member_count; now rewrite Htd).
    assert (Htot : total_members w1 etds = total_members w etds).
    { unfold total_members. f_equal. apply map_ext. intros q.
      eapply member_count_insert; eauto. }
    simpl in Hl, Hn. rewrite Hi, Htot in Hle.
    pose proof (remaining_take _ _ Hl Hn) as Hrem.
    rewrite drop_drop in Hrem.
    assert (Hsum : total_members w (p :: etds)
                   = (Z.to_nat (etd_nr_members etd) + total_members w etds)%nat)
      by (unfold total_members; simpl; now rewrite Hcount).
    rewrite Hsum, Htot. split; [f_equal; lia|]. split; [lia|].
    intros <-. f_equal. lia.
Qed.

Lemma cursor_exactness_witness :
  register_enums false demo_client [0%nat; 1%nat] (Some 0%nat) [] ready_world
    = Ret (0, Some 6%nat,
           [(PyUnicode "Level", PyType 4); (PyUnicode "Perm", PyType 5)])
          demo_world /\
  Some 6%nat = Some (0 + total_members ready_world [0%nat; 1%nat])%nat /\
  (total_members ready_world [0%nat; 1%nat]
   <= remaining (drop 0 (int_instances ready_world)))%nat /\
  (total_members ready_world [0%nat; 1%nat]
   = remaining (drop 0 (int_instances ready_world)) ->
   Some 6%nat
   = Some (0 + remaining (drop 0 (int_instances ready_world)))%nat).
Proof.
  assert (H : register_enums false demo_client [0%nat; 1%nat] (Some 0%nat) []
                ready_world
              = Ret (0, Some 6%nat,
                     [(PyUnicode "Level", PyType 4);
                      (PyUnicode "Perm", PyType 5)])
                    demo_world)
    by (vm_compute; reflexivity).
  split; [exact H|].
  exact (cursor_exactness false demo_client [0%nat; 1%nat] 0%nat [] ready_world
           _ _ _ H).
Defined.

(** ** Running the code when the host does not fail *)

Lemma host_fault_none w : faults w = [] -> host_fault w = Ret false w.
Proof. intros H. unfold host_fault. now rewrite H. Qed.

Lemma alloc_ok {A} (k : M (option A)) w : faults w = [] -> alloc k w = k w.
Proof. intros H. unfold alloc. now rewrite (bind_Ret _ _ _ _ _ (host_fault_none w H)). Qed.

Lemma Py_INCREF_plain o w : plain o = true -> Py_INCREF o w = Ret tt w.
Proof. now destruct o. Qed.

Lemma Py_DECREF_plain o w : plain o = true -> Py_DECREF o w = Ret tt w.
Proof. now destruct o. Qed.

Lemma dict_get_plain d k o :
  plain_dict d = true -> dict_get d k = Some o -> plain o = true.
Proof.
  induction d as [|[k' v'] d IH]; [done|]. simpl.
  intros H. apply andb_true_iff in H as [Hv Hd].
  destruct (decide (k' = k)); [intros [= <-]; exact Hv | auto].
Qed.

Lemma plain_dict_set d k v :
  plain_dict d = true -> plain v = true -> plain_dict (dict_set d k v) = true.
Proof.
  induction d as [|[k' v'] d IH]; simpl; intros Hd Hv.
  - now rewrite Hv.
  - apply andb_true_iff in Hd as [Hv' Hd].
    destruct (decide (k' = k)); simpl; apply andb_true_iff; auto.
Qed.

Lemma PyDict_SetItem_ok d k v w :
  faults w = [] -> plain v = true -> plain_dict d = true ->
  PyDict_SetItem d (Some k) (Some v) w = Ret (0, dict_set d k v) w.
Proof.
  intros Hf Hv Hd. unfold PyDict_SetItem, deref. rewrite !bind_ret_l.
  rewrite (bind_Ret _ _ _ _ _ (host_fault_none w Hf)).
  rewrite (bind_Ret _ _ _ _ _ (Py_INCREF_plain v w Hv)).
  destruct (dict_get d k) as [o|] eqn:Ho; simpl.
  - now rewrite (bind_Ret _ _ _ _ _
                   (Py_DECREF_plain o w (dict_get_plain _ _ _ Hd Ho))).
  - reflexivity.
Qed.

Lemma sip_dict_set_and_discard_ok d k v w :
  faults w = [] -> plain v = true -> plain_dict d = true ->
  sip_dict_set_and_discard d (Some k) (Some v) w
  = Ret (0, dict_set d (PyUnicode k) v) w.
Proof.
  intros Hf Hv Hd. unfold sip_dict_set_and_discard, PyDict_SetItemString, deref.
  rewrite bind_assoc, bind_ret_l.
  rewrite (bind_Ret _ _ _ _ _ (PyDict_SetItem_ok d _ v w Hf Hv Hd)).
  now rewrite (bind_Ret _ _ _ _ _ (Py_DECREF_plain v w Hv)).
Qed.

Lemma member_value_ok etd v w :
  faults w = [] ->
  (if IS_UNSIGNED_ENUM etd then PyLong_FromUnsignedLong (cast_unsigned v)
   else PyLong_FromLong v) w = Ret (Some (PyLong (host_value etd v))) w.
Proof.
  intros Hf. unfold host_value, PyLong_FromUnsignedLong, PyLong_FromLong.
  destruct (IS_UNSIGNED_ENUM etd); now rewrite alloc_ok.
Qed.

(** ** C3: a table that is too short *)

Lemma assert_true NDEBUG w : assert NDEBUG true w = Ret tt w.
Proof. unfold assert. now destruct NDEBUG. Qed.

(** Without a failure of the host, the loop runs into the end of a table
    that is too short: the assert on the name stops a debug build at the
    closing entry, everything else is undefined. *)
Lemma add_members_short NDEBUG etd n : forall members i w,
  faults w = [] -> plain_dict members = true ->
  (remaining (drop i (int_instances w)) < n)%nat ->
  add_members NDEBUG etd n members (Some i) w
  = if NDEBUG then Undefined
    else if terminated (drop i (int_instances w)) then Abort else Undefined.
Proof.
  induction n as [|n IH]; intros members i w Hf Hd Hlt; [lia|].
  simpl. unfold deref at 1. rewrite bind_ret_l, bind_get_world.
  destruct (int_instances w !! i) as [ii|] eqn:Hii.
  - unfold deref. rewrite bind_ret_l.
    rewrite (drop_S _ _ _ Hii) in *. simpl in Hlt |- *.
    destruct (ii_name ii) as [k|] eqn:Hk.
    + rewrite bool_decide_eq_true_2 by done.
      rewrite (bind_Ret _ _ _ _ _ (assert_true NDEBUG w)).
      rewrite (bind_Ret _ _ _ _ _ (member_value_ok etd (ii_val ii) w Hf)).
      rewrite (bind_Ret _ _ _ _ _
                 (sip_dict_set_and_discard_ok members k
                    (PyLong (host_value etd (ii_val ii))) w Hf eq_refl Hd)).
      simpl. now rewrite IH; [|done|now apply plain_dict_set|lia].
    + rewrite bool_decide_eq_false_2 by (intros H; now apply H).
      destruct NDEBUG; [|reflexivity]. unfold assert. rewrite bind_ret_l.
      now rewrite (bind_Ret _ _ _ _ _ (member_value_ok etd (ii_val ii) w Hf)).
  - rewrite drop_ge by now apply lookup_ge_None. simpl. now destruct NDEBUG.
Qed.

(** C3, as the code has it.  When the cursor has fewer entries left than the
    enum declares, [create_enum_object] never succeeds, yet it raises no
    error of its own: unless a call of the host fails first, a debug build
    aborts at the assert on the name of the closing entry, and the behaviour
    of a build without asserts (and of any build on a table without closing
    entry) is undefined. *)
Theorem member_exhaustion_not_checked (NDEBUG : bool)
    (client : sipExportedModuleDef) (etd_p i : nat) (name : PyObject)
    (w : World) (etd : sipEnumTypeDef) :
  typedefs w !! etd_p = Some (EnumTypeDef etd) ->
  (remaining (drop i (int_instances w)) < Z.to_nat (etd_nr_members etd))%nat ->
  (forall obj c w',
     create_enum_object NDEBUG client etd_p (Some i) name w
     <> Ret (Some obj, c) w') /\
  (faults w = [] ->
   create_enum_object NDEBUG client etd_p (Some i) name w
   = if NDEBUG then Undefined
     else if terminated (drop i (int_instances w)) then Abort else Undefined).
Proof.
  intros Htd Hlt. split.
  - intros obj c w' H. apply create_enum_object_spec in H
      as (etd' & a & f & t & cls & qf & Htd' & _ & Hl & Hn & _).
    rewrite Htd in Htd'. inversion Htd'; subst etd'. simpl in Hl, Hn.
    pose proof (remaining_take _ _ Hl Hn). lia.
  - intros Hf. unfold create_enum_object.
    rewrite (bind_Ret _ _ _ _ _ (load_typedef_ok _ _ _ Htd)).
    unfold as_enum. rewrite bind_ret_l.
    rewrite (bind_Ret PyDict_New _ w (Some []) w)
      by (unfold PyDict_New; now rewrite alloc_ok).
    rewrite bool_decide_eq_true_2 by done.
    rewrite (bind_Ret _ _ _ _ _ (assert_true NDEBUG w)).
    unfold bind at 1. rewrite add_members_short by done.
    destruct NDEBUG; [done|]. now destruct (terminated _).
Qed.

Lemma member_exhaustion_not_checked_witness :
  typedefs ready_world !! 1%nat = Some (EnumTypeDef Perm_td) /\
  (remaining (drop 4 (int_instances ready_world))
   < Z.to_nat (etd_nr_members Perm_td))%nat /\
  (forall obj c w',
     create_enum_object false demo_client 1 (Some 4%nat) (PyUnicode "Perm")
       ready_world <> Ret (Some obj, c) w') /\
  (faults ready_world = [] ->
   create_enum_object false demo_client 1 (Some 4%nat) (PyUnicode "Perm")
     ready_world
   = if false then Undefined
     else if terminated (drop 4 (int_instances ready_world)) then Abort
          else Undefined).
Proof.
  split; [reflexivity|]. split; [vm_compute; lia|].
  apply (member_exhaustion_not_checked false demo_client 1 4 (PyUnicode "Perm")
           ready_world Perm_td); [reflexivity | vm_compute; lia].
Defined.

(** C3, as the spec has it, fails: with two entries left at the cursor and
    an enum of three members, neither a debug build nor a build without
    asserts returns an error to the caller. *)
Lemma member_exhaustion_counterexample :
  (remaining (drop 4 (int_instances ready_world))
   < member_count ready_world 1)%nat /\
  ~ surfaces_error
      (create_enum_object false demo_client 1 (Some 4%nat) (PyUnicode "Perm")
         ready_world) /\
  ~ surfaces_error
      (create_enum_object true demo_client 1 (Some 4%nat) (PyUnicode "Perm")
         ready_world).
Proof.
  split; [vm_compute; lia|].
  split; intros (c & w & H & _); vm_compute in H; discriminate.
Qed.

(** ** The conversions *)

Lemma cast_unsigned_range v : 0 <= cast_unsigned v <= UINT_MAX.
Proof.
  unfold cast_unsigned, UINT_MAX.
  pose proof (Z.mod_pos_bound v 4294967296). lia.
Qed.

Lemma cast_int_unsigned v :
  INT_MIN <= v <= INT_MAX -> cast_int (cast_unsigned v) = v.
Proof.
  unfold cast_int, cast_unsigned, INT_MIN, INT_MAX. intros Hv.
  destruct (Z_lt_le_dec v 0) as [Hneg|Hpos].
  - replace (v mod 4294967296) with (v + 4294967296)
      by (apply Z.mod_unique with (-1); lia).
    replace ((v + 4294967296 + 2147483648) mod 4294967296)
      with (v + 2147483648) by (apply Z.mod_unique with 1; lia).
    lia.
  - rewrite (Z.mod_small v) by lia. rewrite Z.mod_small by lia. lia.
Qed.

Lemma get_enum_type_cached scope lazy td w t o :
  typedefs w !! td = Some t -> sipTypeAsPyTypeObject t = Some o ->
  get_enum_type scope lazy td w = Ret (Some o) w.
Proof.
  intros Ht Ho. unfold get_enum_type.
  rewrite (bind_Ret _ _ _ _ _ (load_typedef_ok _ _ _ Ht)). now rewrite Ho.
Qed.

Lemma subtype_refl h a : PyType_IsSubtype h a a = true.
Proof.
  unfold PyType_IsSubtype. destruct (length h); simpl;
    now rewrite bool_decide_eq_true_2.
Qed.

Lemma find_member_In members name v :
  In (name, v) members -> find_member members v = Some v.
Proof.
  unfold find_member. induction members as [|[k x] ms IH]; [done|].
  intros [H|H]; simpl.
  - inversion H; subst. now rewrite bool_decide_eq_true_2.
  - destruct (bool_decide (x = v)) eqn:Hx; [|auto].
    apply bool_decide_eq_true in Hx. now subst.
Qed.

(** The lookup of a member by its value. *)
Lemma convert_from_enum_member NDEBUG scope lazy w td etd a t name v :
  typedefs w !! td = Some (EnumTypeDef etd) ->
  td_py_type etd = Some (PyType a) ->
  heap w !! a = Some t ->
  faults w = [] ->
  In (name, PyLong (host_value etd v)) (tp_members t) ->
  sip_api_convert_from_enum NDEBUG scope lazy v td w
  = Ret (Some (PyInstance a (PyLong (host_value etd v)))) w.
Proof.
  intros Htd Hpy Ha Hf Hin. unfold sip_api_convert_from_enum.
  rewrite (bind_Ret _ _ _ _ _ (load_typedef_ok _ _ _ Htd)). simpl sipTypeIsEnum.
  rewrite (bind_Ret _ _ _ _ _ (assert_true NDEBUG w)).
  rewrite (bind_Ret _ _ _ _ _ (get_enum_type_cached scope lazy td w _ _ Htd Hpy)).
  unfold as_enum. rewrite bind_ret_l. unfold PyObject_CallFunction.
  rewrite (bind_Ret _ _ _ _ _ (host_fault_none w Hf)).
  rewrite (bind_Ret _ _ _ _ _ (load_type_ok _ _ _ Ha)).
  fold (host_value etd v). now rewrite (find_member_In _ _ _ Hin).
Qed.

Lemma PyObject_IsInstance_types w c v b tc tb :
  heap w !! c = Some tc -> heap w !! b = Some tb ->
  PyObject_IsInstance (PyInstance c v) (Some (PyType b)) w
  = Ret (if PyType_IsSubtype (heap w) c b then 1 else 0) w.
Proof.
  intros Hc Hb. unfold PyObject_IsInstance, deref. rewrite bind_ret_l.
  rewrite (bind_Ret _ _ _ _ _ (load_type_ok _ _ _ Hb)).
  now rewrite (bind_Ret _ _ _ _ _ (load_type_ok _ _ _ Hc)).
Qed.

(** The value that [sip_api_convert_to_enum] reads from a member: through
    [unsigned] and back to [int] for an unsigned enum, as an [int]
    otherwise. *)
Lemma convert_to_enum_value NDEBUG scope lazy w td etd a t c tc x :
  typedefs w !! td = Some (EnumTypeDef etd) ->
  td_py_type etd = Some (PyType a) ->
  heap w !! a = Some t ->
  heap w !! c = Some tc ->
  PyType_IsSubtype (heap w) c a = true ->
  str_value (statics w) = Some (PyUnicode "value") ->
  (if IS_UNSIGNED_ENUM etd then 0 <= x <= UINT_MAX
   else INT_MIN <= x <= INT_MAX) ->
  sip_api_convert_to_enum NDEBUG scope lazy (PyInstance c (PyLong x)) td w
  = Ret (if IS_UNSIGNED_ENUM etd then cast_int x else x) w.
Proof.
  intros Htd Hpy Ha Hc Hsub Hval Hx. unfold sip_api_convert_to_enum.
  rewrite (bind_Ret _ _ _ _ _ (load_typedef_ok _ _ _ Htd)). simpl sipTypeIsEnum.
  rewrite (bind_Ret _ _ _ _ _ (assert_true NDEBUG w)).
  rewrite (bind_Ret _ _ _ _ _ (get_enum_type_cached scope lazy td w _ _ Htd Hpy)).
  rewrite (bind_Ret _ _ _ _ _ (PyObject_IsInstance_types w c _ a tc t Hc Ha)).
  rewrite Hsub. change (1 <=? 0) with false. cbv iota.
  unfold static. rewrite bind_assoc, bind_get_world, bind_ret_l, Hval.
  unfold PyObject_GetAttr, deref. rewrite bind_assoc, bind_ret_l.
  rewrite bind_assoc.
  rewrite (bind_Ret _ _ _ _ _ (load_type_ok _ _ _ Hc)).
  rewrite decide_True by done. rewrite bind_assoc. simpl Py_INCREF.
  rewrite !bind_ret_l. unfold as_enum. rewrite bind_ret_l.
  destruct (IS_UNSIGNED_ENUM etd).
  - unfold sip_api_long_as_unsigned_int.
    replace ((0 <=? x) && (x <=? UINT_MAX)) with true
      by (symmetry; apply andb_true_iff; split; apply Z.leb_le; lia).
    reflexivity.
  - unfold sip_api_long_as_int.
    replace ((INT_MIN <=? x) && (x <=? INT_MAX)) with true
      by (symmetry; apply andb_true_iff; split; apply Z.leb_le; lia).
    reflexivity.
Qed.

(** From a native value to its member and back. *)
Lemma roundtrip_exec NDEBUG scope lazy w td etd a t name v :
  typedefs w !! td = Some (EnumTypeDef etd) ->
  td_py_type etd = Some (PyType a) ->
  heap w !! a = Some t ->
  str_value (statics w) = Some (PyUnicode "value") ->
  faults w = [] ->
  INT_MIN <= v <= INT_MAX ->
  In (name, PyLong (host_value etd v)) (tp_members t) ->
  sip_api_convert_from_enum NDEBUG scope lazy v td w
  = Ret (Some (PyInstance a (PyLong (host_value etd v)))) w /\
  sip_api_convert_to_enum NDEBUG scope lazy
    (PyInstance a (PyLong (host_value etd v))) td w = Ret v w.
Proof.
  intros Htd Hpy Ha Hval Hf Hv Hin. split.
  - eapply convert_from_enum_member; eauto.
  - rewrite (convert_to_enum_value NDEBUG scope lazy w td etd a t a t);
      auto using subtype_refl; unfold host_value.
    + destruct (IS_UNSIGNED_ENUM etd); [|done].
      now rewrite cast_int_unsigned.
    + destruct (IS_UNSIGNED_ENUM etd); [apply cast_unsigned_range|done].
Qed.

(** ** C1: the round trip *)

(** What [get_enum_type] returns is what the type structure holds when it
    returns. *)
Lemma get_enum_type_resolved scope lazy td w o w1 :
  get_enum_type scope lazy td w = Ret (Some o) w1 ->
  exists t, typedefs w1 !! td = Some t /\ sipTypeAsPyTypeObject t = Some o.
Proof.
  unfold get_enum_type. intros H.
  bind_step H t w0 Ht. apply load_typedef_inv in Ht as [-> Ht].
  destruct (sipTypeAsPyTypeObject t) as [o'|] eqn:Ho.
  - inversion H; subst. now exists t.
  - bind_step H sc w2 Hsc. bind_step H rc w3 Hrc.
    destruct (rc <? 0); [discriminate|].
    bind_step H t' w4 Ht'. apply load_typedef_inv in Ht' as [-> Ht'].
    assert (H1 : sipTypeAsPyTypeObject t' = Some o /\ w3 = w1)
      by now inversion H.
    destruct H1 as [H1 <-]. now exists t'.
Qed.

(** C1.  For every enum type descriptor that [get_enum_type] resolves to a
    type object, whether the object is there already or is made when the
    lazy attributes of the scope are created, and for every native value
    [v] of one of its members, [sip_api_convert_from_enum] gives the member
    and [sip_api_convert_to_enum] gives [v] back from it.  The conversions
    set no error and change nothing but what the resolution has done: when
    the object is there already, the state stays as it was. *)
Theorem convert_roundtrip (NDEBUG : bool) (scope : nat -> M (option nat))
    (lazy : option nat -> M Z) (w w1 : World) (td : nat)
    (etd etd1 : sipEnumTypeDef) (a : nat) (t : PyTypeObject)
    (name : PyObject) (v : Z) :
  typedefs w !! td = Some (EnumTypeDef etd) ->
  get_enum_type scope lazy td w = Ret (Some (PyType a)) w1 ->
  typedefs w1 !! td = Some (EnumTypeDef etd1) ->
  etd_base_type etd1 = etd_base_type etd ->
  heap w1 !! a = Some t ->
  str_value (statics w1) = Some (PyUnicode "value") ->
  faults w1 = [] ->
  INT_MIN <= v <= INT_MAX ->
  In (name, PyLong (host_value etd v)) (tp_members t) ->
  exists obj,
    sip_api_convert_from_enum NDEBUG scope lazy v td w = Ret (Some obj) w1 /\
    sip_api_convert_to_enum NDEBUG scope lazy obj td w1 = Ret v w1.
Proof.
  intros Htd Hget Htd1 Hbase Ha Hval Hf Hv Hin.
  assert (Hu : IS_UNSIGNED_ENUM etd1 = IS_UNSIGNED_ENUM etd)
    by (unfold IS_UNSIGNED_ENUM; now rewrite Hbase).
  assert (Hh : host_value etd1 v = host_value etd v)
    by (unfold host_value; now rewrite Hu).
  destruct (get_enum_type_resolved _ _ _ _ _ _ Hget) as (t1 & Ht1 & Hpy).
  rewrite Htd1 in Ht1. inversion Ht1; subst t1. simpl in Hpy.
  exists (PyInstance a (PyLong (host_value etd v))). split.
  - unfold sip_api_convert_from_enum.
    rewrite (bind_Ret _ _ _ _ _ (load_typedef_ok _ _ _ Htd)).
    simpl sipTypeIsEnum.
    rewrite (bind_Ret _ _ _ _ _ (assert_true NDEBUG w)).
    rewrite (bind_Ret _ _ _ _ _ Hget).
    unfold as_enum. rewrite bind_ret_l. unfold PyObject_CallFunction.
    rewrite (bind_Ret _ _ _ _ _ (host_fault_none w1 Hf)).
    rewrite (bind_Ret _ _ _ _ _ (load_type_ok _ _ _ Ha)).
    fold (host_value etd v). now rewrite (find_member_In _ _ _ Hin).
  - rewrite <- Hh in Hin |- *.
    eapply (roundtrip_exec NDEBUG scope lazy w1 td etd1 a t name v); eauto.
Qed.

Lemma convert_roundtrip_witness :
  exists obj,
    sip_api_convert_from_enum false no_scope demo_lazy_attrs (-1) 1 ready_world
    = Ret (Some obj) demo_world /\
    sip_api_convert_to_enum false no_scope demo_lazy_attrs obj 1 demo_world
    = Ret (-1) demo_world.
Proof.
  apply (convert_roundtrip false no_scope demo_lazy_attrs ready_world
           demo_world 1 Perm_td (set_py_type (Some (PyType 5)) Perm_td) 5
           (mkType "EnumType" "Perm" "Perm" (Some (PyUnicode "demo"))
              [3%nat]
              [(PyUnicode "READ", PyLong 1); (PyUnicode "WRITE", PyLong 2);
               (PyUnicode "ALL", PyLong 4294967295)]
              [(PyUnicode "__sip__", PyCapsule 1)] None 1)
           (PyUnicode "ALL") (-1));
    try (vm_compute; reflexivity).
  - unfold INT_MIN, INT_MAX. lia.
  - simpl. auto.
Defined.

(** ** C4: the sign of the result *)

(** C4, as the code has it.  For an unsigned flag, the member made for the
    native value -1 holds the full magnitude 4294967295, and
    [sip_api_convert_to_enum], whose result is an [int], reads that member
    through [unsigned] without error and returns it cast to [int], which is
    -1 again. *)
Theorem convert_to_enum_unsigned_flag (NDEBUG : bool)
    (scope : nat -> M (option nat)) (lazy : option nat -> M Z) (w : World)
    (td : nat) (etd : sipEnumTypeDef) (a : nat) (t : PyTypeObject) :
  typedefs w !! td = Some (EnumTypeDef etd) ->
  etd_base_type etd = SIP_ENUM_INT_FLAG ->
  td_py_type etd = Some (PyType a) ->
  heap w !! a = Some t ->
  str_value (statics w) = Some (PyUnicode "value") ->
  host_value etd (-1) = 4294967295 /\
  sip_api_convert_to_enum NDEBUG scope lazy
    (PyInstance a (PyLong 4294967295)) td w = Ret (-1) w.
Proof.
  intros Htd Hbase Hpy Ha Hval.
  assert (Hu : IS_UNSIGNED_ENUM etd = true)
    by (unfold IS_UNSIGNED_ENUM; now rewrite Hbase).
  split; [unfold host_value; now rewrite Hu|].
  rewrite (convert_to_enum_value NDEBUG scope lazy w td etd a t a t);
    auto using subtype_refl; rewrite Hu; [done|].
  unfold UINT_MAX. lia.
Qed.

Lemma convert_to_enum_unsigned_flag_witness :
  host_value (set_py_type (Some (PyType 5)) Perm_td) (-1) = 4294967295 /\
  sip_api_convert_to_enum false no_scope no_lazy_attrs
    (PyInstance 5 (PyLong 4294967295)) 1 demo_world = Ret (-1) demo_world.
Proof.
  apply (convert_to_enum_unsigned_flag false no_scope no_lazy_attrs demo_world
           1 (set_py_type (Some (PyType 5)) Perm_td) 5
           (mkType "EnumType" "Perm" "Perm" (Some (PyUnicode "demo"))
              [3%nat]
              [(PyUnicode "READ", PyLong 1); (PyUnicode "WRITE", PyLong 2);
               (PyUnicode "ALL", PyLong 4294967295)]
              [(PyUnicode "__sip__", PyCapsule 1)] None 1));
    reflexivity.
Defined.

(** C4, as the spec has it, fails: for the member ALL = -1 of the unsigned
    flag [Perm], whose host value is 4294967295, the result is a negative
    number, not 4294967295. *)
Lemma convert_to_enum_unsigned_counterexample :
  sip_api_convert_from_enum false no_scope no_lazy_attrs (-1) 1 demo_world
  = Ret (Some (PyInstance 5 (PyLong 4294967295))) demo_world /\
  exists r,
    value_of (sip_api_convert_to_enum false no_scope no_lazy_attrs
                (PyInstance 5 (PyLong 4294967295)) 1 demo_world) = Some r /\
    r < 0 /\ r <> 4294967295.
Proof.
  split; [vm_compute; reflexivity|].
  exists (-1). split; [vm_compute; reflexivity|]. lia.
Qed.

(** ** C6: objects of another type *)

Lemma Py_TYPE_tp_name_ok h obj :
  live h obj = true ->
  exists tp, forall w, heap w = h -> Py_TYPE_tp_name obj w = Ret tp w.
Proof.
  destruct obj as [z|s|p|a|c v]; simpl; intros Hl;
    try (eexists; intros w Hw; reflexivity).
  - apply Nat.ltb_lt, lookup_lt_is_Some_2 in Hl as [t Ht].
    exists (ob_type_name t). intros w <-.
    now rewrite (bind_Ret _ _ _ _ _ (load_type_ok _ _ _ Ht)).
  - apply Nat.ltb_lt, lookup_lt_is_Some_2 in Hl as [t Ht].
    exists (tp_name t). intros w <-.
    now rewrite (bind_Ret _ _ _ _ _ (load_type_ok _ _ _ Ht)).
Qed.

Lemma PyObject_IsInstance_not w obj cls :
  live (heap w) obj = true -> live (heap w) cls = true ->
  ~ instance_of (heap w) obj cls ->
  exists rc w',
    PyObject_IsInstance obj (Some cls) w = Ret rc w' /\ rc <= 0 /\
    heap w' = heap w.
Proof.
  intros Hlo Hlc Hn. unfold PyObject_IsInstance, deref. rewrite bind_ret_l.
  destruct cls as [| | |b|];
    try (eexists _, _; split; [reflexivity|]; split; [lia|reflexivity]).
  apply live_type in Hlc as [tb Hb].
  rewrite (bind_Ret _ _ _ _ _ (load_type_ok _ _ _ Hb)).
  destruct obj as [| | | |c v];
    try (eexists _, _; split; [reflexivity|]; split; [lia|reflexivity]).
  simpl in Hlo. apply Nat.ltb_lt, lookup_lt_is_Some_2 in Hlo as [tc Hc].
  rewrite (bind_Ret _ _ _ _ _ (load_type_ok _ _ _ Hc)).
  rewrite bind_get_world.
  destruct (PyType_IsSubtype (heap w) c b) eqn:Hs.
  - exfalso. apply Hn. exists c, v, b. repeat split.
    now apply subtype_fuel_sound in Hs.
  - eexists _, _. split; [reflexivity|]. split; [lia|reflexivity].
Qed.

(** The way of [sip_api_convert_to_enum] through [enum_expected]. *)
Lemma convert_to_enum_mismatch_exec NDEBUG scope lazy w w1 td etd obj type_obj :
  typedefs w !! td = Some (EnumTypeDef etd) ->
  get_enum_type scope lazy td w = Ret (Some type_obj) w1 ->
  live (heap w1) obj = true ->
  live (heap w1) type_obj = true ->
  ~ instance_of (heap w1) obj type_obj ->
  exists tp w2,
    Py_TYPE_tp_name obj w1 = Ret tp w1 /\
    sip_api_convert_to_enum NDEBUG scope lazy obj td w = Ret (-1) w2 /\
    error w2
    = Some (mkErr TypeError
              ("a member of enum '" +:+ etd_name etd
                 +:+ "' is expected not '" +:+ tp +:+ "'")).
Proof.
  intros Htd Hget Hlo Hlc Hn.
  destruct (Py_TYPE_tp_name_ok _ _ Hlo) as [tp Htp].
  destruct (PyObject_IsInstance_not _ _ _ Hlo Hlc Hn)
    as (rc & w' & Hrc & Hle & Hh).
  exists tp, (set_error
                (Some (mkErr TypeError
                         ("a member of enum '" +:+ etd_name etd
                            +:+ "' is expected not '" +:+ tp +:+ "'"))) w').
  split; [now apply Htp|]. split; [|reflexivity].
  unfold sip_api_convert_to_enum.
  rewrite (bind_Ret _ _ _ _ _ (load_typedef_ok _ _ _ Htd)). simpl sipTypeIsEnum.
  rewrite (bind_Ret _ _ _ _ _ (assert_true NDEBUG w)).
  rewrite (bind_Ret _ _ _ _ _ Hget).
  rewrite (bind_Ret _ _ _ _ _ Hrc).
  replace (rc <=? 0) with true by (symmetry; now apply Z.leb_le).
  unfold enum_expected, as_enum. rewrite bind_assoc, bind_ret_l.
  rewrite bind_assoc. now rewrite (bind_Ret _ _ _ _ _ (Htp w' Hh)).
Qed.

(** C6.  When the enum type of the descriptor is resolved and the object is
    not an instance of it, [sip_api_convert_to_enum] returns -1 with a
    [TypeError] that names the enum and the type of the object; no value is
    read from the object. *)
Theorem convert_to_enum_type_mismatch (NDEBUG : bool)
    (scope : nat -> M (option nat)) (lazy : option nat -> M Z)
    (w w1 : World) (td : nat) (etd : sipEnumTypeDef)
    (obj type_obj : PyObject) :
  typedefs w !! td = Some (EnumTypeDef etd) ->
  get_enum_type scope lazy td w = Ret (Some type_obj) w1 ->
  live (heap w1) obj = true ->
  live (heap w1) type_obj = true ->
  ~ instance_of (heap w1) obj type_obj ->
  exists tp w2,
    Py_TYPE_tp_name obj w1 = Ret tp w1 /\
    sip_api_convert_to_enum NDEBUG scope lazy obj td w = Ret (-1) w2 /\
    error w2
    = Some (mkErr TypeError
              ("a member of enum '" +:+ sipPyNameOfEnum etd
                 +:+ "' is expected not '" +:+ tp +:+ "'")).
Proof. apply convert_to_enum_mismatch_exec. Qed.

Lemma not_subtype_not_instance h c v b :
  bases_below h = true -> (c < length h)%nat ->
  PyType_IsSubtype h c b = false -> ~ instance_of h (PyInstance c v) (PyType b).
Proof.
  intros Hb Hc Hs (c' & v' & b' & Ho & Hcls & Hsub).
  inversion Ho; inversion Hcls; subst.
  apply (PyType_IsSubtype_subclass _ _ _ Hb Hc) in Hsub. congruence.
Qed.

Lemma not_instance_of_other h obj cls :
  (forall c v, obj <> PyInstance c v) -> ~ instance_of h obj cls.
Proof. intros Hn (c & v & b & Ho & _). now apply (Hn c v). Qed.

Lemma convert_to_enum_type_mismatch_witness :
  exists tp w2,
    Py_TYPE_tp_name (PyInstance 5 (PyLong 4294967295)) demo_world
    = Ret tp demo_world /\
    sip_api_convert_to_enum false no_scope no_lazy_attrs
      (PyInstance 5 (PyLong 4294967295)) 0 demo_world = Ret (-1) w2 /\
    error w2
    = Some (mkErr TypeError
              ("a member of enum '"
                 +:+ sipPyNameOfEnum (set_py_type (Some (PyType 4)) Level_td)
                 +:+ "' is expected not '" +:+ tp +:+ "'")).
Proof.
  apply (convert_to_enum_type_mismatch false no_scope no_lazy_attrs
           demo_world demo_world 0 (set_py_type (Some (PyType 4)) Level_td)
           (PyInstance 5 (PyLong 4294967295)) (PyType 4));
    try reflexivity.
  apply not_subtype_not_instance; [reflexivity | simpl; lia | reflexivity].
Defined.

(** ** C10: the two meanings of -1 *)

(** C10.  For a signed enum with a member whose value is -1, converting
    that member succeeds and returns -1 with no error set, and converting an
    object of another type fails and returns -1 as well, with the error
    set: the return value alone does not tell the two apart, the error
    indicator does. *)
Theorem convert_to_enum_minus_one (NDEBUG : bool)
    (scope : nat -> M (option nat)) (lazy : option nat -> M Z) (w : World)
    (td : nat) (etd : sipEnumTypeDef) (a : nat) (t : PyTypeObject)
    (name other : PyObject) :
  typedefs w !! td = Some (EnumTypeDef etd) ->
  td_py_type etd = Some (PyType a) ->
  heap w !! a = Some t ->
  str_value (statics w) = Some (PyUnicode "value") ->
  faults w = [] ->
  error w = None ->
  IS_UNSIGNED_ENUM etd = false ->
  In (name, PyLong (-1)) (tp_members t) ->
  live (heap w) other = true ->
  ~ instance_of (heap w) other (PyType a) ->
  exists member w1 w2,
    sip_api_convert_from_enum NDEBUG scope lazy (-1) td w
    = Ret (Some member) w /\
    sip_api_convert_to_enum NDEBUG scope lazy member td w = Ret (-1) w1 /\
    error w1 = None /\
    sip_api_convert_to_enum NDEBUG scope lazy other td w = Ret (-1) w2 /\
    error w2 <> None.
Proof.
  intros Htd Hpy Ha Hval Hf He Hs Hin Hlo Hn.
  assert (Hh : host_value etd (-1) = -1) by (unfold host_value; now rewrite Hs).
  destruct (roundtrip_exec NDEBUG scope lazy w td etd a t name (-1))
    as [Hfrom Hto]; auto; try (rewrite Hh; auto).
  { unfold INT_MIN, INT_MAX. lia. }
  rewrite Hh in Hfrom, Hto.
  destruct (convert_to_enum_mismatch_exec NDEBUG scope lazy w w td etd other
              (PyType a)) as (tp & w2 & _ & Hbad & Herr); auto.
  { now apply get_enum_type_cached with (EnumTypeDef etd). }
  { simpl. apply Nat.ltb_lt. eapply lookup_lt_Some; eauto. }
  exists (PyInstance a (PyLong (-1))), w, w2.
  repeat split; auto. now rewrite Herr.
Qed.

Lemma convert_to_enum_minus_one_witness :
  exists member w1 w2,
    sip_api_convert_from_enum false no_scope no_lazy_attrs (-1) 0 demo_world
    = Ret (Some member) demo_world /\
    sip_api_convert_to_enum false no_scope no_lazy_attrs member 0 demo_world
    = Ret (-1) w1 /\
    error w1 = None /\
    sip_api_convert_to_enum false no_scope no_lazy_attrs (PyLong 7) 0
      demo_world = Ret (-1) w2 /\
    error w2 <> None.
Proof.
  apply (convert_to_enum_minus_one false no_scope no_lazy_attrs demo_world 0
           (set_py_type (Some (PyType 4)) Level_td) 4
           (mkType "EnumType" "Level" "Level" (Some (PyUnicode "demo"))
              [0%nat]
              [(PyUnicode "LOW", PyLong (-1)); (PyUnicode "MID", PyLong 0);
               (PyUnicode "HIGH", PyLong 1)]
              [(PyUnicode "__sip__", PyCapsule 0)] None 1)
           (PyUnicode "LOW") (PyLong 7));
    try reflexivity.
  - simpl. auto.
  - apply not_instance_of_other. discriminate.
Defined.

(** ** C2: a failure after the enum object was recorded *)

(** C2 does not hold of the code.  When the host fails to set the
    [__sip__] attribute, [create_enum_object] returns NULL with the error
    set and gives up its reference to the enum object, but the generated
    type still points to that object, which lacks the attribute: the
    resolver [get_enum_type] hands it out. *)
Theorem create_enum_object_leaves_slot :
  exists w' t,
    create_enum_object false demo_client 0 (Some 0%nat) (PyUnicode "Level")
      setattr_fails_world = Ret (None, Some 3%nat) w' /\
    error w' = Some (mkErr MemoryError "out of memory") /\
    typedefs w' !! 0%nat
    = Some (EnumTypeDef (set_py_type (Some (PyType 4)) Level_td)) /\
    heap w' !! 4%nat = Some t /\
    dict_get (tp_dict t) (PyUnicode "__sip__") = None /\
    ob_refcnt t = 0 /\
    get_enum_type no_scope no_lazy_attrs 0 w' = Ret (Some (PyType 4)) w'.
Proof.
  eexists _, _. split; [vm_compute; reflexivity|].
  repeat split; vm_compute; reflexivity.
Qed.

(** ** C8: a failed initialisation *)

(** C8 does not hold of the code.  When [enum.IntFlag] is missing,
    [sip_enum_init] fails and gives back the references to the three classes
    it has found, but the statics keep pointing to them; when a name cannot
    be interned, it fails and keeps everything it has got so far: the four
    classes, with their references, and the first name. *)
Theorem sip_enum_init_keeps_state :
  (exists w',
     sip_enum_init no_IntFlag_world = Ret (-1) w' /\
     map ob_refcnt (heap w') = map ob_refcnt (heap no_IntFlag_world) /\
     enum_type (statics w') = Some (PyType 0) /\
     int_enum_type (statics w') = Some (PyType 1) /\
     flag_type (statics w') = Some (PyType 2) /\
     int_flag_type (statics w') = None) /\
  (exists w',
     sip_enum_init intern_fails_world = Ret (-1) w' /\
     map ob_refcnt (heap w')
     = map (fun t => ob_refcnt t + 1) (heap intern_fails_world) /\
     enum_type (statics w') = Some (PyType 0) /\
     int_enum_type (statics w') = Some (PyType 1) /\
     flag_type (statics w') = Some (PyType 2) /\
     int_flag_type (statics w') = Some (PyType 3) /\
     str_dunder_sip (statics w') = Some (PyUnicode "__sip__") /\
     str_module (statics w') = None).
Proof.
  split; eexists; (split; [vm_compute; reflexivity|]);
    repeat split; vm_compute; reflexivity.
Qed.

(** ** Flags among the enum types that the file creates *)

Lemma heap_ext_bases h h' a t t' :
  heap_ext h h' -> h !! a = Some t -> h' !! a = Some t' ->
  tp_bases t' = tp_bases t.
Proof.
  intros [_ He] Ht Ht'. destruct (He a t Ht) as (t'' & Ht'' & Hfix).
  rewrite Ht' in Ht''. inversion Ht''; subst t''. now inversion Hfix.
Qed.

(** The ancestors of a type object are those it had when the heap was
    smaller. *)
Lemma subclass_old h h' p b :
  heap_ext h h' -> bases_below h = true -> (p < length h)%nat ->
  subclass h' p b -> subclass h p b.
Proof.
  intros He Hb Hp H. induction H as [a|a t' q b Ha Hq H IH]; [constructor|].
  destruct (lookup_lt_is_Some_2 h a Hp) as [t Ht].
  pose proof (heap_ext_bases _ _ _ _ _ He Ht Ha) as Hbases.
  rewrite Hbases in Hq.
  pose proof (bases_below_lt _ _ _ _ Hb Ht Hq).
  eapply subclass_base; eauto. apply IH. lia.
Qed.

Lemma subtype_fuel_old h h' p b :
  heap_ext h h' -> bases_below h = true -> subclass h p b ->
  (p < length h)%nat ->
  forall fuel, (p <= fuel)%nat -> subtype_fuel h' fuel p b = true.
Proof.
  intros He Hb H. induction H as [a|a t q b Ha Hq H IH]; intros Hp fuel Hf.
  - destruct fuel; simpl; now rewrite bool_decide_eq_true_2.
  - pose proof (bases_below_lt _ _ _ _ Hb Ha Hq) as Hlt.
    destruct fuel as [|fuel]; [lia|]. simpl.
    destruct (proj2 He a t Ha) as (t' & Ht' & _).
    rewrite Ht', (heap_ext_bases _ _ _ _ _ He Ha Ht').
    apply orb_true_iff. right. apply existsb_exists. exists q.
    split; [done|]. apply IH; lia.
Qed.

(** The second wording of C9: of the enum types that [create_enum_object]
    creates, [sip_api_is_enum_flag] accepts exactly those of the two flag
    flavours. *)
Lemma sip_api_is_enum_flag_created NDEBUG client etd_p cur name w obj cur' w'
    etd :
  create_enum_object NDEBUG client etd_p cur name w = Ret (Some obj, cur') w' ->
  typedefs w !! etd_p = Some (EnumTypeDef etd) ->
  python_enum_classes w = true ->
  sip_api_is_enum_flag obj w' = Ret (if is_flag_flavour etd then 1 else 0) w'.
Proof.
  intros H Htd Hpy. apply create_enum_object_spec in H
    as (etd' & a & fac & t & cls & qf & Htd' & _ & _ & _ & -> & Hla & Hfac
        & Hlt & Ha & Hbases & _ & _ & _ & _ & Hst & He).
  rewrite Htd in Htd'. inversion Htd'; subst etd'. clear Htd'.
  unfold python_enum_classes in Hpy.
  destruct (enum_type (statics w)) as [[| | |e|]|] eqn:E1; try discriminate.
  destruct (int_enum_type (statics w)) as [[| | |ie|]|] eqn:E2;
    try discriminate.
  destruct (flag_type (statics w)) as [[| | |f|]|] eqn:E3; try discriminate.
  destruct (int_flag_type (statics w)) as [[| | |iff|]|] eqn:E4;
    try discriminate.
  repeat (apply andb_true_iff in Hpy as [Hpy ?]).
  repeat match goal with
         | H : (_ <? _)%nat = true |- _ => apply Nat.ltb_lt in H
         | H : negb _ = true |- _ => apply negb_true_iff in H
         end.
  assert (Hlf : (f < length (heap w'))%nat)
    by (destruct He as [Hl _]; lia).
  assert (Hla' : (a < length (heap w'))%nat)
    by (eapply lookup_lt_Some; eauto).
  unfold sip_api_is_enum_flag, static.
  rewrite bind_assoc, bind_get_world, bind_ret_l, Hst, E3.
  rewrite (bind_Ret _ _ _ _ _ (PyObject_IsSubclass_types w' a f
             ltac:(simpl; now apply Nat.ltb_lt)
             ltac:(simpl; now apply Nat.ltb_lt))).
  assert (Hne : a <> f) by lia.
  assert (Hstep : PyType_IsSubtype (heap w') a f
                  = subtype_fuel (heap w') (length (heap w') - 1) fac f).
  { unfold PyType_IsSubtype. destruct (length (heap w')) as [|n] eqn:Hn; [lia|].
    simpl. rewrite bool_decide_eq_false_2 by done. rewrite Ha, Hbases.
    simpl. rewrite Nat.sub_0_r. now rewrite orb_false_r. }
  assert (Hold : forall p, (p < length (heap w))%nat ->
                 subtype_fuel (heap w') (length (heap w') - 1) p f
                 = PyType_IsSubtype (heap w) p f).
  { intros p Hp. destruct (PyType_IsSubtype (heap w) p f) eqn:Hs.
    - apply (subtype_fuel_old (heap w)); auto; [|lia].
      now apply PyType_IsSubtype_subclass.
    - apply not_true_is_false. intros Hs'. apply subtype_fuel_sound in Hs'.
      apply (subclass_old (heap w)) in Hs'; auto.
      apply PyType_IsSubtype_subclass in Hs'; auto. congruence. }
  rewrite Hstep. unfold enum_factory in Hfac. unfold is_flag_flavour.
  destruct (etd_base_type etd); simpl in Hfac |- *;
    rewrite ?E1, ?E2, ?E3, ?E4 in Hfac; inversion Hfac; subst fac;
    rewrite Hold by done;
    repeat match goal with H : PyType_IsSubtype _ _ _ = _ |- _ => rewrite H end;
    rewrite ?subtype_refl; reflexivity.
Qed.

(** * Further properties of sip_enum.c *)

(** ** [sip_enum_is_enum] *)

Lemma sip_enum_is_enum_exec (w : World) (e : nat) (obj : PyObject) :
  bases_below (heap w) = true ->
  enum_type (statics w) = Some (PyType e) ->
  live (heap w) (PyType e) = true ->
  live (heap w) obj = true ->
  exists r w',
    sip_enum_is_enum obj w = Ret r w' /\
    (r = 1 \/ r = 0) /\
    (r = 1 <-> exists a, obj = PyType a /\ subclass (heap w) a e) /\
    ((exists a, obj = PyType a) -> w' = w) /\
    ((forall a, obj <> PyType a) ->
     w' = set_error
            (Some (mkErr TypeError "issubclass() arg 1 must be a class")) w).
Proof.
  intros Hb He Hle Hlo. unfold sip_enum_is_enum, static.
  rewrite bind_assoc, bind_get_world, bind_ret_l, He.
  destruct obj as [z|s|p|a|c v];
    try (eexists _, _; split; [reflexivity|]; split; [now right|];
         split; [split; [discriminate | intros (a & Ha & _); discriminate]|];
         split; [intros (a & Ha); discriminate | reflexivity]).
  rewrite (bind_Ret _ _ _ _ _ (PyObject_IsSubclass_types w a e Hlo Hle)).
  assert (Ha : (a < length (heap w))%nat) by now apply Nat.ltb_lt in Hlo.
  pose proof (PyType_IsSubtype_subclass (heap w) a e Hb Ha) as Hiff.
  destruct (PyType_IsSubtype (heap w) a e); simpl;
    eexists _, _; (split; [reflexivity|]).
  - split; [now left|]. split; [|split; [done|intros H; now destruct (H a)]].
    split; [|done]. intros _. exists a. split; [done|]. now apply Hiff.
  - split; [now right|]. split; [|split; [done|intros H; now destruct (H a)]].
    split; [discriminate|]. intros (a' & Ha' & Hs). inversion Ha'; subst a'.
    apply Hiff in Hs. discriminate.
Qed.

(** X1.  With [enum.Enum] in its static, [sip_enum_is_enum] returns 1 exactly for
    the classes that are [enum.Enum] or derive from it and 0 otherwise; a
    class leaves the state as it is, anything that is not a class leaves the
    [TypeError] of the failed subclass test behind. *)
Theorem sip_enum_is_enum_subclass (w : World) (e : nat) (obj : PyObject) :
  bases_below (heap w) = true ->
  enum_type (statics w) = Some (PyType e) ->
  live (heap w) (PyType e) = true ->
  live (heap w) obj = true ->
  exists r w',
    sip_enum_is_enum obj w = Ret r w' /\
    (r = 1 \/ r = 0) /\
    (r = 1 <-> exists a, obj = PyType a /\ subclass (heap w) a e) /\
    ((exists a, obj = PyType a) -> w' = w) /\
    ((forall a, obj <> PyType a) ->
     w' = set_error
            (Some (mkErr TypeError "issubclass() arg 1 must be a class")) w).
Proof. apply sip_enum_is_enum_exec. Qed.

Lemma sip_enum_is_enum_subclass_witness :
  exists r w',
    sip_enum_is_enum (PyType 5) demo_world = Ret r w' /\
    (r = 1 \/ r = 0) /\
    (r = 1 <-> exists a, PyType 5 = PyType a /\ subclass (heap demo_world) a 0) /\
    ((exists a, PyType 5 = PyType a) -> w' = demo_world) /\
    ((forall a, PyType 5 <> PyType a) ->
     w' = set_error
            (Some (mkErr TypeError "issubclass() arg 1 must be a class"))
            demo_world).
Proof.
  apply (sip_enum_is_enum_subclass demo_world 0 (PyType 5)); reflexivity.
Defined.

(** ** [get_enum_type] *)

(** X2.  Resolving twice gives the same object: once [get_enum_type] has
    returned an object, whether it found it in the type structure or had the
    lazy attributes of the scope created first, a further call returns that
    object again, does not call into the type system and leaves the state as
    it is. *)
Theorem get_enum_type_idempotent (scope : nat -> M (option nat))
    (lazy : option nat -> M Z) (td : nat) (w w1 : World) (o : PyObject) :
  get_enum_type scope lazy td w = Ret (Some o) w1 ->
  get_enum_type scope lazy td w1 = Ret (Some o) w1.
Proof.
  unfold get_enum_type at 1. intros H.
  bind_step H t w0 Ht. apply load_typedef_inv in Ht as [-> Ht].
  destruct (sipTypeAsPyTypeObject t) as [o'|] eqn:Ho.
  - inversion H; subst. now apply get_enum_type_cached with t.
  - bind_step H sc w2 Hsc. bind_step H rc w3 Hrc.
    destruct (rc <? 0); [discriminate|].
    bind_step H t' w4 Ht'. apply load_typedef_inv in Ht' as [-> Ht'].
    assert (H1 : sipTypeAsPyTypeObject t' = Some o /\ w3 = w1)
      by now inversion H.
    destruct H1 as [H1 <-]. now apply get_enum_type_cached with t'.
Qed.

Lemma get_enum_type_idempotent_witness :
  get_enum_type no_scope demo_lazy_attrs 0 ready_world
  = Ret (Some (PyType 4)) demo_world /\
  get_enum_type no_scope demo_lazy_attrs 0 demo_world
  = Ret (Some (PyType 4)) demo_world.
Proof.
  assert (H : get_enum_type no_scope demo_lazy_attrs 0 ready_world
              = Ret (Some (PyType 4)) demo_world)
    by (vm_compute; reflexivity).
  split; [exact H|].
  exact (get_enum_type_idempotent no_scope demo_lazy_attrs 0 ready_world
           demo_world (PyType 4) H).
Defined.

(** ** From a member to its native value and back *)

Lemma cast_unsigned_int x :
  0 <= x <= UINT_MAX -> cast_unsigned (cast_int x) = x.
Proof.
  unfold cast_int, cast_unsigned, UINT_MAX. intros Hx.
  destruct (Z_lt_le_dec x 2147483648) as [Hlo|Hhi].
  - rewrite (Z.mod_small (x + 2147483648)) by lia.
    rewrite Z.mod_small by lia. lia.
  - replace ((x + 2147483648) mod 4294967296) with (x - 2147483648)
      by (apply Z.mod_unique with 1; lia).
    apply eq_sym, Z.mod_unique with (-1); lia.
Qed.

(** X3.  For a member of a created enum type whose value fits the C type (an
    [unsigned] for the unsigned flavours, an [int] for the others),
    [sip_api_convert_to_enum] gives a native value from which
    [sip_api_convert_from_enum] finds the same member again. *)
Theorem convert_member_roundtrip (NDEBUG : bool)
    (scope : nat -> M (option nat)) (lazy : option nat -> M Z) (w : World)
    (td : nat) (etd : sipEnumTypeDef) (a : nat) (t : PyTypeObject)
    (name : PyObject) (x : Z) :
  typedefs w !! td = Some (EnumTypeDef etd) ->
  td_py_type etd = Some (PyType a) ->
  heap w !! a = Some t ->
  str_value (statics w) = Some (PyUnicode "value") ->
  faults w = [] ->
  In (name, PyLong x) (tp_members t) ->
  (if IS_UNSIGNED_ENUM etd then 0 <= x <= UINT_MAX
   else INT_MIN <= x <= INT_MAX) ->
  exists v,
    sip_api_convert_to_enum NDEBUG scope lazy (PyInstance a (PyLong x)) td w
    = Ret v w /\
    INT_MIN <= v <= INT_MAX /\
    sip_api_convert_from_enum NDEBUG scope lazy v td w
    = Ret (Some (PyInstance a (PyLong x))) w.
Proof.
  intros Htd Hpy Ha Hval Hf Hin Hx.
  exists (if IS_UNSIGNED_ENUM etd then cast_int x else x).
  split; [eapply convert_to_enum_value; eauto using subtype_refl|].
  assert (Hh : host_value etd (if IS_UNSIGNED_ENUM etd then cast_int x else x)
               = x).
  { unfold host_value. destruct (IS_UNSIGNED_ENUM etd); [|done].
    now apply cast_unsigned_int. }
  split.
  - destruct (IS_UNSIGNED_ENUM etd); [|done].
    unfold cast_int, INT_MIN, INT_MAX.
    pose proof (Z.mod_pos_bound (x + 2147483648) 4294967296). lia.
  - pose proof (convert_from_enum_member NDEBUG scope lazy w td etd a t name
                  (if IS_UNSIGNED_ENUM etd then cast_int x else x)
                  Htd Hpy Ha Hf) as Hfrom.
    rewrite Hh in Hfrom. now apply Hfrom.
Qed.

Lemma convert_member_roundtrip_witness :
  exists v,
    sip_api_convert_to_enum false no_scope no_lazy_attrs
      (PyInstance 5 (PyLong 4294967295)) 1 demo_world = Ret v demo_world /\
    INT_MIN <= v <= INT_MAX /\
    sip_api_convert_from_enum false no_scope no_lazy_attrs v 1 demo_world
    = Ret (Some (PyInstance 5 (PyLong 4294967295))) demo_world.
Proof.
  apply (convert_member_roundtrip false no_scope no_lazy_attrs demo_world 1
           (set_py_type (Some (PyType 5)) Perm_td) 5
           (mkType "EnumType" "Perm" "Perm" (Some (PyUnicode "demo"))
              [3%nat]
              [(PyUnicode "READ", PyLong 1); (PyUnicode "WRITE", PyLong 2);
               (PyUnicode "ALL", PyLong 4294967295)]
              [(PyUnicode "__sip__", PyCapsule 1)] None 1)
           (PyUnicode "ALL") 4294967295);
    try reflexivity.
  - simpl. auto.
  - simpl. unfold UINT_MAX. lia.
Defined.

(** ** [sip_enum_init] *)

Lemma insert_alter_lookup (h : list PyTypeObject) a t f :
  h !! a = Some t -> <[a := f t]> h = alter f a h.
Proof.
  intros Ha. apply list_eq. intros i. destruct (decide (a = i)) as [<-|Hne].
  - rewrite list_lookup_insert_eq by (eapply lookup_lt_Some; eauto).
    now rewrite list_lookup_alter_eq, Ha.
  - now rewrite list_lookup_insert_ne, list_lookup_alter_ne.
Qed.

Lemma Py_INCREF_type w a :
  (a < length (heap w))%nat ->
  Py_INCREF (PyType a) w = Ret tt (set_heap (alter incref a (heap w)) w).
Proof.
  intros Ha. destruct (lookup_lt_is_Some_2 _ _ Ha) as [t Ht]. simpl.
  rewrite (bind_Ret _ _ _ _ _ (load_type_ok _ _ _ Ht)).
  unfold store_type, modify. f_equal. f_equal.
  now apply (insert_alter_lookup _ _ _ incref).
Qed.

Lemma PyObject_GetAttrString_type m name w a :
  assoc m name = Some (PyType a) -> (a < length (heap w))%nat ->
  PyObject_GetAttrString m name w
  = Ret (Some (PyType a)) (set_heap (alter incref a (heap w)) w).
Proof.
  intros Hm Ha. unfold PyObject_GetAttrString. rewrite Hm.
  now rewrite (bind_Ret _ _ _ _ _ (Py_INCREF_type w a Ha)).
Qed.

Lemma sip_objectify_ok s o w :
  faults w = [] ->
  sip_objectify s o w = Ret (0, Some (default (PyUnicode s) o)) w.
Proof.
  intros Hf. destruct o as [o|]; [reflexivity|]. unfold sip_objectify.
  unfold PyUnicode_FromString.
  now rewrite (bind_Ret _ _ _ (Some (PyUnicode s)) w) by now rewrite alloc_ok.
Qed.

(** X4.  When the [enum] module has its four classes and the host does not fail,
    [sip_enum_init] returns 0; the four statics then hold the classes of the
    module, each of which has got one more reference, the four names are
    interned (a name that was already there is kept), and nothing else has
    changed. *)
Theorem sip_enum_init_success (w : World) (m : list (string * PyObject))
    (e ie f iff : nat) :
  assoc (sys_modules w) "enum" = Some m ->
  assoc m "Enum" = Some (PyType e) ->
  assoc m "IntEnum" = Some (PyType ie) ->
  assoc m "Flag" = Some (PyType f) ->
  assoc m "IntFlag" = Some (PyType iff) ->
  (e < length (heap w))%nat -> (ie < length (heap w))%nat ->
  (f < length (heap w))%nat -> (iff < length (heap w))%nat ->
  faults w = [] ->
  sip_enum_init w
  = Ret 0
      (set_statics
         (mkStatics (Some (PyType e)) (Some (PyType ie)) (Some (PyType f))
            (Some (PyType iff))
            (Some (default (PyUnicode "__sip__") (str_dunder_sip (statics w))))
            (Some (default (PyUnicode "module") (str_module (statics w))))
            (Some (default (PyUnicode "qualname") (str_qualname (statics w))))
            (Some (default (PyUnicode "value") (str_value (statics w)))))
         (set_heap
            (alter incref iff
               (alter incref f (alter incref ie (alter incref e (heap w)))))
            w)).
Proof.
  intros Hm He Hie Hf Hiff Le Lie Lf Liff Hfa. unfold sip_enum_init.
  unfold PyImport_ImportModule. rewrite bind_assoc, bind_get_world, Hm.
  rewrite bind_ret_l.
  rewrite (bind_Ret _ _ _ _ _ (PyObject_GetAttrString_type m "Enum" w e He Le)).
  unfold assign at 1. rewrite bind_modify.
  erewrite (bind_Ret (PyObject_GetAttrString m "IntEnum"));
    [|apply PyObject_GetAttrString_type; [exact Hie|]; simpl;
      now rewrite length_alter].
  unfold assign at 1. rewrite bind_modify.
  erewrite (bind_Ret (PyObject_GetAttrString m "Flag"));
    [|apply PyObject_GetAttrString_type; [exact Hf|]; simpl;
      now rewrite !length_alter].
  unfold assign at 1. rewrite bind_modify.
  erewrite (bind_Ret (PyObject_GetAttrString m "IntFlag"));
    [|apply PyObject_GetAttrString_type; [exact Hiff|]; simpl;
      now rewrite !length_alter].
  unfold assign at 1. rewrite bind_modify.
  unfold static. rewrite bind_assoc, bind_get_world, bind_ret_l.
  cbn [statics set_statics set_heap set_enum_type set_int_enum_type
       set_flag_type set_int_flag_type enum_type int_enum_type flag_type
       int_flag_type str_dunder_sip str_module str_qualname str_value id].
  rewrite !bool_decide_eq_false_2 by done. cbn [orb].
  erewrite (bind_Ret (sip_objectify "__sip__" _));
    [|now apply sip_objectify_ok].
  unfold assign at 1. rewrite bind_modify. cbn [fst snd].
  change (0 <? 0) with false. cbv iota.
  erewrite (bind_Ret (sip_objectify "module" _));
    [|now apply sip_objectify_ok].
  unfold assign at 1. rewrite bind_modify. cbn [fst snd].
  change (0 <? 0) with false. cbv iota.
  erewrite (bind_Ret (sip_objectify "qualname" _));
    [|now apply sip_objectify_ok].
  unfold assign at 1. rewrite bind_modify. cbn [fst snd].
  change (0 <? 0) with false. cbv iota.
  erewrite (bind_Ret (sip_objectify "value" _));
    [|now apply sip_objectify_ok].
  unfold assign at 1. rewrite bind_modify. cbn [fst snd].
  change (0 <? 0) with false. cbv iota.
  reflexivity.
Qed.

Lemma sip_enum_init_success_witness :
  sip_enum_init fresh_world
  = Ret 0
      (set_statics
         (mkStatics (Some (PyType 0)) (Some (PyType 1)) (Some (PyType 2))
            (Some (PyType 3))
            (Some (default (PyUnicode "__sip__")
                     (str_dunder_sip (statics fresh_world))))
            (Some (default (PyUnicode "module")
                     (str_module (statics fresh_world))))
            (Some (default (PyUnicode "qualname")
                     (str_qualname (statics fresh_world))))
            (Some (default (PyUnicode "value")
                     (str_value (statics fresh_world)))))
         (set_heap
            (alter incref 3%nat
               (alter incref 2%nat
                  (alter incref 1%nat
                     (alter incref 0%nat (heap fresh_world)))))
            fresh_world)).
Proof.
  apply (sip_enum_init_success fresh_world enum_module 0 1 2 3);
    try reflexivity; simpl; lia.
Defined.

Lemma Py_INCREF_inv o w u w' :
  Py_INCREF o w = Ret u w' -> statics w' = statics w /\ error w' = error w.
Proof.
  destruct o; try (inversion 1; now subst). simpl. intros H.
  bind_step H t w0 Ht. apply load_type_inv in Ht as [-> _]. now inversion H.
Qed.

Lemma Py_DECREF_inv o w u w' :
  Py_DECREF o w = Ret u w' -> statics w' = statics w /\ error w' = error w.
Proof.
  destruct o; try (inversion 1; now subst). simpl. intros H.
  bind_step H t w0 Ht. apply load_type_inv in Ht as [-> _]. now inversion H.
Qed.

Lemma Py_XDECREF_inv o w u w' :
  Py_XDECREF o w = Ret u w' -> statics w' = statics w /\ error w' = error w.
Proof. destruct o; [apply Py_DECREF_inv | inversion 1; now subst]. Qed.

Lemma PyObject_GetAttrString_inv m name w o w' :
  PyObject_GetAttrString m name w = Ret o w' ->
  statics w' = statics w /\
  (o = None -> error w' <> None) /\
  (error w <> None -> error w' <> None).
Proof.
  unfold PyObject_GetAttrString. destruct (assoc m name) as [o'|]; intros H.
  - bind_step H u w0 Hi. apply Py_INCREF_inv in Hi as [Hs He].
    inversion H; subst. rewrite He. now repeat split.
  - bind_step H u w0 Hi. inversion Hi; subst. inversion H; subst.
    now repeat split.
Qed.

Lemma alloc_None_inv {A} (k : M (option A)) w w' :
  (forall w0 w1, k w0 <> Ret None w1) ->
  alloc k w = Ret None w' -> error w' <> None.
Proof.
  intros Hk. unfold alloc. intros H. bind_step H b w0 Hb. destruct b.
  - bind_step H u w1 He. inversion He; subst. now inversion H; subst.
  - now apply Hk in H.
Qed.

Lemma alloc_Some_inv {A} (k : M (option A)) w a w' :
  (forall w0 o w1, k w0 = Ret o w1 -> w1 = w0) ->
  alloc k w = Ret (Some a) w' ->
  statics w' = statics w /\ error w' = error w /\ heap w' = heap w /\
  typedefs w' = typedefs w.
Proof.
  intros Hk. unfold alloc. intros H. bind_step H b w0 Hb. destruct b.
  - bind_step H u w1 He. discriminate.
  - apply Hk in H as ->. unfold host_fault in Hb.
    destruct (faults w); inversion Hb; now subst.
Qed.

Lemma sip_objectify_inv s o w r w' :
  sip_objectify s o w = Ret r w' ->
  statics w' = statics w /\
  (error w <> None -> error w' <> None) /\
  ((r.1 = -1 /\ error w' <> None) \/ (r.1 = 0 /\ r.2 <> None)).
Proof.
  unfold sip_objectify. destruct o as [o|].
  - inversion 1; subst. split; [done|]. split; [done|]. now right.
  - intros H. bind_step H o w0 Ho.
    pose proof (framed_PyUnicode_FromString _ _ _ _ Ho) as (_ & _ & _ & _ & Hs).
    destruct o as [o|]; inversion H; subst.
    + apply alloc_Some_inv in Ho as (_ & He & _); [|now inversion 1].
      split; [done|]. split; [now rewrite He|]. now right.
    + apply alloc_None_inv in Ho; [|discriminate].
      split; [done|]. split; [done|]. now left.
Qed.

(** X5.  [sip_enum_init] returns 0 or -1.  When it returns 0, none of the eight
    statics of the file is NULL; when it returns -1, an exception is set. *)
Theorem sip_enum_init_result (w : World) (r : Z) (w' : World) :
  sip_enum_init w = Ret r w' ->
  (r = 0 \/ r = -1) /\
  (r = 0 ->
   enum_type (statics w') <> None /\ int_enum_type (statics w') <> None /\
   flag_type (statics w') <> None /\ int_flag_type (statics w') <> None /\
   str_dunder_sip (statics w') <> None /\ str_module (statics w') <> None /\
   str_qualname (statics w') <> None /\ str_value (statics w') <> None) /\
  (r = -1 -> error w' <> None).
Proof.
  unfold sip_enum_init, PyImport_ImportModule. intros H.
  rewrite bind_assoc, bind_get_world in H.
  destruct (assoc (sys_modules w) "enum") as [m|].
  2:{ rewrite bind_assoc in H. bind_step H u w0 He. inversion He; subst.
      inversion H; subst. split; [now right|]. split; [discriminate|done]. }
  rewrite bind_ret_l in H.
  bind_step H o1 w1 H1. apply PyObject_GetAttrString_inv in H1 as (S1 & N1 & _).
  unfold assign at 1 in H. rewrite bind_modify in H.
  bind_step H o2 w2 H2. apply PyObject_GetAttrString_inv in H2 as (S2 & N2 & M2).
  unfold assign at 1 in H. rewrite bind_modify in H.
  bind_step H o3 w3 H3. apply PyObject_GetAttrString_inv in H3 as (S3 & N3 & M3).
  unfold assign at 1 in H. rewrite bind_modify in H.
  bind_step H o4 w4 H4. apply PyObject_GetAttrString_inv in H4 as (S4 & N4 & M4).
  unfold assign at 1 in H. rewrite bind_modify in H.
  unfold static in H. rewrite bind_assoc, bind_get_world, bind_ret_l in H.
  simpl in S2, S3, S4, M2, M3, M4.
  cbn [statics set_statics id] in H.
  rewrite S4, S3, S2 in H.
  cbn [set_enum_type set_int_enum_type set_flag_type set_int_flag_type
       enum_type int_enum_type flag_type int_flag_type str_dunder_sip
       str_module str_qualname str_value] in H.
  destruct (bool_decide (o1 = None) || bool_decide (o2 = None)
            || bool_decide (o3 = None) || bool_decide (o4 = None)) eqn:Hnull.
  - assert (He : error w4 <> None).
    { repeat (apply orb_true_iff in Hnull as [Hnull|Hnull]);
        apply bool_decide_eq_true in Hnull; auto. }
    bind_step H u1 v1 X1. apply Py_XDECREF_inv in X1 as [_ E1].
    bind_step H u2 v2 X2. apply Py_XDECREF_inv in X2 as [_ E2].
    bind_step H u3 v3 X3. apply Py_XDECREF_inv in X3 as [_ E3].
    bind_step H u4 v4 X4. apply Py_XDECREF_inv in X4 as [_ E4].
    inversion H; subst. split; [now right|]. split; [discriminate|].
    intros _. simpl in E1. congruence.
  - repeat (apply orb_false_iff in Hnull as [Hnull ?]).
    repeat match goal with
           | X : bool_decide _ = false |- _ => apply bool_decide_eq_false in X
           end.
    bind_step H r1 v1 R1.
    apply sip_objectify_inv in R1 as (T1 & _ & [[C1 E1]|[C1 V1]]).
    { unfold assign at 1 in H. rewrite bind_modify, C1 in H.
      inversion H; subst. split; [now right|]. now split. }
    unfold assign at 1 in H. rewrite bind_modify, C1 in H.
    change (0 <? 0) with false in H. cbv iota in H.
    bind_step H r2 v2 R2.
    apply sip_objectify_inv in R2 as (T2 & _ & [[C2 E2]|[C2 V2]]).
    { unfold assign at 1 in H. rewrite bind_modify, C2 in H.
      inversion H; subst. split; [now right|]. now split. }
    unfold assign at 1 in H. rewrite bind_modify, C2 in H.
    change (0 <? 0) with false in H. cbv iota in H.
    bind_step H r3 v3 R3.
    apply sip_objectify_inv in R3 as (T3 & _ & [[C3 E3]|[C3 V3]]).
    { unfold assign at 1 in H. rewrite bind_modify, C3 in H.
      inversion H; subst. split; [now right|]. now split. }
    unfold assign at 1 in H. rewrite bind_modify, C3 in H.
    change (0 <? 0) with false in H. cbv iota in H.
    bind_step H r4 v4 R4.
    apply sip_objectify_inv in R4 as (T4 & _ & [[C4 E4]|[C4 V4]]).
    { unfold assign at 1 in H. rewrite bind_modify, C4 in H.
      inversion H; subst. split; [now right|]. now split. }
    unfold assign at 1 in H. rewrite bind_modify, C4 in H.
    change (0 <? 0) with false in H. cbv iota in H.
    inversion H; subst. split; [now left|]. split; [|discriminate].
    intros _. simpl in T1, T2, T3, T4. simpl.
    rewrite T4. simpl. rewrite T3. simpl. rewrite T2. simpl. rewrite T1.
    simpl. now repeat split.
Qed.

Lemma sip_enum_init_result_witness :
  exists w',
    sip_enum_init intern_fails_world = Ret (-1) w' /\
    (-1 = 0 \/ -1 = -1) /\
    (-1 = 0 ->
     enum_type (statics w') <> None /\ int_enum_type (statics w') <> None /\
     flag_type (statics w') <> None /\ int_flag_type (statics w') <> None /\
     str_dunder_sip (statics w') <> None /\ str_module (statics w') <> None /\
     str_qualname (statics w') <> None /\ str_value (statics w') <> None) /\
    (-1 = -1 -> error w' <> None).
Proof.
  eexists. split; [vm_compute; reflexivity|].
  apply (sip_enum_init_result intern_fails_world (-1)).
  vm_compute. reflexivity.
Defined.

(** ** The error returns of [create_enum_object] *)

Lemma PyDict_SetItem_fail d k v w r w' :
  PyDict_SetItem d k v w = Ret r w' -> (r.1 <? 0) = true -> error w' <> None.
Proof.
  unfold PyDict_SetItem. intros H Hr.
  destruct k as [k|]; [|discriminate]. destruct v as [v|]; [|discriminate].
  unfold deref in H. rewrite !bind_ret_l in H.
  bind_step H b w0 Hb. destruct b.
  - bind_step H u w1 He. inversion He; subst. now inversion H; subst.
  - bind_step H u1 w1 H1. bind_step H u2 w2 H2. inversion H; subst.
    discriminate.
Qed.

Lemma sip_dict_set_and_discard_fail d name obj w r w' :
  sip_dict_set_and_discard d name obj w = Ret r w' ->
  (r.1 <? 0) = true -> (obj = None -> error w <> None) -> error w' <> None.
Proof.
  unfold sip_dict_set_and_discard. destruct obj as [o|]; intros H Hr Ho.
  - bind_step H r' w0 Hs. bind_step H u w1 Hd. inversion H; subst.
    apply Py_DECREF_inv in Hd as [_ ->].
    unfold PyDict_SetItemString in Hs. destruct name; [|discriminate].
    unfold deref in Hs. rewrite bind_ret_l in Hs.
    eapply PyDict_SetItem_fail; eauto.
  - inversion H; subst. auto.
Qed.

Lemma member_value_None etd v w w' :
  (if IS_UNSIGNED_ENUM etd then PyLong_FromUnsignedLong (cast_unsigned v)
   else PyLong_FromLong v) w = Ret None w' ->
  error w' <> None.
Proof.
  destruct (IS_UNSIGNED_ENUM etd); apply alloc_None_inv; discriminate.
Qed.

Lemma add_members_None NDEBUG etd n : forall members cur w w',
  add_members NDEBUG etd n members cur w = Ret None w' -> error w' <> None.
Proof.
  induction n as [|n IH]; intros members cur w w' H; [discriminate|].
  simpl in H. destruct cur as [i|]; [|discriminate].
  unfold deref at 1 in H. rewrite bind_ret_l, bind_get_world in H.
  destruct (int_instances w !! i) as [ii|]; [|discriminate].
  unfold deref in H. rewrite bind_ret_l in H.
  bind_step H u w0 Ha. bind_step H vo w1 Hv. bind_step H r w2 Hr.
  destruct (r.1 <? 0) eqn:Hneg; [|eauto].
  inversion H; subst. eapply sip_dict_set_and_discard_fail; eauto.
  intros ->. eapply member_value_None; eauto.
Qed.

Lemma add_qualname_None client etd name kw w w' :
  add_qualname client etd name kw w = Ret None w' -> error w' <> None.
Proof.
  unfold add_qualname. destruct (0 <=? etd_scope etd); [|discriminate].
  intros H. bind_step H scope w0 Hs. bind_step H q w1 Hq.
  destruct q as [q|].
  - bind_step H key w2 Hk. apply static_inv in Hk as [-> ->].
    bind_step H r w2 Hr. bind_step H u w3 Hd.
    apply Py_DECREF_inv in Hd as [_ He].
    destruct (r.1 <? 0) eqn:Hneg; [|discriminate]. inversion H; subst.
    rewrite He. eapply PyDict_SetItem_fail; eauto.
  - inversion H; subst. unfold sip_get_qualname in Hq.
    bind_step Hq td w2 Htd. bind_step Hq py w3 Hpy.
    destruct py; try discriminate. destruct name; try discriminate.
    bind_step Hq t w4 Ht. eapply alloc_None_inv; eauto. discriminate.
Qed.

Lemma PyObject_Call_None callable args kw w w' :
  PyObject_Call callable args kw w = Ret None w' -> error w' <> None.
Proof.
  unfold PyObject_Call. destruct callable as [c|]; [|discriminate].
  unfold deref. rewrite bind_ret_l.
  destruct c as [| | |f|];
    try (intros H; bind_step H u w0 He; inversion He; subst;
         now inversion H; subst).
  intros H. bind_step H base w0 Hb. bind_step H b w1 Hf. destruct b.
  - bind_step H u w2 He. inversion He; subst. now inversion H; subst.
  - destruct args.1;
      try (bind_step H u w2 He; inversion He; subst; now inversion H; subst).
    destruct (enum_refusal _ _ _).
    + bind_step H u w2 He. inversion He; subst. now inversion H; subst.
    + rewrite bind_get_world, bind_modify in H. discriminate.
Qed.

Lemma PyObject_SetAttr_fail o n v w rc w' :
  PyObject_SetAttr o n v w = Ret rc w' -> (rc <? 0) = true -> error w' <> None.
Proof.
  unfold PyObject_SetAttr. destruct n as [n|]; [|discriminate].
  unfold deref. rewrite bind_ret_l.
  destruct o as [| | |a|];
    try (intros H _; bind_step H u w0 He; inversion He; subst;
         now inversion H; subst).
  intros H Hrc. bind_step H t w0 Ht. bind_step H b w1 Hb. destruct b.
  - bind_step H u w2 He. inversion He; subst. now inversion H; subst.
  - bind_step H u1 w2 H1. bind_step H t2 w3 H2. bind_step H u3 w4 H3.
    bind_step H t4 w5 H4. bind_step H u5 w6 H5. inversion H; subst.
    discriminate.
Qed.

Lemma frame_frame_except p w w' : frame w w' -> frame_except p w w'.
Proof.
  intros (Hh & Ht & Hi & Hm & Hs). repeat split; try done; try apply Hh.
  - now rewrite Ht.
  - intros q _. now rewrite Ht.
Qed.

Lemma frame_except_insert p x w w1 w2 :
  frame w w1 ->
  frame (set_typedefs (<[p := x]> (typedefs w1)) w1) w2 ->
  frame_except p w w2.
Proof.
  intros (Hh & Ht & Hi & Hm & Hs) (Hh' & Ht' & Hi' & Hm' & Hs').
  simpl in *. split; [eapply heap_ext_trans; eauto|].
  split; [now rewrite Ht', length_insert, Ht|].
  split; [|repeat split; congruence].
  intros q Hq. now rewrite Ht', list_lookup_insert_ne, Ht.
Qed.

(** What a call of [create_enum_object] that returns has done, whatever it
    returns: the state is what it was but for the heap and the slot of the
    type structure, and when the result is NULL an exception is set and the
    cursor is where it was or past the whole run of the enum. *)
Lemma create_enum_object_returns NDEBUG client etd_p cur name w r w' :
  create_enum_object NDEBUG client etd_p cur name w = Ret r w' ->
  exists etd,
    typedefs w !! etd_p = Some (EnumTypeDef etd) /\
    frame_except etd_p w w' /\
    (typedefs w' !! etd_p = Some (EnumTypeDef etd) \/
     exists obj,
       typedefs w' !! etd_p
       = Some (EnumTypeDef (set_py_type (Some obj) etd))) /\
    (r.1 = None ->
     error w' <> None /\
     (r.2 = cur \/ r.2 = advance cur (Z.to_nat (etd_nr_members etd)))).
Proof.
  unfold create_enum_object. intros H.
  bind_step H td w0 Htd. apply load_typedef_inv in Htd as [-> Htd].
  destruct td as [etd|]; [|discriminate]. simpl in H. rewrite bind_ret_l in H.
  exists etd. split; [done|].
  assert (Hearly : forall w1 c,
            frame w w1 -> error w1 <> None ->
            c = cur \/ c = advance cur (Z.to_nat (etd_nr_members etd)) ->
            frame_except etd_p w w1 /\
            (typedefs w1 !! etd_p = Some (EnumTypeDef etd) \/
             exists obj,
               typedefs w1 !! etd_p
               = Some (EnumTypeDef (set_py_type (Some obj) etd))) /\
            ((@None PyObject, c).1 = None ->
             error w1 <> None /\
             ((@None PyObject, c).2 = cur \/
              (@None PyObject, c).2
              = advance cur (Z.to_nat (etd_nr_members etd))))).
  { intros w1 c F He Hc. split; [now apply frame_frame_except|].
    split; [left; destruct F as (_ & -> & _); done|]. now intros _. }
  bind_step H members w1 Hm. frame_of Hm F1.
  destruct members as [members|].
  2:{ inversion H; subst. apply alloc_None_inv in Hm; [|discriminate].
      apply Hearly; auto. }
  bind_step H u w2 Ha. apply assert_inv in Ha as [-> _].
  bind_step H rm w2 Hr. frame_of Hr F2.
  assert (G2 : frame w w2) by eauto using frame_trans.
  destruct rm as [[members' next_int]|].
  2:{ inversion H; subst. apply add_members_None in Hr. apply Hearly; auto. }
  apply add_members_cursor in Hr as (-> & _).
  bind_step H args w3 Hargs. frame_of Hargs F3.
  assert (G3 : frame w w3) by eauto using frame_trans.
  destruct args as [args|].
  2:{ inversion H; subst. apply alloc_None_inv in Hargs; [|discriminate].
      apply Hearly; auto. }
  bind_step H kw0 w4 Hkw. frame_of Hkw F4.
  assert (G4 : frame w w4) by eauto using frame_trans.
  destruct kw0 as [kw0|].
  2:{ inversion H; subst. apply alloc_None_inv in Hkw; [|discriminate].
      apply Hearly; auto. }
  bind_step H key w5 Hkey. apply static_inv in Hkey as [-> ->].
  bind_step H rs w5 Hset. frame_of Hset F5.
  assert (G5 : frame w w5) by eauto using frame_trans.
  destruct (rs.1 <? 0) eqn:Hneg.
  { inversion H; subst. eapply PyDict_SetItem_fail in Hset; [|done].
    apply Hearly; auto. }
  bind_step H kw w6 Hq. frame_of Hq F6.
  assert (G6 : frame w w6) by eauto using frame_trans.
  destruct kw as [kw|].
  2:{ inversion H; subst. apply add_qualname_None in Hq. apply Hearly; auto. }
  bind_step H cap w7 Hcap. frame_of Hcap F7.
  assert (G7 : frame w w7) by eauto using frame_trans.
  destruct cap as [cap|].
  2:{ inversion H; subst. apply alloc_None_inv in Hcap; [|discriminate].
      apply Hearly; auto. }
  bind_step H factory w8 Hfac. apply static_inv in Hfac as [-> ->].
  bind_step H enum_obj w8 Hcall. frame_of Hcall F8.
  assert (G8 : frame w w8) by eauto using frame_trans.
  destruct enum_obj as [enum_obj|].
  2:{ inversion H; subst. apply PyObject_Call_None in Hcall.
      apply Hearly; auto. }
  rewrite bind_modify in H.
  bind_step H key w9 Hkey. apply static_inv in Hkey as [-> ->].
  bind_step H rc w9 Hattr. frame_of Hattr F9.
  assert (Hlate : forall w10,
            frame w9 w10 ->
            frame_except etd_p w w10 /\
            (typedefs w10 !! etd_p = Some (EnumTypeDef etd) \/
             exists obj,
               typedefs w10 !! etd_p
               = Some (EnumTypeDef (set_py_type (Some obj) etd)))).
  { intros w10 F10. split.
    - eapply frame_except_insert; [exact G8|]. eauto using frame_trans.
    - right. exists enum_obj.
      assert (F : frame (set_typedefs
                           (<[etd_p:=EnumTypeDef
                                       (set_py_type (Some enum_obj) etd)]>
                              (typedefs w8)) w8) w10)
        by eauto using frame_trans.
      destruct F as (_ & -> & _). simpl.
      destruct G8 as (_ & -> & _).
      apply list_lookup_insert_eq. eapply lookup_lt_Some; eauto. }
  destruct (rc <? 0) eqn:Hrc.
  - bind_step H u1 w10 H1. frame_of H1 F10.
    bind_step H u2 w11 H2. frame_of H2 F11.
    inversion H; subst. apply Py_DECREF_inv in H1 as [_ E1], H2 as [_ E2].
    apply PyObject_SetAttr_fail in Hattr; [|done].
    destruct (Hlate w') as [Hx Hy]; [eauto using frame_trans|].
    split; [done|]. split; [done|]. intros _. split; [congruence|now right].
  - bind_step H u1 w10 H1. frame_of H1 F10.
    bind_step H u2 w11 H2.
    assert (F11 : frame w10 w11).
    { destruct (etd_pyslots etd); [|inversion H2; apply frame_refl].
      eapply framed_sip_add_type_slots; eauto. }
    inversion H; subst.
    destruct (Hlate w') as [Hx Hy]; [eauto using frame_trans|].
    split; [done|]. split; [done|]. discriminate.
Qed.

(** X6.  When [create_enum_object] returns NULL it has set an exception, and it
    has left the cursor either where it was (an error in the loop over the
    members or before it) or past the whole run of the enum (an error after
    the loop): the cursor never stops inside a run. *)
Theorem create_enum_object_error (NDEBUG : bool)
    (client : sipExportedModuleDef) (etd_p : nat) (cur : option nat)
    (name : PyObject) (w : World) (c : option nat) (w' : World) :
  create_enum_object NDEBUG client etd_p cur name w = Ret (None, c) w' ->
  error w' <> None /\
  (c = cur \/ c = advance cur (member_count w etd_p)).
Proof.
  intros H.
  apply create_enum_object_returns in H as (etd & Htd & _ & _ & He).
  unfold member_count. rewrite Htd. now apply He.
Qed.

Lemma create_enum_object_error_witness :
  exists w',
    create_enum_object false demo_client 0 (Some 0%nat) (PyUnicode "Level")
      setattr_fails_world = Ret (None, Some 3%nat) w' /\
    error w' <> None /\
    (Some 3%nat = Some 0%nat \/
     Some 3%nat = advance (Some 0%nat) (member_count setattr_fails_world 0)).
Proof.
  eexists. split; [vm_compute; reflexivity|].
  apply (create_enum_object_error false demo_client 0 (Some 0%nat)
           (PyUnicode "Level") setattr_fails_world).
  vm_compute. reflexivity.
Defined.

(** X7.  Whatever [create_enum_object] returns, it has not touched the statics,
    the table of members, the modules or any type structure but its own, in
    which at most the Python object has changed; the heap has only grown,
    and its type objects have kept their name, bases and members. *)
Theorem create_enum_object_frame (NDEBUG : bool)
    (client : sipExportedModuleDef) (etd_p : nat) (cur : option nat)
    (name : PyObject) (w : World) (r : option PyObject * option nat)
    (w' : World) :
  create_enum_object NDEBUG client etd_p cur name w = Ret r w' ->
  frame_except etd_p w w' /\
  exists etd,
    typedefs w !! etd_p = Some (EnumTypeDef etd) /\
    (typedefs w' !! etd_p = Some (EnumTypeDef etd) \/
     exists obj,
       typedefs w' !! etd_p = Some (EnumTypeDef (set_py_type (Some obj) etd))).
Proof.
  intros H.
  apply create_enum_object_returns in H as (etd & Htd & Hf & Ht & _).
  split; [done|]. now exists etd.
Qed.

Lemma create_enum_object_frame_witness :
  exists w',
    create_enum_object false scoped_client 1 (Some 0%nat) (PyUnicode "Color")
      scoped_world = Ret (Some (PyType 5), Some 2%nat) w' /\
    frame_except 1 scoped_world w' /\
    exists etd,
      typedefs scoped_world !! 1%nat = Some (EnumTypeDef etd) /\
      (typedefs w' !! 1%nat = Some (EnumTypeDef etd) \/
       exists obj,
         typedefs w' !! 1%nat
         = Some (EnumTypeDef (set_py_type (Some obj) etd))).
Proof.
  eexists. split; [vm_compute; reflexivity|].
  apply (create_enum_object_frame false scoped_client 1 (Some 0%nat)
           (PyUnicode "Color") scoped_world (Some (PyType 5), Some 2%nat)).
  vm_compute. reflexivity.
Defined.

(** ** The members of a created enum type *)

Lemma dict_set_fresh d k v :
  ~ In k (map fst d) -> dict_set d k v = d ++ [(k, v)].
Proof.
  induction d as [|[k' v'] d IH]; [done|]. simpl. intros Hn.
  rewrite decide_False by (intros ->; apply Hn; now left).
  rewrite IH; [done|]. intros Hin. apply Hn. now right.
Qed.

Lemma members_of_distinct etd entries : forall acc,
  NoDup (map fst acc ++ map fst (member_list etd entries)) ->
  members_of etd entries acc = acc ++ member_list etd entries.
Proof.
  unfold members_of. induction entries as [|ii es IH]; intros acc Hnd; simpl.
  - now rewrite app_nil_r.
  - simpl in Hnd. apply NoDup_app in Hnd as (Ha & Hd & Hes).
    apply NoDup_cons in Hes as [Hii Hes].
    rewrite dict_set_fresh.
    + rewrite IH; [now rewrite <- app_assoc|].
      rewrite map_app. simpl. apply NoDup_app. repeat split.
      * apply NoDup_app. repeat split; [done| |apply NoDup_singleton].
        intros x Hx Hx'. apply list_elem_of_singleton in Hx'. subst x.
        apply (Hd _ Hx). now left.
      * intros x Hx Hx'. apply elem_of_app in Hx as [Hx|Hx].
        -- apply (Hd _ Hx). now right.
        -- apply list_elem_of_singleton in Hx. subst x. now apply Hii.
      * done.
    + intros Hin. apply list_elem_of_In in Hin. apply (Hd _ Hin). now left.
Qed.

Lemma member_names_distinct etd entries :
  Forall (fun ii => ii_name ii <> None) entries ->
  NoDup (map ii_name entries) ->
  NoDup (map fst (member_list etd entries)).
Proof.
  unfold member_list. rewrite map_map.
  induction entries as [|ii es IH]; intros Hn Hd; [constructor|].
  inversion Hn as [|? ? Hii Hn']; subst.
  change (NoDup (ii_name ii :: map ii_name es)) in Hd.
  change (NoDup (PyUnicode (default EmptyString (ii_name ii))
                   :: map (fun x => (PyUnicode (default EmptyString (ii_name x)),
                                     PyLong (host_value etd (ii_val x))).1)
                        es)).
  apply NoDup_cons in Hd as [Hni Hd]. apply NoDup_cons. split; [|auto].
  intros Hin. apply Hni.
  apply list_elem_of_In, in_map_iff in Hin as (jj & Hjj & Hin).
  apply list_elem_of_In, in_map_iff. exists jj. split; [|done].
  rewrite Forall_forall in Hn'. apply list_elem_of_In in Hin.
  specialize (Hn' _ Hin). simpl in Hjj.
  destruct (ii_name ii), (ii_name jj); simpl in *; congruence.
Qed.

Lemma classify_member cls qualified key v :
  member_name cls key = true ->
  classify cls qualified (PyUnicode key, v) = MemberName.
Proof.
  unfold member_name, classify. intros H.
  repeat (apply andb_true_iff in H as [H ?]).
  repeat match goal with
         | H : negb _ = true |- _ => apply negb_true_iff in H
         end.
  cbn [fst]. now rewrite H, H0, H1, H2, H3.
Qed.

Lemma filter_all {A} (f : A -> bool) l :
  forallb f l = true -> List.filter f l = l.
Proof.
  induction l as [|x l IH]; [done|]. simpl.
  intros H. apply andb_true_iff in H as [-> H]. now rewrite IH.
Qed.

Lemma filter_none {A} (f : A -> bool) l :
  forallb (fun x => negb (f x)) l = true -> List.filter f l = [].
Proof.
  induction l as [|x l IH]; [done|]. simpl.
  intros H. apply andb_true_iff in H as [Hx H].
  apply negb_true_iff in Hx. rewrite Hx. auto.
Qed.

Lemma omap_none {A B} (f : A -> option B) l :
  Forall (fun x => f x = None) l -> omap f l = [].
Proof.
  induction 1 as [|x l Hx _ IH]; [done|]. simpl. now rewrite Hx.
Qed.

(** A dict whose keys are all names of members: the host does not refuse
    it, makes a member of every entry and no attribute. *)
Lemma enum_namespace_members cls qualified d :
  Forall (fun kv => classify cls qualified kv = MemberName) d ->
  enum_refusal cls qualified d = None /\
  enum_members cls qualified d = d /\
  enum_attributes cls qualified d = [].
Proof.
  intros H. unfold enum_refusal, enum_members, enum_attributes.
  rewrite !omap_none;
    try (eapply Forall_impl; [exact H|]; intros kv Hkv;
         unfold refused, not_a_method; now rewrite Hkv).
  split; [now destruct (List.filter _ d)|split].
  - apply filter_all, forallb_forall. intros kv Hin.
    rewrite Forall_forall in H. unfold is_member.
    now rewrite (H kv) by now apply list_elem_of_In.
  - apply filter_none, forallb_forall. intros kv Hin.
    rewrite Forall_forall in H. unfold is_attribute.
    now rewrite (H kv) by now apply list_elem_of_In.
Qed.

Lemma member_list_classify cls qualified etd entries :
  member_names (PyUnicode cls) entries = true ->
  Forall (fun kv => classify cls qualified kv = MemberName)
         (member_list etd entries).
Proof.
  unfold member_names, member_list. intros H.
  apply Forall_forall. intros kv Hin.
  apply list_elem_of_In, in_map_iff in Hin as (ii & <- & Hin).
  rewrite forallb_forall in H. specialize (H ii Hin).
  destruct (ii_name ii) as [key|]; [|discriminate].
  now apply classify_member.
Qed.

Lemma member_names_named cls entries :
  member_names cls entries = true ->
  Forall (fun ii => ii_name ii <> None) entries.
Proof.
  unfold member_names. destruct cls; try discriminate. intros H.
  apply Forall_forall. intros ii Hin. apply list_elem_of_In in Hin.
  rewrite forallb_forall in H. specialize (H ii Hin).
  now destruct (ii_name ii).
Qed.

(** X8.  The members of the type object that [create_enum_object] returns are
    the entries of the run at the cursor, as many as the enum declares, in
    the order of the table, each under its name and with its value, read as
    [unsigned] for the unsigned flavours: provided that the names of the run
    are names of which the host makes members (a dunder or private name
    would stay a plain attribute of the class) and are distinct (a name that
    recurs keeps its first place and takes the last value). *)
Theorem created_members (NDEBUG : bool) (client : sipExportedModuleDef)
    (etd_p i : nat) (name : PyObject) (w : World) (obj : PyObject)
    (cur' : option nat) (w' : World) :
  create_enum_object NDEBUG client etd_p (Some i) name w
    = Ret (Some obj, cur') w' ->
  member_names name
    (take (member_count w etd_p) (drop i (int_instances w))) = true ->
  NoDup (map ii_name
           (take (member_count w etd_p) (drop i (int_instances w)))) ->
  exists etd a t,
    typedefs w !! etd_p = Some (EnumTypeDef etd) /\
    obj = PyType a /\ heap w' !! a = Some t /\
    length (tp_members t) = member_count w etd_p /\
    tp_members t
    = member_list etd (take (member_count w etd_p) (drop i (int_instances w))).
Proof.
  intros H Hnames Hd. apply create_enum_object_spec in H
    as (etd & a & f & t & cls & qf & Htd & _ & Hl & Hn & -> & _ & _ & _ & Ha
        & _ & -> & Hm & _).
  unfold member_count in *. rewrite Htd in *. simpl in Hl, Hn, Hm.
  rewrite members_of_distinct in Hm
    by (simpl; now apply member_names_distinct).
  simpl in Hm.
  destruct (enum_namespace_members cls qf _
              (member_list_classify cls qf etd _ Hnames)) as (_ & Hall & _).
  rewrite Hall in Hm.
  exists etd, a, t. repeat split; auto.
  rewrite Hm. unfold member_list. now rewrite length_map.
Qed.

Lemma created_members_witness :
  exists w',
    create_enum_object false demo_client 0 (Some 0%nat) (PyUnicode "Level")
      ready_world = Ret (Some (PyType 4), Some 3%nat) w' /\
    member_names (PyUnicode "Level")
      (take (member_count ready_world 0)
         (drop 0 (int_instances ready_world))) = true /\
    NoDup (map ii_name
             (take (member_count ready_world 0)
                (drop 0 (int_instances ready_world)))) /\
    exists etd a t,
      typedefs ready_world !! 0%nat = Some (EnumTypeDef etd) /\
      PyType 4 = PyType a /\ heap w' !! a = Some t /\
      length (tp_members t) = member_count ready_world 0 /\
      tp_members t
      = member_list etd
          (take (member_count ready_world 0)
             (drop 0 (int_instances ready_world))).
Proof.
  assert (Hd : NoDup (map ii_name
                        (take (member_count ready_world 0)
                           (drop 0 (int_instances ready_world)))))
    by (apply (bool_decide_unpack _); vm_compute; exact I).
  eexists. split; [vm_compute; reflexivity|].
  split; [vm_compute; reflexivity|]. split; [exact Hd|].
  apply (created_members false demo_client 0 0 (PyUnicode "Level") ready_world
           (PyType 4) (Some 3%nat)); [|vm_compute; reflexivity|exact Hd].
  vm_compute. reflexivity.
Defined.

(** ** The creation of an enum object when the host does not fail *)

Lemma add_members_ok NDEBUG etd n : forall members i w,
  faults w = [] -> plain_dict members = true ->
  length (take n (drop i (int_instances w))) = n ->
  Forall (fun ii => ii_name ii <> None) (take n (drop i (int_instances w))) ->
  add_members NDEBUG etd n members (Some i) w
  = Ret (Some (members_of etd (take n (drop i (int_instances w))) members,
               Some (i + n)%nat)) w.
Proof.
  induction n as [|n IH]; intros members i w Hf Hd Hl Hn.
  - simpl. now rewrite Nat.add_0_r.
  - destruct (int_instances w !! i) as [ii|] eqn:Hii.
    2:{ rewrite drop_ge in Hl by now apply lookup_ge_None. discriminate. }
    rewrite (drop_S _ _ _ Hii) in Hl, Hn |- *. simpl in Hl, Hn.
    inversion Hn as [|? ? Hname Hn']; subst.
    simpl. unfold deref at 1. rewrite bind_ret_l, bind_get_world, Hii.
    unfold deref. rewrite bind_ret_l. unfold members_of. simpl.
    destruct (ii_name ii) as [k|] eqn:Hk; [|done].
    rewrite bool_decide_eq_true_2 by done.
    rewrite (bind_Ret _ _ _ _ _ (assert_true NDEBUG w)).
    rewrite (bind_Ret _ _ _ _ _ (member_value_ok etd (ii_val ii) w Hf)).
    rewrite (bind_Ret _ _ _ _ _
               (sip_dict_set_and_discard_ok members k
                  (PyLong (host_value etd (ii_val ii))) w Hf eq_refl Hd)).
    simpl. rewrite IH; [|done|now apply plain_dict_set|lia|done].
    now replace (i + S n)%nat with (S (i + n)) by lia.
Qed.

Lemma add_qualname_ok client etd name kw w q :
  faults w = [] -> plain_dict kw = true ->
  str_qualname (statics w) = Some (PyUnicode "qualname") ->
  enum_qualname w client etd name = Some q ->
  add_qualname client etd (PyUnicode name) kw w
  = Ret (Some (if 0 <=? etd_scope etd
               then dict_set kw (PyUnicode "qualname") (PyUnicode q)
               else kw)) w.
Proof.
  intros Hf Hd Hs Hq. unfold add_qualname, enum_qualname in *.
  destruct (0 <=? etd_scope etd); [|reflexivity].
  destruct (em_types client !! Z.to_nat (etd_scope etd)) as [scope|];
    [|discriminate].
  destruct (typedefs w !! scope) as [td|] eqn:Htd; [|discriminate].
  destruct (sipTypeAsPyTypeObject td) as [[| | |a|]|] eqn:Hpy;
    try discriminate.
  destruct (heap w !! a) as [t|] eqn:Ha; [|discriminate].
  inversion Hq; subst q. unfold deref at 1. rewrite bind_ret_l.
  unfold sip_get_qualname.
  rewrite bind_assoc, (bind_Ret _ _ _ _ _ (load_typedef_ok _ _ _ Htd)).
  rewrite Hpy. unfold deref. rewrite bind_assoc, bind_ret_l.
  rewrite bind_assoc, (bind_Ret _ _ _ _ _ (load_type_ok _ _ _ Ha)).
  rewrite (bind_Ret _ _ _
             (Some (PyUnicode (ht_qualname t +:+ "." +:+ name))) w)
    by now rewrite alloc_ok.
  unfold static. rewrite bind_assoc, bind_get_world, bind_ret_l, Hs.
  rewrite (bind_Ret _ _ _ _ _
             (PyDict_SetItem_ok kw (PyUnicode "qualname")
                (PyUnicode (ht_qualname t +:+ "." +:+ name)) w Hf eq_refl Hd)).
  reflexivity.
Qed.

Lemma dict_set_Forall (P : PyObject * PyObject -> Prop) d k v :
  Forall P d -> P (k, v) -> Forall P (dict_set d k v).
Proof.
  intros Hd Hkv. induction Hd as [|[k' v'] d Hx Hd IH]; simpl.
  - now constructor.
  - destruct (decide (k' = k)); constructor; auto.
Qed.

Lemma members_of_classify cls qualified etd entries : forall acc,
  member_names (PyUnicode cls) entries = true ->
  Forall (fun kv => classify cls qualified kv = MemberName) acc ->
  Forall (fun kv => classify cls qualified kv = MemberName)
         (members_of etd entries acc).
Proof.
  unfold members_of, member_names.
  induction entries as [|ii es IH]; intros acc Hn Hacc; [done|].
  simpl in Hn. apply andb_true_iff in Hn as [Hii Hn]. simpl.
  apply IH; [done|]. apply dict_set_Forall; [done|].
  destruct (ii_name ii) as [key|]; [|discriminate].
  now apply classify_member.
Qed.

Lemma PyObject_Call_ok f base name members kw w :
  faults w = [] -> heap w !! f = Some base ->
  Forall (fun kv =>
            classify name
              (bool_decide (dict_get kw (PyUnicode "qualname") <> None)) kv
            = MemberName) members ->
  PyObject_Call (Some (PyType f)) (PyUnicode name, members) kw w
  = Ret (Some (PyType (length (heap w))))
      (set_heap
         (heap w
            ++ [mkType (ob_type_name base) name
                  match dict_get kw (PyUnicode "qualname") with
                  | Some (PyUnicode q) => q
                  | _ => name
                  end
                  (dict_get kw (PyUnicode "module")) [f] members [] None 1])
         w).
Proof.
  intros Hf Hb Hm. unfold PyObject_Call, deref. rewrite bind_ret_l.
  rewrite (bind_Ret _ _ _ _ _ (load_type_ok _ _ _ Hb)).
  rewrite (bind_Ret _ _ _ _ _ (host_fault_none w Hf)).
  cbn [fst snd].
  destruct (enum_namespace_members _ _ _ Hm) as (-> & -> & ->).
  reflexivity.
Qed.

Lemma PyObject_SetAttr_ok a t n v w :
  faults w = [] -> heap w !! a = Some t -> plain v = true ->
  dict_get (tp_dict t) n = None ->
  PyObject_SetAttr (PyType a) (Some n) v w
  = Ret 0 (set_heap (<[a := with_dict (dict_set (tp_dict t) n v) t]> (heap w))
             w).
Proof.
  intros Hf Ha Hv Hn. unfold PyObject_SetAttr, deref. rewrite bind_ret_l.
  rewrite (bind_Ret _ _ _ _ _ (load_type_ok _ _ _ Ha)).
  rewrite (bind_Ret _ _ _ _ _ (host_fault_none w Hf)).
  rewrite (bind_Ret _ _ _ _ _ (Py_INCREF_plain v w Hv)).
  rewrite (bind_Ret _ _ _ _ _ (load_type_ok _ _ _ Ha)).
  rewrite Hn. simpl Py_XDECREF. rewrite bind_ret_l.
  now rewrite (bind_Ret _ _ _ _ _ (load_type_ok _ _ _ Ha)).
Qed.

Lemma insert_snoc {A} (h : list A) (x y : A) :
  <[length h := x]> (h ++ [y]) = h ++ [x].
Proof.
  replace (length h) with (length h + 0)%nat by lia. now rewrite insert_app_r.
Qed.

Lemma lookup_snoc {A} (h : list A) (x : A) : (h ++ [x]) !! length h = Some x.
Proof. now apply list_lookup_middle. Qed.

(** The run of [create_enum_object] when nothing fails, step by step. *)
Lemma create_enum_object_exec (NDEBUG : bool)
    (client : sipExportedModuleDef) (etd_p i : nat) (name : string)
    (w : World) (etd : sipEnumTypeDef) (f : nat) (base : PyTypeObject)
    (m q : string) :
  typedefs w !! etd_p = Some (EnumTypeDef etd) ->
  faults w = [] ->
  str_dunder_sip (statics w) = Some (PyUnicode "__sip__") ->
  str_module (statics w) = Some (PyUnicode "module") ->
  str_qualname (statics w) = Some (PyUnicode "qualname") ->
  enum_factory (statics w) etd = Some (PyType f) ->
  heap w !! f = Some base ->
  em_nameobj client = Some (PyUnicode m) ->
  enum_qualname w client etd name = Some q ->
  length (take (Z.to_nat (etd_nr_members etd)) (drop i (int_instances w)))
  = Z.to_nat (etd_nr_members etd) ->
  member_names (PyUnicode name)
    (take (Z.to_nat (etd_nr_members etd)) (drop i (int_instances w))) = true ->
  create_enum_object NDEBUG client etd_p (Some i) (PyUnicode name) w
  = Ret (Some (PyType (length (heap w))),
         Some (i + Z.to_nat (etd_nr_members etd))%nat)
      (set_typedefs
         (<[etd_p := EnumTypeDef
                       (set_py_type (Some (PyType (length (heap w)))) etd)]>
            (typedefs w))
         (set_heap
            (heap w
               ++ [mkType (ob_type_name base) name q (Some (PyUnicode m)) [f]
                     (members_of etd
                        (take (Z.to_nat (etd_nr_members etd))
                           (drop i (int_instances w))) [])
                     [(PyUnicode "__sip__", PyCapsule etd_p)]
                     (etd_pyslots etd) 1])
            w)).
Proof.
  intros Htd Hf Hsip Hmod Hqn Hfac Hbase Hname Hq Hl Hnames.
  pose proof (member_names_named _ _ Hnames) as Hn.
  unfold create_enum_object.
  rewrite (bind_Ret _ _ _ _ _ (load_typedef_ok _ _ _ Htd)).
  unfold as_enum. rewrite bind_ret_l.
  rewrite (bind_Ret PyDict_New _ w (Some []) w)
    by (unfold PyDict_New; now rewrite alloc_ok).
  rewrite bool_decide_eq_true_2 by done.
  rewrite (bind_Ret _ _ _ _ _ (assert_true NDEBUG w)).
  rewrite (bind_Ret _ _ _ _ _
             (add_members_ok NDEBUG etd _ [] i w Hf eq_refl Hl Hn)).
  set (members := members_of etd _ []).
  rewrite (bind_Ret (PyTuple_Pack2 _ _) _ w (Some (PyUnicode name, members)) w)
    by (unfold PyTuple_Pack2; now rewrite alloc_ok).
  rewrite (bind_Ret PyDict_New _ w (Some []) w)
    by (unfold PyDict_New; now rewrite alloc_ok).
  unfold static at 1. rewrite bind_assoc, bind_get_world, bind_ret_l.
  rewrite Hmod, Hname.
  rewrite (bind_Ret _ _ _ _ _
             (PyDict_SetItem_ok [] (PyUnicode "module") (PyUnicode m) w Hf
                eq_refl eq_refl)).
  cbn [fst snd dict_set]. change (0 <? 0) with false. cbv iota.
  rewrite (bind_Ret _ _ _ _ _
             (add_qualname_ok client etd name
                [(PyUnicode "module", PyUnicode m)] w q Hf eq_refl Hqn Hq)).
  rewrite (bind_Ret (PyCapsule_New _) _ w (Some (PyCapsule etd_p)) w)
    by (unfold PyCapsule_New; now rewrite alloc_ok).
  unfold static at 1. rewrite bind_assoc, bind_get_world, bind_ret_l, Hfac.
  rewrite (bind_Ret _ _ _ _ _
             (PyObject_Call_ok f base name members _ w Hf Hbase
                (members_of_classify name _ etd _ [] Hnames (Forall_nil_2 _)))).
  rewrite bind_modify.
  unfold static at 1. rewrite bind_assoc, bind_get_world, bind_ret_l.
  cbn [statics set_typedefs set_heap]. rewrite Hsip.
  set (kw := if 0 <=? etd_scope etd then _ else _).
  assert (Hkq : match dict_get kw (PyUnicode "qualname") with
                | Some (PyUnicode q') => q'
                | _ => name
                end = q).
  { subst kw. unfold enum_qualname in Hq.
    destruct (0 <=? etd_scope etd); [reflexivity|]. now inversion Hq. }
  assert (Hkm : dict_get kw (PyUnicode "module") = Some (PyUnicode m)).
  { subst kw. now destruct (0 <=? etd_scope etd). }
  rewrite Hkq, Hkm.
  erewrite (bind_Ret (PyObject_SetAttr _ _ _));
    [|apply PyObject_SetAttr_ok;
      [exact Hf | apply lookup_snoc | reflexivity | reflexivity]].
  change (0 <? 0) with false. cbv iota.
  cbn [heap set_heap set_typedefs Py_DECREF]. rewrite bind_ret_l.
  rewrite insert_snoc.
  destruct (etd_pyslots etd) as [slots|] eqn:Hslots.
  - unfold sip_add_type_slots.
    erewrite (bind_Ret (bind (load_type _) _));
      [|erewrite (bind_Ret (load_type _));
        [|apply load_type_ok; apply lookup_snoc]; reflexivity].
    cbn [heap set_heap set_typedefs]. rewrite insert_snoc. reflexivity.
  - rewrite bind_ret_l. reflexivity.
Qed.


(** X9.  When the host does not fail, the module is initialised, the class of
    the flavour exists, the scope (if any) has its type object and the table
    has a run at the cursor that is as long as the enum declares and whose
    names are names of which the host makes members, [create_enum_object]
    succeeds: it returns a new type object that derives from the class of
    the flavour, has the name, the qualified name
    ([<qualified name of the scope>.<name>] in a scope), the module of the
    client, the members of the run, the capsule of the type structure as
    [__sip__] and the extra behaviour of the enum; it records the object in
    the type structure, moves the cursor past the run and changes nothing
    else. *)
Theorem create_enum_object_success (NDEBUG : bool)
    (client : sipExportedModuleDef) (etd_p i : nat) (name : string)
    (w : World) (etd : sipEnumTypeDef) (f : nat) (base : PyTypeObject)
    (m q : string) :
  typedefs w !! etd_p = Some (EnumTypeDef etd) ->
  faults w = [] ->
  str_dunder_sip (statics w) = Some (PyUnicode "__sip__") ->
  str_module (statics w) = Some (PyUnicode "module") ->
  str_qualname (statics w) = Some (PyUnicode "qualname") ->
  enum_factory (statics w) etd = Some (PyType f) ->
  heap w !! f = Some base ->
  em_nameobj client = Some (PyUnicode m) ->
  enum_qualname w client etd name = Some q ->
  length (take (Z.to_nat (etd_nr_members etd)) (drop i (int_instances w)))
  = Z.to_nat (etd_nr_members etd) ->
  member_names (PyUnicode name)
    (take (Z.to_nat (etd_nr_members etd)) (drop i (int_instances w))) = true ->
  exists t,
    create_enum_object NDEBUG client etd_p (Some i) (PyUnicode name) w
    = Ret (Some (PyType (length (heap w))),
           Some (i + Z.to_nat (etd_nr_members etd))%nat)
        (set_typedefs
           (<[etd_p := EnumTypeDef
                         (set_py_type (Some (PyType (length (heap w)))) etd)]>
              (typedefs w))
           (set_heap (heap w ++ [t]) w)) /\
    ob_type_name t = ob_type_name base /\
    tp_name t = name /\
    ht_qualname t = q /\
    tp_module t = Some (PyUnicode m) /\
    tp_bases t = [f] /\
    tp_members t
    = members_of etd
        (take (Z.to_nat (etd_nr_members etd)) (drop i (int_instances w))) [] /\
    dict_get (tp_dict t) (PyUnicode "__sip__") = Some (PyCapsule etd_p) /\
    tp_slots t = etd_pyslots etd.
Proof.
  intros Htd Hf Hsip Hmod Hqn Hfac Hbase Hname Hq Hl Hnames.
  eexists. split.
  - exact (create_enum_object_exec NDEBUG client etd_p i name w etd f base m q
             Htd Hf Hsip Hmod Hqn Hfac Hbase Hname Hq Hl Hnames).
  - repeat split.
Qed.

Lemma create_enum_object_success_witness :
  exists t,
    create_enum_object false scoped_client 1 (Some 0%nat) (PyUnicode "Color")
      scoped_world
    = Ret (Some (PyType (length (heap scoped_world))),
           Some (0 + Z.to_nat (etd_nr_members Color_td))%nat)
        (set_typedefs
           (<[1%nat := EnumTypeDef
                         (set_py_type
                            (Some (PyType (length (heap scoped_world))))
                            Color_td)]>
              (typedefs scoped_world))
           (set_heap (heap scoped_world ++ [t]) scoped_world)) /\
    ob_type_name t
    = ob_type_name (with_refcnt 2 (enum_class "IntEnum" [0%nat])) /\
    tp_name t = "Color"%string /\
    ht_qualname t = "Outer.Color"%string /\
    tp_module t = Some (PyUnicode "shapes") /\
    tp_bases t = [1%nat] /\
    tp_members t
    = members_of Color_td
        (take (Z.to_nat (etd_nr_members Color_td))
           (drop 0 (int_instances scoped_world))) [] /\
    dict_get (tp_dict t) (PyUnicode "__sip__") = Some (PyCapsule 1) /\
    tp_slots t = etd_pyslots Color_td.
Proof.
  apply (create_enum_object_success false scoped_client 1 0 "Color"
           scoped_world Color_td 1
           (with_refcnt 2 (enum_class "IntEnum" [0%nat])) "shapes"
           "Outer.Color");
    reflexivity.
Defined.

(** ** [sip_enum_create] *)

Lemma PyDict_SetItem_type_ok d k a w :
  faults w = [] -> (a < length (heap w))%nat -> dict_get d k = None ->
  PyDict_SetItem d (Some k) (Some (PyType a)) w
  = Ret (0, dict_set d k (PyType a)) (set_heap (alter incref a (heap w)) w).
Proof.
  intros Hf Ha Hk. unfold PyDict_SetItem, deref. rewrite !bind_ret_l.
  rewrite (bind_Ret _ _ _ _ _ (host_fault_none w Hf)).
  rewrite (bind_Ret _ _ _ _ _ (Py_INCREF_type w a Ha)).
  rewrite Hk. reflexivity.
Qed.

(** X10.  Under the conditions under which [create_enum_object] succeeds and when
    the dictionary has no entry for the name of the enum yet,
    [sip_enum_create] returns 0 and has put the type object that
    [create_enum_object] returned into the dictionary under the name of the
    enum.  It leaves the state as [create_enum_object] left it: the
    reference that it gives up at the end makes up for the one that the
    dictionary has taken. *)
Theorem sip_enum_create_success (NDEBUG : bool)
    (client : sipExportedModuleDef) (etd_p i : nat) (dict : PyDict)
    (w : World) (etd : sipEnumTypeDef) (f : nat) (base : PyTypeObject)
    (m q : string) :
  typedefs w !! etd_p = Some (EnumTypeDef etd) ->
  faults w = [] ->
  str_dunder_sip (statics w) = Some (PyUnicode "__sip__") ->
  str_module (statics w) = Some (PyUnicode "module") ->
  str_qualname (statics w) = Some (PyUnicode "qualname") ->
  enum_factory (statics w) etd = Some (PyType f) ->
  heap w !! f = Some base ->
  em_nameobj client = Some (PyUnicode m) ->
  enum_qualname w client etd (etd_name etd) = Some q ->
  length (take (Z.to_nat (etd_nr_members etd)) (drop i (int_instances w)))
  = Z.to_nat (etd_nr_members etd) ->
  member_names (PyUnicode (etd_name etd))
    (take (Z.to_nat (etd_nr_members etd)) (drop i (int_instances w))) = true ->
  dict_get dict (PyUnicode (etd_name etd)) = None ->
  exists obj w1,
    create_enum_object NDEBUG client etd_p (Some i)
      (PyUnicode (etd_name etd)) w
    = Ret (Some obj, Some (i + Z.to_nat (etd_nr_members etd))%nat) w1 /\
    sip_enum_create NDEBUG client etd_p (Some i) dict w
    = Ret (0, Some (i + Z.to_nat (etd_nr_members etd))%nat,
           dict_set dict (PyUnicode (etd_name etd)) obj) w1.
Proof.
  intros Htd Hf Hsip Hmod Hqn Hfac Hbase Hname Hq Hl Hn Hfree.
  pose proof (create_enum_object_exec NDEBUG client etd_p i (etd_name etd) w
                etd f base m q Htd Hf Hsip Hmod Hqn Hfac Hbase Hname Hq Hl Hn)
    as Hexec.
  eexists _, _. split; [exact Hexec|].
  unfold sip_enum_create.
  rewrite (bind_Ret _ _ _ _ _ (load_typedef_ok _ _ _ Htd)).
  unfold as_enum. rewrite bind_ret_l. unfold sipPyNameOfEnum.
  rewrite (bind_Ret (PyUnicode_FromString _) _ w
             (Some (PyUnicode (etd_name etd))) w)
    by (unfold PyUnicode_FromString; now rewrite alloc_ok).
  rewrite (bind_Ret _ _ _ _ _ Hexec).
  cbn [fst snd].
  erewrite (bind_Ret (PyDict_SetItem _ _ _));
    [|apply PyDict_SetItem_type_ok;
      [exact Hf
      |cbn [heap set_typedefs set_heap]; rewrite length_app; simpl; lia
      |exact Hfree]].
  simpl Py_DECREF at 1. rewrite bind_ret_l. cbn [heap set_typedefs set_heap].
  replace (length (heap w)) with (length (heap w) + 0)%nat at 2 by lia.
  rewrite alter_app_r. simpl alter.
  replace (length (heap w) + 0)%nat with (length (heap w)) by lia.
  unfold Py_DECREF.
  erewrite (bind_Ret (bind (load_type _) _));
    [|erewrite (bind_Ret (load_type _));
      [|apply load_type_ok; apply lookup_snoc]; reflexivity].
  cbn [heap set_typedefs set_heap]. rewrite insert_snoc. reflexivity.
Qed.

Lemma sip_enum_create_success_witness :
  exists obj w1,
    create_enum_object false scoped_client 1 (Some 0%nat)
      (PyUnicode (etd_name Color_td)) scoped_world
    = Ret (Some obj, Some (0 + Z.to_nat (etd_nr_members Color_td))%nat) w1 /\
    sip_enum_create false scoped_client 1 (Some 0%nat) [] scoped_world
    = Ret (0, Some (0 + Z.to_nat (etd_nr_members Color_td))%nat,
           dict_set [] (PyUnicode (etd_name Color_td)) obj) w1.
Proof.
  apply (sip_enum_create_success false scoped_client 1 0 [] scoped_world
           Color_td 1 (with_refcnt 2 (enum_class "IntEnum" [0%nat])) "shapes"
           "Outer.Color");
    reflexivity.
Defined.

Lemma PyUnicode_FromString_inv s w o w' :
  PyUnicode_FromString s w = Ret o w' -> o = None \/ o = Some (PyUnicode s).
Proof.
  intros H. apply alloc_inv in H as [->|[w1 H]]; [now left|].
  inversion H. now right.
Qed.

(** X11.  [sip_enum_create] returns 0 or -1.  When it returns -1 an exception is
    set and the dictionary is the one it was given; when it returns 0 the
    dictionary has the enum object under the name of the enum, the type
    structure holds that same object, and the cursor is past the run of the
    enum. *)
Theorem sip_enum_create_result (NDEBUG : bool)
    (client : sipExportedModuleDef) (etd_p : nat) (cur : option nat)
    (dict : PyDict) (w : World) (rc : Z) (cur' : option nat) (dict' : PyDict)
    (w' : World) :
  sip_enum_create NDEBUG client etd_p cur dict w = Ret (rc, cur', dict') w' ->
  (rc = 0 \/ rc = -1) /\
  (rc = -1 -> error w' <> None /\ dict' = dict) /\
  (rc = 0 ->
   exists etd obj,
     typedefs w !! etd_p = Some (EnumTypeDef etd) /\
     typedefs w' !! etd_p = Some (EnumTypeDef (set_py_type (Some obj) etd)) /\
     dict' = dict_set dict (PyUnicode (etd_name etd)) obj /\
     cur' = advance cur (member_count w etd_p)).
Proof.
  unfold sip_enum_create. intros H.
  bind_step H td w0 Htd. apply load_typedef_inv in Htd as [-> Htd].
  destruct td as [etd|]; [|discriminate]. simpl in H. rewrite bind_ret_l in H.
  bind_step H name w1 Hname. frame_of Hname F1.
  destruct name as [name|].
  2:{ inversion H; subst. apply alloc_None_inv in Hname; [|discriminate].
      split; [now right|]. split; [done|discriminate]. }
  apply PyUnicode_FromString_inv in Hname as [|Hname]; [discriminate|].
  inversion Hname; subst name. clear Hname.
  bind_step H r w2 Hr. destruct r as [[obj|] c]; simpl in H.
  - bind_step H rd w3 Hd. frame_of Hd F3.
    bind_step H u1 w4 H1. frame_of H1 F4.
    bind_step H u2 w5 H2. frame_of H2 F5.
    inversion H; subst. clear H.
    assert (E1 : error w4 = error w3) by now inversion H1.
    apply Py_DECREF_inv in H2 as [_ E2].
    pose proof Hd as Hd'. apply PyDict_SetItem_inv in Hd'
      as [->|(k & v & Hk & Hv & ->)].
    + apply PyDict_SetItem_fail in Hd; [|done].
      split; [now right|]. split; [|discriminate]. intros _.
      split; [congruence|done].
    + inversion Hk; inversion Hv; subst k v.
      split; [now left|]. split; [discriminate|]. intros _.
      apply create_enum_object_spec in Hr
        as (etd' & a & f & t & cls & qf & Htd' & -> & _ & _ & -> & _ & _ & _
            & _ & _ & _ & _ & Ht & _).
      destruct F1 as (_ & T1 & _).
      rewrite T1, Htd in Htd'. inversion Htd'; subst etd'.
      assert (F : frame w2 w') by eauto using frame_trans.
      destruct F as (_ & T & _).
      exists etd, (PyType a). split; [done|].
      unfold member_count, sipPyNameOfEnum. rewrite Htd, T, Ht, T1.
      split; [|done].
      apply list_lookup_insert_eq. eapply lookup_lt_Some; eauto.
  - bind_step H u1 w3 H1.
    assert (E1 : error w3 = error w2) by now inversion H1.
    inversion H; subst.
    apply create_enum_object_returns in Hr as (etd' & _ & _ & _ & He).
    destruct (He eq_refl) as [He' _].
    split; [now right|]. split; [|discriminate]. intros _.
    split; [congruence|done].
Qed.

Lemma sip_enum_create_result_witness :
  exists w',
    sip_enum_create false demo_client 0 (Some 0%nat) [] ready_world
    = Ret (0, Some 3%nat, [(PyUnicode "Level", PyType 4)]) w' /\
    (0 = 0 \/ 0 = -1) /\
    (0 = -1 -> error w' <> None /\ [(PyUnicode "Level", PyType 4)] = []) /\
    (0 = 0 ->
     exists etd obj,
       typedefs ready_world !! 0%nat = Some (EnumTypeDef etd) /\
       typedefs w' !! 0%nat
       = Some (EnumTypeDef (set_py_type (Some obj) etd)) /\
       [(PyUnicode "Level", PyType 4)]
       = dict_set [] (PyUnicode (etd_name etd)) obj /\
       Some 3%nat = advance (Some 0%nat) (member_count ready_world 0)).
Proof.
  eexists. split; [vm_compute; reflexivity|].
  apply (sip_enum_create_result false demo_client 0 (Some 0%nat) []
           ready_world 0 (Some 3%nat) [(PyUnicode "Level", PyType 4)]).
  vm_compute. reflexivity.
Defined.

(** ** From an enum object back to its type structure *)

Lemma dict_get_set d k v : dict_get (dict_set d k v) k = Some v.
Proof.
  induction d as [|[k' v'] d IH]; simpl.
  - now rewrite decide_True.
  - destruct (decide (k' = k)) as [->|Hne]; simpl.
    + now rewrite decide_True.
    + now rewrite decide_False.
Qed.

Lemma PyObject_SetAttr_inv a k v w rc w' :
  PyObject_SetAttr (PyType a) (Some k) v w = Ret rc w' ->
  (rc <? 0) = false ->
  exists t, heap w' !! a = Some t /\ dict_get (tp_dict t) k = Some v.
Proof.
  unfold PyObject_SetAttr, deref. rewrite bind_ret_l. intros H Hrc.
  bind_step H t w0 Ht. bind_step H b w1 Hb. destruct b.
  { bind_step H u w2 He. inversion H; subst. discriminate. }
  bind_step H u1 w2 H1. bind_step H t2 w3 H2. bind_step H u3 w4 H3.
  bind_step H t4 w5 H4. apply load_type_inv in H4 as [-> H4].
  bind_step H u5 w6 H5. inversion H5; subst. inversion H; subst. simpl.
  eexists. split.
  - apply list_lookup_insert_eq. eapply lookup_lt_Some; eauto.
  - simpl. apply dict_get_set.
Qed.

(** The type object that [create_enum_object] returns has the capsule of
    the type structure under the name in [str_dunder_sip]. *)
Lemma create_enum_object_capsule NDEBUG client etd_p cur name w obj cur' w' k :
  create_enum_object NDEBUG client etd_p cur name w = Ret (Some obj, cur') w' ->
  str_dunder_sip (statics w) = Some k ->
  exists a t,
    obj = PyType a /\ heap w' !! a = Some t /\
    dict_get (tp_dict t) k = Some (PyCapsule etd_p).
Proof.
  unfold create_enum_object. intros H Hk.
  bind_step H td w0 Htd. apply load_typedef_inv in Htd as [-> Htd].
  destruct td as [etd|]; [|discriminate]. simpl in H. rewrite bind_ret_l in H.
  bind_step H members w1 Hm. frame_of Hm F1.
  destruct members as [members|]; [|discriminate].
  bind_step H u w2 Ha. apply assert_inv in Ha as [-> _].
  bind_step H r w2 Hr. frame_of Hr F2.
  destruct r as [[members' next_int]|]; [|discriminate].
  bind_step H args w3 Hargs. frame_of Hargs F3.
  destruct args as [args|]; [|discriminate].
  bind_step H kw0 w4 Hkw. frame_of Hkw F4.
  destruct kw0 as [kw0|]; [|discriminate].
  bind_step H key w5 Hkey. apply static_inv in Hkey as [-> ->].
  bind_step H rs w5 Hset. frame_of Hset F5.
  destruct (rs.1 <? 0); [discriminate|].
  bind_step H kw w6 Hq. frame_of Hq F6.
  destruct kw as [kw|]; [|discriminate].
  bind_step H cap w7 Hcap. frame_of Hcap F7.
  apply PyCapsule_New_inv in Hcap as [->| ->]; [discriminate|].
  bind_step H factory w8 Hfac. apply static_inv in Hfac as [-> ->].
  bind_step H enum_obj w8 Hcall. frame_of Hcall F8.
  destruct enum_obj as [enum_obj|]; [|discriminate].
  apply PyObject_Call_inv in Hcall as (f & base & t & cls & _ & _ & -> & _).
  rewrite bind_modify in H.
  bind_step H key w9 Hkey. apply static_inv in Hkey as [-> ->].
  assert (G8 : frame w w8) by eauto 12 using frame_trans.
  destruct G8 as (_ & _ & _ & _ & S8). simpl in H. rewrite S8, Hk in H.
  bind_step H rc w9 Hattr.
  destruct (rc <? 0) eqn:Hrc.
  { bind_step H u1 w10 H1. bind_step H u2 w11 H2. discriminate. }
  apply PyObject_SetAttr_inv in Hattr as (t9 & Ht9 & Hd9); [|done].
  bind_step H u1 w10 H1. inversion H1; subst.
  bind_step H u2 w11 H2. inversion H; subst. clear H.
  exists (length (heap w7)). destruct (etd_pyslots etd) as [slots|].
  - simpl in H2. bind_step H2 t10 w11 H10.
    apply load_type_inv in H10 as [-> H10]. inversion H2; subst. simpl.
    rewrite Ht9 in H10. inversion H10; subst t10.
    eexists. split; [done|]. split.
    + apply list_lookup_insert_eq. eapply lookup_lt_Some; eauto.
    + done.
  - inversion H2; subst. now exists t9.
Qed.

(** A new type object with one base is a subtype of what its base was a
    subtype of. *)
Lemma created_subtype h h' a t fac b :
  heap_ext h h' -> bases_below h = true ->
  h' !! a = Some t -> tp_bases t = [fac] ->
  (fac < length h)%nat -> (length h <= a)%nat -> (b < length h)%nat ->
  PyType_IsSubtype h' a b = PyType_IsSubtype h fac b.
Proof.
  intros He Hb Ha Hbases Hfac Hla Hlb.
  pose proof (lookup_lt_Some _ _ _ Ha) as Hla'.
  assert (Hne : a <> b) by lia.
  assert (Hstep : PyType_IsSubtype h' a b
                  = subtype_fuel h' (length h' - 1) fac b).
  { unfold PyType_IsSubtype. destruct (length h') as [|n] eqn:Hn; [lia|].
    simpl. rewrite bool_decide_eq_false_2 by done. rewrite Ha, Hbases.
    simpl. rewrite Nat.sub_0_r. now rewrite orb_false_r. }
  rewrite Hstep. destruct (PyType_IsSubtype h fac b) eqn:Hs.
  - apply (subtype_fuel_old h); auto; [|lia].
    now apply PyType_IsSubtype_subclass.
  - apply not_true_is_false. intros Hs'. apply subtype_fuel_sound in Hs'.
    apply (subclass_old h) in Hs'; auto.
    apply PyType_IsSubtype_subclass in Hs'; auto. congruence.
Qed.

(** The classes that [create_enum_object] calls are enums. *)
Lemma enum_factory_family w etd :
  python_enum_family w = true ->
  exists e fac,
    enum_type (statics w) = Some (PyType e) /\
    enum_factory (statics w) etd = Some (PyType fac) /\
    bases_below (heap w) = true /\
    (e < length (heap w))%nat /\ (fac < length (heap w))%nat /\
    PyType_IsSubtype (heap w) fac e = true.
Proof.
  unfold python_enum_family. intros Hpy.
  destruct (enum_type (statics w)) as [[| | |e|]|] eqn:E1; try discriminate.
  destruct (int_enum_type (statics w)) as [[| | |ie|]|] eqn:E2;
    try discriminate.
  destruct (flag_type (statics w)) as [[| | |f|]|] eqn:E3; try discriminate.
  destruct (int_flag_type (statics w)) as [[| | |iff|]|] eqn:E4;
    try discriminate.
  repeat (apply andb_true_iff in Hpy as [Hpy ?]).
  repeat match goal with
         | H : (_ <? _)%nat = true |- _ => apply Nat.ltb_lt in H
         end.
  exists e. unfold enum_factory. rewrite E1, E2, E3, E4.
  destruct (etd_base_type etd); simpl; eexists; repeat split; eauto;
    apply subtype_refl.
Qed.

(** X12.  Every type object that [create_enum_object] returns is an enum for
    [sip_enum_is_enum], whatever its flavour. *)
Theorem sip_enum_is_enum_created (NDEBUG : bool)
    (client : sipExportedModuleDef) (etd_p : nat) (cur : option nat)
    (name : PyObject) (w : World) (obj : PyObject) (cur' : option nat)
    (w' : World) :
  create_enum_object NDEBUG client etd_p cur name w = Ret (Some obj, cur') w' ->
  python_enum_family w = true ->
  sip_enum_is_enum obj w' = Ret 1 w'.
Proof.
  intros H Hpy. apply create_enum_object_spec in H
    as (etd & a & fac & t & cls & qf & Htd & _ & _ & _ & -> & Hla & Hfac & Hlt
        & Ha & Hbases & _ & _ & _ & _ & Hst & He).
  destruct (enum_factory_family w etd Hpy)
    as (e & fac' & E1 & Hfac' & Hb & Le & Lfac & Hsub).
  rewrite Hfac in Hfac'. inversion Hfac'; subst fac'.
  unfold sip_enum_is_enum, static.
  rewrite bind_assoc, bind_get_world, bind_ret_l, Hst, E1.
  rewrite (bind_Ret _ _ _ _ _ (PyObject_IsSubclass_types w' a e
             ltac:(simpl; apply Nat.ltb_lt; eapply lookup_lt_Some; eauto)
             ltac:(simpl; apply Nat.ltb_lt; destruct He; lia))).
  rewrite (created_subtype (heap w) (heap w') a t fac e); auto.
  now rewrite Hsub.
Qed.

Lemma sip_enum_is_enum_created_witness :
  exists w',
    create_enum_object false demo_client 1 (Some 3%nat) (PyUnicode "Perm")
      ready_world = Ret (Some (PyType 4), Some 6%nat) w' /\
    sip_enum_is_enum (PyType 4) w' = Ret 1 w'.
Proof.
  eexists. split; [vm_compute; reflexivity|].
  apply (sip_enum_is_enum_created false demo_client 1 (Some 3%nat)
           (PyUnicode "Perm") ready_world (PyType 4) (Some 6%nat));
    vm_compute; reflexivity.
Defined.

(** X13.  The way back: for every type object that [create_enum_object] returns,
    [sip_enum_get_generated_type] returns the type structure it was created
    for, and leaves the state as it is. *)
Theorem sip_enum_get_generated_type_created (NDEBUG : bool)
    (client : sipExportedModuleDef) (etd_p : nat) (cur : option nat)
    (name : PyObject) (w : World) (obj : PyObject) (cur' : option nat)
    (w' : World) :
  create_enum_object NDEBUG client etd_p cur name w = Ret (Some obj, cur') w' ->
  python_enum_family w = true ->
  str_dunder_sip (statics w) <> None ->
  sip_enum_get_generated_type obj w' = Ret (Some etd_p) w'.
Proof.
  intros H Hpy Hk. destruct (str_dunder_sip (statics w)) as [k|] eqn:Ek; [|done].
  destruct (create_enum_object_capsule _ _ _ _ _ _ _ _ _ k H Ek)
    as (a & t & -> & Ha & Hd).
  pose proof H as Hspec. apply create_enum_object_spec in Hspec
    as (etd & a' & fac & t' & cls & qf & Htd & _ & _ & _ & Ho & Hla & Hfac
        & Hlt & Ha' & Hbases & _ & _ & _ & _ & Hst & He).
  inversion Ho; subst a'. rewrite Ha in Ha'. inversion Ha'; subst t'.
  destruct (enum_factory_family w etd Hpy)
    as (e & fac' & E1 & Hfac' & Hb & Le & Lfac & Hsub).
  rewrite Hfac in Hfac'. inversion Hfac'; subst fac'.
  unfold sip_enum_get_generated_type, sip_enum_is_enum, static.
  rewrite !bind_assoc, bind_get_world, bind_ret_l, Hst, E1.
  rewrite bind_assoc.
  rewrite (bind_Ret _ _ _ _ _ (PyObject_IsSubclass_types w' a e
             ltac:(simpl; apply Nat.ltb_lt; eapply lookup_lt_Some; eauto)
             ltac:(simpl; apply Nat.ltb_lt; destruct He; lia))).
  rewrite (created_subtype (heap w) (heap w') a t fac e); auto.
  rewrite Hsub, bind_ret_l.
  change (negb ((if 1 =? 1 then 1 else 0) =? 0)) with true. cbv iota.
  rewrite bind_assoc, bind_get_world, bind_ret_l, Hst, Ek.
  unfold PyObject_GetAttr, deref. rewrite bind_assoc, bind_ret_l, bind_assoc.
  rewrite (bind_Ret _ _ _ _ _ (load_type_ok _ _ _ Ha)). rewrite Hd.
  reflexivity.
Qed.

Lemma sip_enum_get_generated_type_created_witness :
  exists w',
    create_enum_object false demo_client 1 (Some 3%nat) (PyUnicode "Perm")
      ready_world = Ret (Some (PyType 4), Some 6%nat) w' /\
    sip_enum_get_generated_type (PyType 4) w' = Ret (Some 1%nat) w'.
Proof.
  eexists. split; [vm_compute; reflexivity|].
  apply (sip_enum_get_generated_type_created false demo_client 1 (Some 3%nat)
           (PyUnicode "Perm") ready_world (PyType 4) (Some 6%nat));
    [vm_compute; reflexivity | reflexivity | discriminate].
Defined.

(** X14.  For anything that is not an enum class, [sip_enum_get_generated_type]
    returns NULL without looking for the capsule.  A class that does not
    derive from [enum.Enum] leaves the state as it is; an object that is not
    a class leaves the [TypeError] of the failed subclass test behind, which
    the function does not clear. *)
Theorem sip_enum_get_generated_type_other (w : World) (e : nat)
    (obj : PyObject) :
  bases_below (heap w) = true ->
  enum_type (statics w) = Some (PyType e) ->
  live (heap w) (PyType e) = true ->
  live (heap w) obj = true ->
  ~ (exists a, obj = PyType a /\ subclass (heap w) a e) ->
  exists w',
    sip_enum_get_generated_type obj w = Ret None w' /\
    ((exists a, obj = PyType a) -> w' = w) /\
    ((forall a, obj <> PyType a) ->
     w' = set_error
            (Some (mkErr TypeError "issubclass() arg 1 must be a class")) w).
Proof.
  intros Hb He Hle Hlo Hn.
  destruct (sip_enum_is_enum_exec w e obj Hb He Hle Hlo)
    as (r & w' & Hr & Hcases & Hiff & Hsame & Herr).
  exists w'. split; [|now split].
  unfold sip_enum_get_generated_type. rewrite (bind_Ret _ _ _ _ _ Hr).
  destruct Hcases as [->| ->]; [|reflexivity].
  exfalso. apply Hn. now apply Hiff.
Qed.

Lemma sip_enum_get_generated_type_other_witness :
  exists w',
    sip_enum_get_generated_type (PyLong 7) demo_world = Ret None w' /\
    ((exists a, PyLong 7 = PyType a) -> w' = demo_world) /\
    ((forall a, PyLong 7 <> PyType a) ->
     w' = set_error
            (Some (mkErr TypeError "issubclass() arg 1 must be a class"))
            demo_world).
Proof.
  apply (sip_enum_get_generated_type_other demo_world 0 (PyLong 7));
    try reflexivity.
  intros (a & Ha & _). discriminate.
Defined.

(** ** Conversions when the enum type cannot be resolved *)

(** X15.  When [get_enum_type] returns NULL (the lazy attributes could not be
    created, or did not include the enum), [sip_api_convert_from_enum]
    returns NULL with an exception set, whereas [sip_api_convert_to_enum]
    does not test the result: it passes the NULL to [PyObject_IsInstance],
    which is undefined. *)
Theorem convert_unresolved (NDEBUG : bool) (scope : nat -> M (option nat))
    (lazy : option nat -> M Z) (w w1 : World) (td : nat)
    (etd : sipEnumTypeDef) (v : Z) (obj : PyObject) :
  typedefs w !! td = Some (EnumTypeDef etd) ->
  get_enum_type scope lazy td w = Ret None w1 ->
  (exists w2,
     sip_api_convert_from_enum NDEBUG scope lazy v td w = Ret None w2 /\
     error w2 <> None) /\
  sip_api_convert_to_enum NDEBUG scope lazy obj td w = Undefined.
Proof.
  intros Htd Hget. split.
  - unfold sip_api_convert_from_enum.
    rewrite (bind_Ret _ _ _ _ _ (load_typedef_ok _ _ _ Htd)).
    simpl sipTypeIsEnum.
    rewrite (bind_Ret _ _ _ _ _ (assert_true NDEBUG w)).
    rewrite (bind_Ret _ _ _ _ _ Hget). unfold as_enum. rewrite bind_ret_l.
    unfold PyObject_CallFunction, PyErr_Occurred.
    rewrite bind_assoc, bind_get_world, bind_ret_l.
    destruct (bool_decide (error w1 <> None)) eqn:He.
    + apply bool_decide_eq_true in He. now exists w1.
    + eexists. split; [reflexivity|]. discriminate.
  - unfold sip_api_convert_to_enum.
    rewrite (bind_Ret _ _ _ _ _ (load_typedef_ok _ _ _ Htd)).
    simpl sipTypeIsEnum.
    rewrite (bind_Ret _ _ _ _ _ (assert_true NDEBUG w)).
    now rewrite (bind_Ret _ _ _ _ _ Hget).
Qed.

Lemma convert_unresolved_witness :
  (exists w2,
     sip_api_convert_from_enum false no_scope no_lazy_attrs 1 0 ready_world
     = Ret None w2 /\
     error w2 <> None) /\
  sip_api_convert_to_enum false no_scope no_lazy_attrs (PyLong 1) 0
    ready_world = Undefined.
Proof.
  apply (convert_unresolved false no_scope no_lazy_attrs ready_world
           ready_world 0 Level_td 1 (PyLong 1)); reflexivity.
Defined.

Lemma sip_api_is_enum_flag_created_witness :
  exists w',
    create_enum_object false demo_client 1 (Some 3%nat) (PyUnicode "Perm")
      ready_world = Ret (Some (PyType 4), Some 6%nat) w' /\
    sip_api_is_enum_flag (PyType 4) w'
    = Ret (if is_flag_flavour Perm_td then 1 else 0) w'.
Proof.
  eexists. split; [vm_compute; reflexivity|].
  apply (sip_api_is_enum_flag_created false demo_client 1 (Some 3%nat)
           (PyUnicode "Perm") ready_world (PyType 4) (Some 6%nat));
    vm_compute; reflexivity.
Defined.

(** ** From the table to the native values and back *)

(** X16.  After [create_enum_object] has created an enum type from a run of
    entries whose names are distinct and are names of which the host makes
    members, every value of the run makes the round trip:
    [sip_api_convert_from_enum] finds a member for it and
    [sip_api_convert_to_enum] reads the value back from that member, in any
    later state that differs from the one after the creation only in the
    answers of the host, as long as the host does not fail. *)
Theorem created_values_roundtrip (NDEBUG : bool)
    (scope : nat -> M (option nat)) (lazy : option nat -> M Z)
    (client : sipExportedModuleDef) (etd_p i : nat) (name : PyObject)
    (w : World) (obj : PyObject) (cur' : option nat) (w' : World)
    (ii : sipIntInstanceDef) :
  create_enum_object NDEBUG client etd_p (Some i) name w
    = Ret (Some obj, cur') w' ->
  member_names name
    (take (member_count w etd_p) (drop i (int_instances w))) = true ->
  NoDup (map ii_name
           (take (member_count w etd_p) (drop i (int_instances w)))) ->
  In ii (take (member_count w etd_p) (drop i (int_instances w))) ->
  INT_MIN <= ii_val ii <= INT_MAX ->
  str_value (statics w) = Some (PyUnicode "value") ->
  exists member,
    sip_api_convert_from_enum NDEBUG scope lazy (ii_val ii) etd_p
      (set_faults [] w') = Ret (Some member) (set_faults [] w') /\
    sip_api_convert_to_enum NDEBUG scope lazy member etd_p (set_faults [] w')
    = Ret (ii_val ii) (set_faults [] w').
Proof.
  intros H Hnames Hd Hin Hv Hval. apply create_enum_object_spec in H
    as (etd & a & f & t & cls & qf & Htd & _ & Hl & Hn & -> & _ & _ & _ & Ha
        & _ & -> & Hm & Ht & _ & Hs & _).
  unfold member_count in *. rewrite Htd in *. simpl in Hl, Hn, Hm.
  rewrite members_of_distinct in Hm
    by (simpl; now apply member_names_distinct).
  simpl in Hm.
  destruct (enum_namespace_members cls qf _
              (member_list_classify cls qf etd _ Hnames)) as (_ & Hall & _).
  rewrite Hall in Hm.
  exists (PyInstance a
            (PyLong (host_value (set_py_type (Some (PyType a)) etd)
                       (ii_val ii)))).
  apply (roundtrip_exec NDEBUG scope lazy (set_faults [] w') etd_p
           (set_py_type (Some (PyType a)) etd) a t
           (PyUnicode (default EmptyString (ii_name ii)))); simpl; auto.
  - rewrite Ht. apply list_lookup_insert_eq. eapply lookup_lt_Some; eauto.
  - now rewrite Hs.
  - rewrite Hm. unfold member_list.
    apply in_map_iff. now exists ii.
Qed.

Lemma created_values_roundtrip_witness :
  exists w' member,
    create_enum_object false demo_client 1 (Some 3%nat) (PyUnicode "Perm")
      ready_world = Ret (Some (PyType 4), Some 6%nat) w' /\
    sip_api_convert_from_enum false no_scope no_lazy_attrs
      (ii_val (mkInt (Some "ALL"%string) (-1))) 1 (set_faults [] w')
    = Ret (Some member) (set_faults [] w') /\
    sip_api_convert_to_enum false no_scope no_lazy_attrs member 1
      (set_faults [] w')
    = Ret (ii_val (mkInt (Some "ALL"%string) (-1))) (set_faults [] w').
Proof.
  exists (world_of
            (create_enum_object false demo_client 1 (Some 3%nat)
               (PyUnicode "Perm") ready_world) ready_world).
  assert (Hc : create_enum_object false demo_client 1 (Some 3%nat)
                 (PyUnicode "Perm") ready_world
               = Ret (Some (PyType 4), Some 6%nat)
                   (world_of
                      (create_enum_object false demo_client 1 (Some 3%nat)
                         (PyUnicode "Perm") ready_world) ready_world))
    by (vm_compute; reflexivity).
  assert (Hd : NoDup (map ii_name
                        (take (member_count ready_world 1)
                           (drop 3 (int_instances ready_world)))))
    by (apply (bool_decide_unpack _); vm_compute; exact I).
  destruct (created_values_roundtrip false no_scope no_lazy_attrs demo_client
              1 3 (PyUnicode "Perm") ready_world (PyType 4) (Some 6%nat) _
              (mkInt (Some "ALL"%string) (-1)) Hc eq_refl Hd)
    as (member & Hfrom & Hto);
    [vm_compute; auto | vm_compute; split; discriminate | reflexivity |].
  exists member. split; [exact Hc|]. now split.
Defined.

(** ** An enum without members *)

(** X17.  For an enum that declares no member (or a negative number of them) a
    successful [create_enum_object] reads no entry: the cursor stays where
    it is and the type object has no member. *)
Theorem create_enum_object_empty (NDEBUG : bool)
    (client : sipExportedModuleDef) (etd_p : nat) (cur : option nat)
    (name : PyObject) (w : World) (etd : sipEnumTypeDef) (obj : PyObject)
    (cur' : option nat) (w' : World) :
  create_enum_object NDEBUG client etd_p cur name w = Ret (Some obj, cur') w' ->
  typedefs w !! etd_p = Some (EnumTypeDef etd) ->
  etd_nr_members etd <= 0 ->
  cur' = cur /\
  exists a t, obj = PyType a /\ heap w' !! a = Some t /\ tp_members t = [].
Proof.
  intros H Htd Hn. apply create_enum_object_spec in H
    as (etd' & a & f & t & cls & qf & Htd' & -> & _ & _ & -> & _ & _ & _ & Ha
        & _ & Hcls & Hm & _).
  rewrite Htd in Htd'. inversion Htd'; subst etd'.
  replace (Z.to_nat (etd_nr_members etd)) with O in * by lia. split.
  - destruct cur as [i|]; simpl; [|done]. now rewrite Nat.add_0_r.
  - exists a, t. repeat split; auto. rewrite Hm. now destruct cur.
Qed.

Lemma create_enum_object_empty_witness :
  exists w',
    create_enum_object false demo_client 0 (Some 6%nat) (PyUnicode "Level")
      (set_typedefs
         [EnumTypeDef (mkEnumTypeDef None "Level" SIP_ENUM_ENUM (-1) 0 None)]
         ready_world)
    = Ret (Some (PyType 4), Some 6%nat) w' /\
    Some 6%nat = Some 6%nat /\
    exists a t, PyType 4 = PyType a /\ heap w' !! a = Some t /\
                tp_members t = [].
Proof.
  eexists. split; [vm_compute; reflexivity|].
  apply (create_enum_object_empty false demo_client 0 (Some 6%nat)
           (PyUnicode "Level")
           (set_typedefs
              [EnumTypeDef
                 (mkEnumTypeDef None "Level" SIP_ENUM_ENUM (-1) 0 None)]
              ready_world)
           (mkEnumTypeDef None "Level" SIP_ENUM_ENUM (-1) 0 None));
    [vm_compute; reflexivity | reflexivity | simpl; lia].
Defined.

(** ** Flags are enums *)

Lemma subclass_trans h a b c :
  subclass h a b -> subclass h b c -> subclass h a c.
Proof.
  induction 1 as [a|a t p b Ha Hp H IH]; [done|].
  intros Hc. eapply subclass_base; eauto.
Qed.

(** X18.  When [enum.Flag] derives from [enum.Enum], whatever
    [sip_api_is_enum_flag] accepts, [sip_enum_is_enum] accepts as well. *)
Theorem flag_is_enum (w : World) (e f : nat) (obj : PyObject) (w1 : World) :
  bases_below (heap w) = true ->
  enum_type (statics w) = Some (PyType e) ->
  flag_type (statics w) = Some (PyType f) ->
  live (heap w) (PyType e) = true ->
  subclass (heap w) f e ->
  sip_api_is_enum_flag obj w = Ret 1 w1 ->
  sip_enum_is_enum obj w = Ret 1 w.
Proof.
  intros Hb He Hf Hle Hfe H. unfold sip_api_is_enum_flag, static in H.
  rewrite bind_assoc, bind_get_world, bind_ret_l, Hf in H.
  bind_step H rc w2 Hrc. unfold PyObject_IsSubclass, deref in Hrc.
  rewrite bind_ret_l in Hrc.
  destruct obj as [| | |a|];
    try (bind_step Hrc u w3 Hu; inversion Hrc; subst; discriminate).
  bind_step Hrc tf w3 Htf. apply load_type_inv in Htf as [-> Htf].
  bind_step Hrc ta w3 Hta. apply load_type_inv in Hta as [-> Hta].
  rewrite bind_get_world in Hrc. inversion Hrc; subst. clear Hrc.
  destruct (PyType_IsSubtype (heap w2) a f) eqn:Hs; [|discriminate].
  apply subtype_fuel_sound in Hs.
  pose proof (subclass_trans _ _ _ _ Hs Hfe) as Hae.
  pose proof (lookup_lt_Some _ _ _ Hta) as Hla.
  apply PyType_IsSubtype_subclass in Hae; auto.
  unfold sip_enum_is_enum, static.
  rewrite bind_assoc, bind_get_world, bind_ret_l, He.
  rewrite (bind_Ret _ _ _ _ _ (PyObject_IsSubclass_types w2 a e
             ltac:(simpl; now apply Nat.ltb_lt) Hle)).
  now rewrite Hae.
Qed.

Lemma flag_is_enum_witness :
  sip_api_is_enum_flag (PyType 5) demo_world = Ret 1 demo_world /\
  sip_enum_is_enum (PyType 5) demo_world = Ret 1 demo_world.
Proof.
  assert (H : sip_api_is_enum_flag (PyType 5) demo_world = Ret 1 demo_world)
    by (vm_compute; reflexivity).
  split; [exact H|].
  apply (flag_is_enum demo_world 0 2 (PyType 5) demo_world);
    try reflexivity; try exact H.
  apply PyType_IsSubtype_subclass; [reflexivity | simpl; lia | reflexivity].
Defined.
